(** * Spiral / cylinder animation scripts: value mapping and phase sequencing

    The repository is a series of revisions of one plotting script
    (spiral_kerman_<timestamp>.py).  Each revision holds a hard-coded
    dataset [rows], a few numeric helpers and one animation callback
    [update(frame)] that rewrites the plot artists for that frame.

    Conventions of the embedding.
    - Python [int] is [Z]; [//] is [Z.div] and [%] is [Z.modulo] (both
      floor-based, as in Python, for the positive divisors used here).
    - Python/NumPy [float] is [Q].  Every finite binary64 value is a
      rational and the comparisons of the scripts ([>=], [<], [>]) are
      exact on them; the arithmetic is read without rounding.  Where a
      revision turns a float into an int with [int(x)] the last bit of
      [x] can decide the result; the revisions modelled with
      [binary64] below round every operation on the way to such an
      [int(x)] as the interpreter does.
    - Indexing ([r[i]], [vals[i]], [labels[i]]) can raise IndexError and
      the dataset guard raises SystemExit; both live in the [result]
      monad below.
    - Plot artists are module-level mutable objects: [update] is a
      function from the artists before the call to the artists after it.
    - A plotted curve [ax.plot(r*cos(theta), r*sin(theta), z, ...)] with
      [theta = linspace(0, 2*pi*p, k)] is kept as its parameters
      (radius, swept fraction [p] of the turn, number of points [k],
      height) instead of the sampled coordinates. *)

From Stdlib Require Import ZArith QArith Qminmax Qround Qabs Lqa Lia List String.
From stdpp Require Import base list.
Import ListNotations.

Local Open Scope string_scope.
Local Open Scope Z_scope.

(** ** Exceptions and the error monad *)

Inductive exn : Type :=
| SystemExit (msg : string)
| IndexError.

Inductive result (A : Type) : Type :=
| Ok (a : A)
| Raise (e : exn).

Arguments Ok {A} a.
Arguments Raise {A} e.

Definition rbind {A B : Type} (m : result A) (k : A -> result B) : result B :=
  match m with
  | Ok a => k a
  | Raise e => Raise e
  end.

Notation "'let!' x ':=' m 'in' k" := (rbind m (fun x => k))
  (at level 10, x name, m at level 100, k at level 200).

Fixpoint for_each {A B : Type} (body : A -> result B) (xs : list A)
  : result (list B) :=
  match xs with
  | [] => Ok []
  | x :: rest =>
      let! y := body x in
      let! ys := for_each body rest in
      Ok (y :: ys)
  end.

Definition succeeds {A : Type} (m : result A) : Prop :=
  exists a, m = Ok a.

(** ** Python sequences *)

(** [xs[i]]: negative indices count from the end, anything outside
    [-len, len) raises IndexError. *)
Definition getitem {A : Type} (xs : list A) (i : Z) : result A :=
  let len := Z.of_nat (length xs) in
  let j := if i <? 0 then len + i else i in
  if (j <? 0) || (len <=? j) then Raise IndexError
  else match xs !! Z.to_nat j with
       | Some x => Ok x
       | None => Raise IndexError
       end.

(** [xs[i] = x] *)
Definition setitem {A : Type} (xs : list A) (i : Z) (x : A) : result (list A) :=
  let len := Z.of_nat (length xs) in
  let j := if i <? 0 then len + i else i in
  if (j <? 0) || (len <=? j) then Raise IndexError
  else Ok (<[Z.to_nat j := x]> xs).

(** [range(k)] *)
Definition range (k : Z) : list Z :=
  map Z.of_nat (seq 0 (Z.to_nat k)).

(** [range(0, k, step)] for a positive [step] *)
Definition range_step (k step : Z) : list Z :=
  map (fun j => Z.of_nat j * step) (seq 0 (Z.to_nat ((k + step - 1) / step))).

(** ** Numeric helpers shared by the revisions *)

Local Open Scope Q_scope.

Definition Qgeb (a b : Q) : bool := Qle_bool b a.
Definition Qltb (a b : Q) : bool := negb (Qle_bool b a).
Definition Qgtb (a b : Q) : bool := negb (Qle_bool a b).

(** Python [int(x)] on a float: truncation towards zero. *)
Definition int_of (x : Q) : Z :=
  if Qle_bool 0 x then Qfloor x else Qceiling x.

(** true division of two ints: the exact quotient.  (The interpreter
    rounds it to a float and raises OverflowError when it is too large
    for one; see [binary64] and [float_overflow] below.) *)
Definition truediv (a b : Z) : Q := inject_Z a / inject_Z b.

(** *** Rounding to binary64

    [binary64 q] is the float nearest to the rational [q]: 53 bits of
    significand, exponents down to the subnormal range, ties to the even
    significand.  A float operation returns [binary64] of the exact
    result of its (float) operands; [a / b] on two ints returns
    [binary64] of the exact quotient.  The exponent is not bounded from
    above here: the one operation of the scripts whose operands are not
    bounded, the division of the frame number, is checked against
    [float_overflow] where it is used. *)

(** 2 ^ e *)
Definition pow2 (e : Z) : Q :=
  if (0 <=? e)%Z then inject_Z (2 ^ e) else 1 # Z.to_pos (2 ^ (- e)).

(** the [e] with 2 ^ e <= a < 2 ^ (e + 1), for a positive [a] *)
Definition log2_floor (a : Q) : Z :=
  let e0 := (Z.log2 (Qnum a) - Z.log2 (Zpos (Qden a)))%Z in
  if Qle_bool (pow2 e0) a then e0 else (e0 - 1)%Z.

(** the integer nearest to a non-negative [x], the even one on a tie *)
Definition round_half_even (x : Q) : Z :=
  let f := Qfloor x in
  match Qcompare (x - inject_Z f) (1 # 2) with
  | Lt => f
  | Gt => (f + 1)%Z
  | Eq => if Z.even f then f else (f + 1)%Z
  end.

Definition binary64 (q : Q) : Q :=
  if Qeq_bool q 0 then 0
  else
    let a := Qabs q in
    let e := Z.max (log2_floor a) (-1022) in
    let ulp := pow2 (e - 52) in
    let v := inject_Z (round_half_even (a / ulp)) * ulp in
    if Qle_bool 0 q then v else - v.

(** The least magnitude that rounds beyond the largest float
    (2^1024 - 2^971): half an ulp above it. *)
Definition float_overflow : Q := inject_Z (2 ^ 1024 - 2 ^ 970).

(** [np.clip(x, lo, hi)] = minimum(hi, maximum(x, lo)) *)
Definition clip (x lo hi : Q) : Q := Qmin hi (Qmax x lo).

Definition lerp (a b t : Q) : Q := a + (b - a) * t.

Definition ease_in_out (t : Q) : Q := t * t * (3 - 2 * t).

Definition ease_out_cubic (t : Q) : Q := 1 - (1 - t) ^ 3.

(** The radius expression of every revision,
    [r_small + np.clip(v / PCT_MAX, 0, 1) * (r_big - r_small)],
    with the three constants as arguments. *)
Definition radiusFor (v valueMax radiusMin radiusMax : Q) : Q :=
  radiusMin + clip (v / valueMax) 0 1 * (radiusMax - radiusMin).

(** ** Colours and status bands *)

Inductive color : Type :=
| RGB (c : Q * Q * Q)
| Hex (code : string).

Definition vibrant_red : Q * Q * Q := (0.95, 0.25, 0.30).
Definition rich_orange : Q * Q * Q := (1.00, 0.60, 0.10).
Definition light_orange : Q * Q * Q := (1.00, 0.80, 0.35).
Definition fresh_green : Q * Q * Q := (0.35, 0.85, 0.45).

Definition pct_color (v : Q) : Q * Q * Q :=
  if Qgeb v 17.0 then vibrant_red
  else if Qgeb v 9.0 then rich_orange
  else if Qgeb v 6.0 then light_orange
  else fresh_green.

Definition get_status (v : Q) : string * string :=
  if Qgeb v 17.0 then ("CRITICAL", "#ff3344")
  else if Qgeb v 9.0 then ("WARNING", "#ff9922")
  else if Qgeb v 6.0 then ("MODERATE", "#ffcc66")
  else ("EXCELLENT", "#35d555").

(** The dataset literal shared by all revisions. *)
Definition rows : list (string * Q) :=
  [ ("1404/09/01", 11.40); ("1404/09/02", 4.44); ("1404/09/03", 16.81);
    ("1404/09/04", 5.26); ("1404/09/05", 5.39); ("1404/09/06", 14.19);
    ("1404/09/08", 10.05); ("1404/09/09", 10.63); ("1404/09/10", 10.93);
    ("1404/09/11", 10.67); ("1404/09/12", 21.14); ("1404/09/13", 11.83);
    ("1404/09/15", 6.33); ("1404/09/16", 4.97); ("1404/09/17", 20.75);
    ("1404/09/18", 10.38); ("1404/09/19", 10.17); ("1404/09/20", 10.95);
    ("1404/09/21", 17.53); ("1404/09/22", 18.05); ("1404/09/23", 8.28);
    ("1404/09/24", 14.52); ("1404/09/25", 9.72); ("1404/09/26", 9.76);
    ("1404/09/27", 15.62); ("1404/09/28", 14.76); ("1404/09/29", 8.34);
    ("1404/09/30", 10.23) ].

(** ** Plot artists *)

(** Text shown by a text artist: a literal, or a value formatted with a
    fixed number of decimals and a percent sign, [f"{v:.1f}%"] /
    [f"{v:.2f}%"] (kept as the value and the precision). *)
Inductive content : Type :=
| Literal (s : string)
| Percent (decimals : Z) (v : Q).

Record text_artist : Type := {
  t_text : content;
  t_color : color;
  t_alpha : Q
}.

Definition set_alpha (a : Q) (t : text_artist) : text_artist :=
  {| t_text := t_text t; t_color := t_color t; t_alpha := a |}.

Definition set_text (c : content) (t : text_artist) : text_artist :=
  {| t_text := c; t_color := t_color t; t_alpha := t_alpha t |}.

Definition set_color (c : color) (t : text_artist) : text_artist :=
  {| t_text := t_text t; t_color := c; t_alpha := t_alpha t |}.

(** A curve added with [ax.plot]: a circle arc of radius [ln_radius]
    sampled at [ln_points] angles from 0 to [ln_turn] turns, at height
    [ln_z]. *)
Record line3d : Type := {
  ln_radius : Q;
  ln_turn : Q;
  ln_points : Z;
  ln_z : Q;
  ln_color : Q * Q * Q;
  ln_alpha : Q;
  ln_lw : Q
}.

(** A label added with [ax.text(x, y, z, s, color="#aaaaaa", alpha=...)]. *)
Record label3d : Type := {
  lb_pos : Q * Q * Q;
  lb_text : string;
  lb_alpha : Q
}.

(** ** The phase walk of the specification

    Follows the spec's words (section 4.3), not the code: walk the
    ordered frame counts accumulating them; the phase whose cumulative
    range [start, start + frameCount) contains the frame is selected and
    the local frame is the frame minus the preceding counts.  A frame
    past the last range finds no phase in the walk (the spec then clamps
    to the last phase).  The walk is compared with the code's if-chain
    further down. *)
Fixpoint spec_walk (phases : list Z) (k : nat) (start globalFrame : Z)
  : option (nat * Z) :=
  match phases with
  | [] => None
  | frameCount :: later =>
      if (globalFrame <? start + frameCount)%Z
      then Some (k, (globalFrame - start)%Z)
      else spec_walk later (S k) (start + frameCount)%Z globalFrame
  end.

Definition spec_resolve (phases : list Z) (globalFrame : Z) : option (nat * Z) :=
  spec_walk phases 0%nat 0%Z globalFrame.

(** ** Revision 20260107081346 (the last one): 2D spiral, 3D cylinder,
       side view, hold *)

Module Rev081346.

Definition PCT_MAX : Q := 22.0.
Definition r_small : Q := 0.35.
Definition r_big : Q := 1.1.

Definition FRAMES_PER_CIRCLE : Z := 40.
Definition PHASE2_FRAMES : Z := 120.
Definition PHASE3_FRAMES : Z := 150.
Definition HOLD_FRAMES : Z := 90.

(** The artists [update] touches.  [title_text] and [subtitle_text] are
    created once and never modified, they are left out. *)
Record figure : Type := {
  lines : list line3d;
  date_labels_3d : list label3d;
  main_text : text_artist;
  date_text : text_artist;
  view : Q * Q
}.

(** The branch of [update] taken for a frame, with the locals computed
    at the head of that branch. *)
Inductive branch : Type :=
| Phase1 (circle_idx : Z) (circle_progress : Q)
| Phase2 (phase_progress t : Q)
| Phase3 (phase_progress t : Q)
| Hold.

Definition phase_index (b : branch) : nat :=
  match b with
  | Phase1 _ _ => 0
  | Phase2 _ _ => 1
  | Phase3 _ _ => 2
  | Hold => 3
  end.

(** camera of phases 2 and 3 as a function of the eased progress *)
Definition view_phase2 (t : Q) : Q * Q := (90 - 45 * t, -90 + 15 * t).
Definition view_phase3 (t : Q) : Q * Q := (45 - 45 * t, -75 + 75 * t).

Section Script.

Variable rows : list (string * Q).

Definition labels : list string := map fst rows.
Definition vals : list Q := map snd rows.
Definition n : Z := Z.of_nat (length vals).

Definition r : list Q := map (fun v => radiusFor v PCT_MAX r_small r_big) vals.

Definition PHASE1_FRAMES : Z := n * FRAMES_PER_CIRCLE.
Definition total_frames : Z :=
  PHASE1_FRAMES + PHASE2_FRAMES + PHASE3_FRAMES + HOLD_FRAMES.

Definition phase_counts : list Z :=
  [PHASE1_FRAMES; PHASE2_FRAMES; PHASE3_FRAMES; HOLD_FRAMES].

Definition initial_figure : figure :=
  {| lines := [];
     date_labels_3d := [];
     main_text := {| t_text := Literal ""; t_color := Hex "#ffffff"; t_alpha := 0.0 |};
     date_text := {| t_text := Literal ""; t_color := Hex "#aaaaaa"; t_alpha := 0.0 |};
     view := (90, -90) |}.

(** The module body up to the creation of the animation: the only
    [raise] is the guard on the dataset. *)
Definition startup : result figure :=
  if (n =? 0)%Z then Raise (SystemExit "rows is empty")
  else Ok initial_figure.

(** The first statements of the phase-1 branch: the circle being drawn
    and its eased drawing progress, with the clamp to the last circle. *)
Definition current_circle (frame : Z) : Z * Q :=
  let circle_idx := (frame / FRAMES_PER_CIRCLE)%Z in
  let circle_progress :=
    truediv (frame mod FRAMES_PER_CIRCLE) FRAMES_PER_CIRCLE in
  let circle_progress := ease_out_cubic circle_progress in
  if (circle_idx >=? n)%Z then ((n - 1)%Z, 1.0)
  else (circle_idx, circle_progress).

(** The if/elif chain of [update] and the first statements of each
    branch. *)
Definition select (frame : Z) : branch :=
  if (frame <? PHASE1_FRAMES)%Z then
    Phase1 (fst (current_circle frame)) (snd (current_circle frame))
  else if (frame <? PHASE1_FRAMES + PHASE2_FRAMES)%Z then
    let phase_progress := truediv (frame - PHASE1_FRAMES) PHASE2_FRAMES in
    Phase2 phase_progress (ease_in_out phase_progress)
  else if (frame <? PHASE1_FRAMES + PHASE2_FRAMES + PHASE3_FRAMES)%Z then
    let phase_progress :=
      truediv (frame - PHASE1_FRAMES - PHASE2_FRAMES) PHASE3_FRAMES in
    Phase3 phase_progress (ease_in_out phase_progress)
  else Hold.

(** one full circle [i] at height [z] *)
Definition full_circle (z alpha lw : Q) (i : Z) : result line3d :=
  let! ri := getitem r i in
  let! vi := getitem vals i in
  Ok {| ln_radius := ri; ln_turn := 1; ln_points := 200; ln_z := z;
        ln_color := pct_color vi; ln_alpha := alpha; ln_lw := lw |}.

(** the date labels of the side view, every second circle *)
Definition side_labels (z_spacing alpha : Q) : result (list label3d) :=
  for_each
    (fun i =>
       let! li := getitem labels i in
       Ok {| lb_pos := (1.5, 0, inject_Z i * z_spacing);
             lb_text := li; lb_alpha := alpha |})
    (range_step n 2).

Definition draw_phase1 (frame circle_idx : Z) (circle_progress : Q)
    (fig : figure) : result figure :=
  let! previous :=
    for_each
      (fun i => full_circle 0 (Qmax (0.5 - inject_Z i * 0.015) 0.15) 2.0 i)
      (range circle_idx) in
  let! current :=
    if (circle_idx <? n)%Z then
      let num_points := int_of (200 * circle_progress) in
      if (num_points >=? 2)%Z then
        let! ri := getitem r circle_idx in
        let! vi := getitem vals circle_idx in
        let arc alpha lw :=
          {| ln_radius := ri; ln_turn := circle_progress;
             ln_points := num_points; ln_z := 0;
             ln_color := pct_color vi; ln_alpha := alpha; ln_lw := lw |} in
        Ok [arc 0.95 2.8; arc 0.3 6.0]
      else Ok []
    else Ok [] in
  let! texts :=
    if (circle_idx <? n)%Z then
      if Qgtb circle_progress 0.7 then
        let text_alpha := (circle_progress - 0.7) / 0.3 in
        let! vi := getitem vals circle_idx in
        let! li := getitem labels circle_idx in
        Ok ({| t_text := Percent 1 vi; t_color := RGB (pct_color vi);
               t_alpha := text_alpha * 0.8 |},
            set_alpha (text_alpha * 0.7) (set_text (Literal li) (date_text fig)))
      else if Qltb (inject_Z frame) (inject_Z FRAMES_PER_CIRCLE * 0.3) then
        let fade :=
          1 - inject_Z (frame mod FRAMES_PER_CIRCLE)
              / (inject_Z FRAMES_PER_CIRCLE * 0.3) in
        Ok (set_alpha (fade * 0.8) (main_text fig),
            set_alpha (fade * 0.7) (date_text fig))
      else
        Ok (set_alpha 0 (main_text fig), set_alpha 0 (date_text fig))
    else Ok (main_text fig, date_text fig) in
  Ok {| lines := previous ++ current;
        date_labels_3d := [];
        main_text := fst texts;
        date_text := snd texts;
        view := (90, -90) |}.

Definition draw_phase2 (t : Q) (fig : figure) : result figure :=
  let z_spacing := 0.1 * t in
  let! circles :=
    for_each
      (fun i => full_circle (inject_Z i * z_spacing)
                  (Qmax (0.75 - inject_Z i * 0.01) 0.3) 2.2 i)
      (range n) in
  Ok {| lines := circles;
        date_labels_3d := [];
        main_text := set_alpha (0.8 * (1 - t)) (main_text fig);
        date_text := set_alpha (0.7 * (1 - t)) (date_text fig);
        view := view_phase2 t |}.

Definition draw_phase3 (t : Q) (fig : figure) : result figure :=
  let z_spacing := 0.1 in
  let! circles :=
    for_each (fun i => full_circle (inject_Z i * z_spacing) 0.85 2.5 i)
      (range n) in
  let! date_labels :=
    if Qgtb t 0.4 then
      let label_alpha := Qmin 1.0 ((t - 0.4) / 0.3) in
      side_labels z_spacing (label_alpha * 0.85)
    else Ok [] in
  Ok {| lines := circles;
        date_labels_3d := date_labels;
        main_text := set_alpha 0 (main_text fig);
        date_text := set_alpha 0 (date_text fig);
        view := view_phase3 t |}.

Definition draw_hold (fig : figure) : result figure :=
  let z_spacing := 0.1 in
  let! circles :=
    for_each (fun i => full_circle (inject_Z i * z_spacing) 0.85 2.5 i)
      (range n) in
  let! date_labels := side_labels z_spacing 0.85 in
  Ok {| lines := circles;
        date_labels_3d := date_labels;
        main_text := set_alpha 0 (main_text fig);
        date_text := set_alpha 0 (date_text fig);
        view := (0, 0) |}.

(** [update(frame)]: the old curves and labels are removed, the branch
    for the frame redraws them and the camera is set. *)
Definition update (frame : Z) (fig : figure) : result figure :=
  match select frame with
  | Phase1 circle_idx circle_progress =>
      draw_phase1 frame circle_idx circle_progress fig
  | Phase2 _ t => draw_phase2 t fig
  | Phase3 _ t => draw_phase3 t fig
  | Hold => draw_hold fig
  end.

End Script.

End Rev081346.

(** ** Revision 20260106133304: one circle after the other, each drawn
       for FRAMES_PER_CIRCLE frames and then held for HOLD_FRAMES *)

Module Rev133304.

Definition FRAMES_PER_CIRCLE : Z := 25.
Definition HOLD_FRAMES : Z := 5.

(** The locals computed by the first statements of [update]. *)
Record item_state : Type := {
  item_frame : Z;
  i : Z;
  draw_progress : Q
}.

Section Script.

Variable rows : list (string * Q).

Definition vals : list Q := map snd rows.
Definition n : Z := Z.of_nat (length vals).
Definition total_frames : Z := n * (FRAMES_PER_CIRCLE + HOLD_FRAMES).

(** The head of [update] (item frame, item index, drawing progress);
    the rest of the callback draws the trail from these three values. *)
Definition update_item (frame : Z) : item_state :=
  let item_frame := (frame mod (FRAMES_PER_CIRCLE + HOLD_FRAMES))%Z in
  let i := Z.min (n - 1) (frame / (FRAMES_PER_CIRCLE + HOLD_FRAMES)) in
  let draw_progress :=
    if (item_frame <? FRAMES_PER_CIRCLE)%Z then
      let draw_progress := truediv item_frame FRAMES_PER_CIRCLE in
      1 - (1 - draw_progress) ^ 2
    else 1.0 in
  {| item_frame := item_frame; i := i; draw_progress := draw_progress |}.

End Script.

End Rev133304.

(** ** Revision 20260106133111: flat view, transition, cylinder build-up

    Floats are exact rationals throughout this revision: the indices
    [int(frame / 60 * n)] and [int(progress * n)] are truncations of the
    exact products.  The properties of phases 1 and 3 further down are
    stated for the frames on which the rounded computation truncates to
    the same index, and for frame numbers of the animation. *)

Module Rev133111.

Definition PHASE1_FRAMES : Z := 60.
Definition PHASE2_FRAMES : Z := 80.
Definition PHASE3_FRAMES : Z := 120.
Definition total_frames : Z := PHASE1_FRAMES + PHASE2_FRAMES + PHASE3_FRAMES.

Definition PCT_MAX : Q := 22.0.
Definition r_min : Q := 0.3.
Definition r_max : Q := 1.2.

(** One of the preallocated [circles_3d] lines: its data (radius and
    height of the circle, [None] when emptied), its colour ([None] is
    the colour matplotlib gave it at creation), opacity and width. *)
Record circle_artist : Type := {
  c_data : option (Q * Q);
  c_color : option (Q * Q * Q);
  c_alpha : Q;
  c_lw : Q
}.

Record figure : Type := {
  circles_3d : list circle_artist;
  date_text : text_artist;
  value_text : text_artist;
  view : option (Q * Q)
}.

Definition clear_circle (c : circle_artist) : circle_artist :=
  {| c_data := None; c_color := c_color c; c_alpha := 0.0; c_lw := c_lw c |}.

(** a circle artist after [set_data], [set_3d_properties], [set_color],
    [set_alpha] and [set_linewidth]: radius [rj] at height [z], in the
    colour of the value [vj] *)
Definition drawn (z alpha lw : Q) (rj vj : Q) : circle_artist :=
  {| c_data := Some (rj, z); c_color := Some (pct_color vj);
     c_alpha := alpha; c_lw := lw |}.

(** [for x in xs: state = body(x, state)] *)
Fixpoint for_fold {A S : Type} (body : A -> S -> result S) (xs : list A) (s : S)
  : result S :=
  match xs with
  | [] => Ok s
  | x :: rest => let! s' := body x s in for_fold body rest s'
  end.

Section Script.

Variable rows : list (string * Q).

Definition labels : list string := map fst rows.
Definition vals : list Q := map snd rows.
Definition n : Z := Z.of_nat (length vals).

Definition radii : list Q := map (fun v => radiusFor v PCT_MAX r_min r_max) vals.

Definition initial_figure : figure :=
  {| circles_3d :=
       map (fun _ => {| c_data := None; c_color := None; c_alpha := 0.0; c_lw := 2.5 |})
           (range n);
     date_text := {| t_text := Literal ""; t_color := Hex "#aaaaaa"; t_alpha := 1 |};
     value_text := {| t_text := Literal ""; t_color := Hex "white"; t_alpha := 1 |};
     view := None |}.

(** The module body up to the creation of the animation; this revision
    has no guard and no [raise]. *)
Definition startup : result figure := Ok initial_figure.

(** [circles_3d[i].set_data(...); .set_3d_properties(z); .set_color(...);
     .set_alpha(a); .set_linewidth(lw)] *)
Definition put_circle (i : Z) (z alpha lw : Q) (circles : list circle_artist)
  : result (list circle_artist) :=
  let! ri := getitem radii i in
  let! _c := getitem circles i in
  let! vi := getitem vals i in
  setitem circles i
    {| c_data := Some (ri, z); c_color := Some (pct_color vi);
       c_alpha := alpha; c_lw := lw |}.

Definition update (frame : Z) (fig : figure) : result figure :=
  let cleared := map clear_circle (circles_3d fig) in
  if (frame <? PHASE1_FRAMES)%Z then
    let idx := int_of (truediv frame PHASE1_FRAMES * inject_Z n) in
    let idx := Z.min idx (n - 1) in
    let! ri := getitem radii idx in
    let! _c := getitem cleared 0 in
    let! vi := getitem vals idx in
    let! circles :=
      setitem cleared 0
        {| c_data := Some (ri, 0); c_color := Some (pct_color vi);
           c_alpha := 0.95; c_lw := 3.0 |} in
    let! li := getitem labels idx in
    Ok {| circles_3d := circles;
          date_text := set_text (Literal li) (date_text fig);
          value_text :=
            set_color (RGB (pct_color vi))
              (set_text (Percent 2 vi) (value_text fig));
          view := Some (90, 0) |}
  else if (frame <? PHASE1_FRAMES + PHASE2_FRAMES)%Z then
    let progress := truediv (frame - PHASE1_FRAMES) PHASE2_FRAMES in
    let progress := ease_in_out progress in
    let elev := lerp 90 25 progress in
    let azim := lerp 0 (-60) progress in
    let num_show := (int_of (progress * 8) + 1)%Z in
    let! circles :=
      for_fold
        (fun i cs => put_circle i (inject_Z i * 0.15 * progress) 0.85 2.5 cs)
        (range (Z.min num_show n)) cleared in
    Ok {| circles_3d := circles;
          date_text := set_text (Literal "Building Cylinder...") (date_text fig);
          value_text := set_text (Literal "") (value_text fig);
          view := Some (elev, azim) |}
  else
    let progress :=
      truediv (frame - PHASE1_FRAMES - PHASE2_FRAMES) PHASE3_FRAMES in
    let azim := -60 + progress * 30 in
    let num_show := int_of (progress * inject_Z n) in
    let num_show := Z.min num_show n in
    let! circles :=
      for_fold
        (fun i cs =>
           let age_factor := 1.0 - truediv i (Z.max 1 num_show) * 0.3 in
           put_circle i (inject_Z i * 0.15) (0.75 * age_factor) 2.2 cs)
        (range num_show) cleared in
    let! texts :=
      if (num_show >? 0)%Z then
        let current_idx := (num_show - 1)%Z in
        let! li := getitem labels current_idx in
        let! vi := getitem vals current_idx in
        Ok (set_text (Literal li) (date_text fig),
            set_color (RGB (pct_color vi))
              (set_text (Percent 2 vi) (value_text fig)))
      else Ok (date_text fig, value_text fig) in
    let! circles :=
      if (num_show >? 0)%Z then
        let! c := getitem circles (num_show - 1) in
        setitem circles (num_show - 1)
          {| c_data := c_data c; c_color := c_color c;
             c_alpha := 0.95; c_lw := 3.5 |}
      else Ok circles in
    Ok {| circles_3d := circles;
          date_text := fst texts;
          value_text := snd texts;
          view := Some (25, azim) |}.

End Script.

End Rev133111.

(** ** Revision 20260106133304, the drawing part of [update]: the trail
       of the last circles, the slow rotation and the three texts *)

Module Rev133304Draw.

Definition PCT_MAX : Q := 22.0.
Definition r_min : Q := 0.3.
Definition r_max : Q := 1.2.
Definition TRAIL : Z := 8.

(** This revision divides the frame number by [total_frames], which is
    0 for an empty dataset: next to the exceptions of the other
    revisions there are ZeroDivisionError and, for a frame number whose
    quotient is too large for a float, OverflowError. *)
Inductive error : Type :=
| Builtin (e : exn)
| ZeroDivisionError
| OverflowError.

Inductive attempt (A : Type) : Type :=
| Done (a : A)
| Failed (e : error).

Arguments Done {A} a.
Arguments Failed {A} e.

Definition lift {A : Type} (m : result A) : attempt A :=
  match m with
  | Ok a => Done a
  | Raise e => Failed (Builtin e)
  end.

(** [a / b] on two ints: "division by zero" for [b = 0], "integer
    division result too large for a float" when the quotient rounds
    beyond the largest float *)
Definition checked_truediv {A : Type} (a b : Z) (k : Q -> attempt A)
  : attempt A :=
  if (b =? 0)%Z then Failed ZeroDivisionError
  else if Qle_bool float_overflow (Qabs (truediv a b)) then Failed OverflowError
  else k (truediv a b).

(** One of the preallocated lines of [circles_3d] / [glows_3d]: its data
    (radius, number of sampled angles out of the 200 of the full circle,
    height; [None] when emptied), colour ([None] is the colour given at
    creation), opacity and width. *)
Record curve_artist : Type := {
  a_data : option (Q * Z * Q);
  a_color : option (Q * Q * Q);
  a_alpha : Q;
  a_lw : Q
}.

Record figure : Type := {
  circles_3d : list curve_artist;
  glows_3d : list curve_artist;
  value_text : text_artist;
  status_text : text_artist;
  date_text : text_artist;
  view : Q * Q
}.

(** [set_data([], []); set_3d_properties([]); set_alpha(0.0)] *)
Definition clear (a : curve_artist) : curve_artist :=
  {| a_data := None; a_color := a_color a; a_alpha := 0.0; a_lw := a_lw a |}.

(** [for line, glow in zip(circles_3d, glows_3d): clear both] *)
Definition clear_zipped (circles glows : list curve_artist)
  : list curve_artist * list curve_artist :=
  let k := Nat.min (length circles) (length glows) in
  ((map clear (take k circles) ++ drop k circles)%list,
   (map clear (take k glows) ++ drop k glows)%list).

(** [range(a, b)] *)
Definition range_from (a b : Z) : list Z :=
  map (fun k => (a + k)%Z) (range (b - a)).

(** [enumerate(xs)] *)
Definition enumerate {A : Type} (xs : list A) : list (Z * A) :=
  combine (range (Z.of_nat (length xs))) xs.

(** [draw_progress] as a float: the value of [Rev133304.update_item]
    with every operation rounded ([x ** 2] is the rounded square).  The
    loop below truncates 200 times this value to the number of points
    to draw. *)
Definition draw_progress (item_frame : Z) : Q :=
  if (item_frame <? Rev133304.FRAMES_PER_CIRCLE)%Z then
    let draw_progress :=
      binary64 (truediv item_frame Rev133304.FRAMES_PER_CIRCLE) in
    binary64 (1 - binary64 (binary64 (1 - draw_progress) ^ 2))
  else 1.0.

Section Script.

Variable rows : list (string * Q).

Definition labels : list string := map fst rows.
Definition vals : list Q := Rev133304.vals rows.
Definition n : Z := Rev133304.n rows.
Definition total_frames : Z := Rev133304.total_frames rows.

Definition radii : list Q := map (fun v => radiusFor v PCT_MAX r_min r_max) vals.

Definition initial_figure : figure :=
  {| circles_3d :=
       map (fun _ => {| a_data := None; a_color := None;
                        a_alpha := 0.0; a_lw := 2.5 |}) (range n);
     glows_3d :=
       map (fun _ => {| a_data := None; a_color := None;
                        a_alpha := 0.0; a_lw := 5.0 |}) (range n);
     value_text := {| t_text := Literal ""; t_color := Hex "white"; t_alpha := 0.95 |};
     status_text := {| t_text := Literal ""; t_color := Hex "white"; t_alpha := 0.9 |};
     date_text := {| t_text := Literal ""; t_color := Hex "#aaaaaa"; t_alpha := 0.9 |};
     view := (25, -60) |}.


(** The body of [for k, j in enumerate(recent)]: a circle before the
    current one is drawn in full, the current one up to its progress
    (and skipped while it has fewer than two points). *)
Definition draw_one (i : Z) (draw_progress : Q) (denom : Z) (kj : Z * Z)
    (st : list curve_artist * list curve_artist)
  : result (list curve_artist * list curve_artist) :=
  let k := fst kj in
  let j := snd kj in
  let z_level := inject_Z j * 0.15 in
  let! shape :=
    if (j <? i)%Z then
      let! r := getitem radii j in
      Ok (Some (r, 200%Z, z_level))
    else
      let num_points := 200%Z in
      let points_to_draw :=
        int_of (binary64 (inject_Z num_points * draw_progress)) in
      if (points_to_draw <? 2)%Z then Ok None
      else
        let! r := getitem radii j in
        Ok (Some (r, Z.min points_to_draw num_points, z_level)) in
  match shape with
  | None => Ok st
  | Some shown =>
      let! v := getitem vals j in
      let color := pct_color v in
      let fade := if (j <? i)%Z then lerp 0.20 0.70 (truediv k denom) else 0.95 in
      let line_width := if (j <? i)%Z then 2.0 else 3.0 in
      let glow_width := if (j <? i)%Z then 4.5 else 6.5 in
      let! _glow := getitem (snd st) j in
      let! glows :=
        setitem (snd st) j
          {| a_data := Some shown; a_color := Some color;
             a_alpha := fade * 0.2; a_lw := glow_width |} in
      let! _line := getitem (fst st) j in
      let! circles :=
        setitem (fst st) j
          {| a_data := Some shown; a_color := Some color;
             a_alpha := fade; a_lw := line_width |} in
      Ok (circles, glows)
  end.

(** [update(frame)] *)
Definition update (frame : Z) (fig : figure) : attempt figure :=
  let item := Rev133304.update_item rows frame in
  let item_frame := Rev133304.item_frame item in
  let i := Rev133304.i item in
  let draw_progress := draw_progress item_frame in
  checked_truediv frame total_frames (fun ratio =>
  let rotation := ratio * 30 in
  let cleared := clear_zipped (circles_3d fig) (glows_3d fig) in
  let start := Z.max 0 (i - TRAIL + 1) in
  let recent := range_from start (i + 1) in
  let denom := Z.max 1 (Z.of_nat (length recent) - 1) in
  lift
    (let! shown :=
       Rev133111.for_fold (draw_one i draw_progress denom)
         (enumerate recent) cleared in
     let ramp (full : Q) (t : text_artist) :=
       if (item_frame <? 10)%Z
       then set_alpha (truediv item_frame 10 * full) t else t in
     let! vi := getitem vals i in
     let! li := getitem labels i in
     let status := get_status vi in
     Ok {| circles_3d := fst shown;
           glows_3d := snd shown;
           value_text :=
             set_color (RGB (pct_color vi))
               (set_text (Percent 2 vi) (ramp 0.95 (value_text fig)));
           status_text :=
             set_color (Hex (snd status))
               (set_text (Literal (fst status)) (ramp 0.9 (status_text fig)));
           date_text := set_text (Literal li) (ramp 0.9 (date_text fig));
           view := (25, -60 + rotation) |})).

End Script.

End Rev133304Draw.

(** ** Revision 20260107073806: the animation callback around
       [pct_color] and [get_status] *)

Module Rev073806.

Import Rev133304Draw.

Definition PCT_MAX : Q := 22.0.
Definition r_small : Q := 0.22.
Definition r_big : Q := 0.95.

Definition PHASE2_FRAMES : Z := 90.
Definition PHASE3_FRAMES : Z := 120.
Definition HOLD_FRAMES : Z := 60.

(** The artists [update] touches ([title_text] and [subtitle_text] are
    never modified). *)
Record figure : Type := {
  lines : list line3d;
  date_labels_3d : list label3d;
  main_text : text_artist;
  status_text : text_artist;
  date_text : text_artist;
  view : Q * Q
}.

Section Script.

Variable rows : list (string * Q).

Definition labels : list string := map fst rows.
Definition vals : list Q := map snd rows.
Definition n : Z := Z.of_nat (length vals).

Definition r : list Q := map (fun v => radiusFor v PCT_MAX r_small r_big) vals.

Definition PHASE1_FRAMES : Z := n * 35.
Definition total_frames : Z :=
  PHASE1_FRAMES + PHASE2_FRAMES + PHASE3_FRAMES + HOLD_FRAMES.

Definition initial_figure : figure :=
  {| lines := [];
     date_labels_3d := [];
     main_text := {| t_text := Literal ""; t_color := Hex "#ffffff"; t_alpha := 0.95 |};
     status_text := {| t_text := Literal ""; t_color := Hex "#35d555"; t_alpha := 0.9 |};
     date_text := {| t_text := Literal ""; t_color := Hex "#aaaaaa"; t_alpha := 0.9 |};
     view := (90, 0) |}.

Definition startup : result figure :=
  if (n =? 0)%Z then Raise (SystemExit "rows is empty")
  else Ok initial_figure.

(** one full circle [i] at height [z] *)
Definition full_circle (z alpha lw : Q) (i : Z) : result line3d :=
  let! ri := getitem r i in
  let! vi := getitem vals i in
  Ok {| ln_radius := ri; ln_turn := 1; ln_points := 200; ln_z := z;
        ln_color := pct_color vi; ln_alpha := alpha; ln_lw := lw |}.

(** [for i in range(0, n, step): ax.text(1.0, 0, i * z_spacing, labels[i], ...)] *)
Definition side_labels (step : Z) (z_spacing alpha : Q)
  : result (list label3d) :=
  for_each
    (fun i =>
       let! li := getitem labels i in
       Ok {| lb_pos := (1.0, 0, inject_Z i * z_spacing);
             lb_text := li; lb_alpha := alpha |})
    (range_step n step).

Definition update (frame : Z) (fig : figure) : attempt figure :=
  if (frame <? PHASE1_FRAMES)%Z then
    checked_truediv frame PHASE1_FRAMES (fun phase_progress =>
    let item_idx :=
      int_of (binary64 (binary64 phase_progress * binary64 (inject_Z n))) in
    let item_idx := if (item_idx >=? n)%Z then (n - 1)%Z else item_idx in
    lift
      (let! circles :=
         for_each
           (fun i => full_circle 0 (if (i =? item_idx)%Z then 0.8 else 0.4)
                       (if (i =? item_idx)%Z then 2.5 else 1.5) i)
           (range (item_idx + 1)) in
       let! texts :=
         if (item_idx <? n)%Z then
           let! vi := getitem vals item_idx in
           let! li := getitem labels item_idx in
           let status := get_status vi in
           Ok (set_color (RGB (pct_color vi))
                 (set_text (Percent 2 vi) (main_text fig)),
               set_text (Literal li) (date_text fig),
               set_color (Hex (snd status))
                 (set_text (Literal (fst status)) (status_text fig)))
         else Ok (main_text fig, date_text fig, status_text fig) in
       Ok {| lines := circles;
             date_labels_3d := [];
             main_text := fst (fst texts);
             status_text := snd texts;
             date_text := snd (fst texts);
             view := (90, 0) |}))
  else if (frame <? PHASE1_FRAMES + PHASE2_FRAMES)%Z then
    let phase_progress := truediv (frame - PHASE1_FRAMES) PHASE2_FRAMES in
    let t := ease_in_out phase_progress in
    let z_spacing := 0.08 * t in
    lift
      (let! circles :=
         for_each (fun i => full_circle (inject_Z i * z_spacing) 0.7 2.0 i)
           (range n) in
       Ok {| lines := circles;
             date_labels_3d := [];
             main_text := set_alpha (0.95 * (1 - t)) (main_text fig);
             status_text := set_alpha (0.9 * (1 - t)) (status_text fig);
             date_text := set_alpha (0.9 * (1 - t)) (date_text fig);
             view := (90 - 40 * t, 0) |})
  else if (frame <? PHASE1_FRAMES + PHASE2_FRAMES + PHASE3_FRAMES)%Z then
    let phase_progress :=
      truediv (frame - PHASE1_FRAMES - PHASE2_FRAMES) PHASE3_FRAMES in
    let t := ease_in_out phase_progress in
    let z_spacing := 0.08 in
    lift
      (let! circles :=
         for_each (fun i => full_circle (inject_Z i * z_spacing) 0.8 2.0 i)
           (range n) in
       let! date_labels :=
         if Qgtb t 0.5 then
           let label_alpha := (t - 0.5) * 2 in
           side_labels 3 z_spacing label_alpha
         else Ok [] in
       Ok {| lines := circles;
             date_labels_3d := date_labels;
             main_text := set_alpha 0 (main_text fig);
             status_text := set_alpha 0 (status_text fig);
             date_text := set_alpha 0 (date_text fig);
             view := (50 - 50 * t, 0 + 0 * t) |})
  else
    let z_spacing := 0.08 in
    lift
      (let! circles :=
         for_each (fun i => full_circle (inject_Z i * z_spacing) 0.8 2.0 i)
           (range n) in
       let! date_labels := side_labels 2 z_spacing 0.9 in
       Ok {| lines := circles;
             date_labels_3d := date_labels;
             main_text := set_alpha 0 (main_text fig);
             status_text := set_alpha 0 (status_text fig);
             date_text := set_alpha 0 (date_text fig);
             view := (0, 0) |}).

End Script.

End Rev073806.

(** The three-point dataset of the end-to-end scenario. *)
Definition scenario_rows : list (string * Q) :=
  [("p0", 5.0); ("p1", 10.0); ("p2", 20.0)].

(** ** Comparing numbers and camera angles *)

(** [x] is [c] up to the tolerance [tol] *)
Definition close_to (tol x c : Q) : Prop := Qabs (x - c) <= tol.

(** two (elevation, azimuth) pairs denote the same angles *)
Definition same_view (a b : Q * Q) : Prop :=
  fst a == fst b /\ snd a == snd b.

(** an opacity that matplotlib accepts: [set_alpha] and [plot(alpha=...)]
    raise ValueError outside of [0, 1] *)
Definition unit_interval (a : Q) : Prop := 0 <= a /\ a <= 1.

(** a test holds for 0, 1, ..., k-1 *)
Definition holds_below (k : Z) (test : Z -> bool) : bool :=
  forallb test (range k).

(** * Properties *)

(** ** Comparisons *)

Lemma Qgeb_cases (a b : Q) :
  (Qgeb a b = true /\ b <= a) \/ (Qgeb a b = false /\ a < b).
Proof.
  unfold Qgeb. destruct (Qle_bool b a) eqn:E.
  - left. split; [reflexivity | now apply Qle_bool_iff].
  - right. split; [reflexivity |].
    apply Qnot_le_lt. intros H. apply Qle_bool_iff in H. congruence.
Qed.

Lemma Qltb_cases (a b : Q) :
  (Qltb a b = true /\ a < b) \/ (Qltb a b = false /\ b <= a).
Proof.
  unfold Qltb. destruct (Qgeb_cases a b) as [[E H] | [E H]];
    unfold Qgeb in E; rewrite E; simpl; auto.
Qed.

Lemma Qgtb_cases (a b : Q) :
  (Qgtb a b = true /\ b < a) \/ (Qgtb a b = false /\ a <= b).
Proof.
  unfold Qgtb. destruct (Qgeb_cases b a) as [[E H] | [E H]];
    unfold Qgeb in E; rewrite E; simpl; auto.
Qed.

(** case analysis on the three thresholds of [pct_color] / [get_status] *)
Ltac bands v :=
  destruct (Qgeb_cases v 17.0) as [[?E17 ?H17] | [?E17 ?H17]];
  destruct (Qgeb_cases v 9.0) as [[?E9 ?H9] | [?E9 ?H9]];
  destruct (Qgeb_cases v 6.0) as [[?E6 ?H6] | [?E6 ?H6]];
  try (exfalso; lra).

(** ** Value mapping *)

(** C4. The status label and the colour of a value are chosen by the
    thresholds 17, 9 and 6, tested from the highest down with [>=]:
    CRITICAL / vibrant red exactly for v >= 17, WARNING / rich orange
    exactly for 9 <= v < 17, MODERATE / light orange exactly for
    6 <= v < 9 and EXCELLENT / green exactly for v < 6; the six boundary
    samples 17.0, 16.999, 9.0, 8.999, 6.0 and 5.999 fall in the upper
    band at the thresholds and in the lower band just below them. *)
Theorem status_bands (v : Q) :
  (fst (get_status v) = "CRITICAL" <-> 17 <= v) /\
  (fst (get_status v) = "WARNING" <-> 9 <= v /\ v < 17) /\
  (fst (get_status v) = "MODERATE" <-> 6 <= v /\ v < 9) /\
  (fst (get_status v) = "EXCELLENT" <-> v < 6) /\
  (pct_color v = vibrant_red <-> 17 <= v) /\
  (pct_color v = rich_orange <-> 9 <= v /\ v < 17) /\
  (pct_color v = light_orange <-> 6 <= v /\ v < 9) /\
  (pct_color v = fresh_green <-> v < 6) /\
  map (fun x => fst (get_status x)) [17.0; 16.999; 9.0; 8.999; 6.0; 5.999]
  = ["CRITICAL"; "WARNING"; "WARNING"; "MODERATE"; "MODERATE"; "EXCELLENT"].
Proof.
  unfold get_status, pct_color.
  bands v; rewrite ?E17, ?E9, ?E6; simpl;
    repeat split; intros; try discriminate; try reflexivity; try lra.
Qed.

(** C9. For every value the colour and the status label come from the
    same band: red with CRITICAL, rich orange with WARNING, light orange
    with MODERATE, green with EXCELLENT. *)
Theorem color_agrees_with_status (v : Q) :
  (pct_color v = vibrant_red <-> fst (get_status v) = "CRITICAL") /\
  (pct_color v = rich_orange <-> fst (get_status v) = "WARNING") /\
  (pct_color v = light_orange <-> fst (get_status v) = "MODERATE") /\
  (pct_color v = fresh_green <-> fst (get_status v) = "EXCELLENT").
Proof.
  unfold get_status, pct_color.
  bands v; rewrite ?E17, ?E9, ?E6; simpl;
    repeat split; intros; try discriminate; reflexivity.
Qed.

Lemma clip_unit_cases (x : Q) :
  (x <= 0 /\ clip x 0 1 == 0) \/
  (0 <= x /\ x <= 1 /\ clip x 0 1 == x) \/
  (1 <= x /\ clip x 0 1 == 1).
Proof.
  unfold clip.
  destruct (Q.max_spec x 0) as [[Hlt Hmax] | [Hle Hmax]];
    destruct (Q.min_spec 1 (Qmax x 0)) as [[Hlt' Hmin] | [Hle' Hmin]];
    rewrite Hmin; rewrite Hmax in *.
  - right; right. split; [lra | reflexivity].
  - left. split; [lra | reflexivity].
  - right; right. split; [lra | reflexivity].
  - right; left. repeat split; try lra.
Qed.

Lemma clip_unit_monotone (x y : Q) : x <= y -> clip x 0 1 <= clip y 0 1.
Proof.
  intros Hxy.
  destruct (clip_unit_cases x) as [[? Hx] | [(? & ? & Hx) | [? Hx]]];
    destruct (clip_unit_cases y) as [[? Hy] | [(? & ? & Hy) | [? Hy]]];
    rewrite Hx, Hy; lra.
Qed.

Lemma div_le_compat (v w d : Q) : 0 < d -> v <= w -> v / d <= w / d.
Proof.
  intros Hd Hvw. unfold Qdiv.
  apply Qmult_le_compat_r; [exact Hvw |].
  apply Qlt_le_weak, Qinv_lt_0_compat, Hd.
Qed.

Lemma div_lt_compat (v w d : Q) : 0 < d -> v < w -> v / d < w / d.
Proof.
  intros Hd Hvw. unfold Qdiv.
  apply Qmult_lt_compat_r; [| exact Hvw].
  apply Qinv_lt_0_compat, Hd.
Qed.

Lemma div_self (d : Q) : 0 < d -> d / d == 1.
Proof. intros Hd. field. lra. Qed.

Lemma div_zero_l (d : Q) : 0 / d == 0.
Proof. unfold Qdiv. ring. Qed.

(** C5. With a positive value range and radiusMin <= radiusMax, the
    radius of a value is radiusMin for every v <= 0, radiusMax for every
    v >= valueMax, never decreases when v grows (and strictly grows
    between 0 and valueMax when radiusMin < radiusMax), and always lies
    in [radiusMin, radiusMax]: values outside the range are clamped. *)
Theorem radiusFor_clamps_and_grows (valueMax radiusMin radiusMax : Q)
    (Hmax : 0 < valueMax) (Hrad : radiusMin <= radiusMax) :
  (forall v, v <= 0 -> radiusFor v valueMax radiusMin radiusMax == radiusMin) /\
  (forall v, valueMax <= v ->
             radiusFor v valueMax radiusMin radiusMax == radiusMax) /\
  (forall v w, v <= w ->
               radiusFor v valueMax radiusMin radiusMax
               <= radiusFor w valueMax radiusMin radiusMax) /\
  (forall v w, radiusMin < radiusMax -> 0 <= v -> v < w -> w <= valueMax ->
               radiusFor v valueMax radiusMin radiusMax
               < radiusFor w valueMax radiusMin radiusMax) /\
  (forall v, radiusMin <= radiusFor v valueMax radiusMin radiusMax /\
             radiusFor v valueMax radiusMin radiusMax <= radiusMax).
Proof.
  unfold radiusFor. repeat split.
  - intros v Hv.
    assert (Hq : v / valueMax <= 0).
    { rewrite <- (div_zero_l valueMax). now apply div_le_compat. }
    destruct (clip_unit_cases (v / valueMax)) as [[? Hc] | [(? & ? & Hc) | [? Hc]]];
      rewrite Hc; try lra.
    assert (Hz : v / valueMax == 0) by lra. rewrite Hz. ring.
  - intros v Hv.
    assert (Hq : 1 <= v / valueMax).
    { rewrite <- (div_self valueMax Hmax). now apply div_le_compat. }
    destruct (clip_unit_cases (v / valueMax)) as [[? Hc] | [(? & ? & Hc) | [? Hc]]];
      rewrite Hc; try lra.
    assert (Hz : v / valueMax == 1) by lra. rewrite Hz. ring.
  - intros v w Hvw.
    pose proof (clip_unit_monotone _ _ (div_le_compat v w valueMax Hmax Hvw)).
    nra.
  - intros v w Hr Hv Hvw Hw.
    assert (Hq : v / valueMax < w / valueMax) by now apply div_lt_compat.
    assert (H0 : 0 <= v / valueMax).
    { rewrite <- (div_zero_l valueMax). now apply div_le_compat. }
    assert (H1 : w / valueMax <= 1).
    { rewrite <- (div_self valueMax Hmax). now apply div_le_compat. }
    destruct (clip_unit_cases (v / valueMax)) as [[? Hc] | [(? & ? & Hc) | [? Hc]]];
      destruct (clip_unit_cases (w / valueMax)) as [[? Hd] | [(? & ? & Hd) | [? Hd]]];
      rewrite Hc, Hd; nra.
  - destruct (clip_unit_cases (v / valueMax)) as [[? Hc] | [(? & ? & Hc) | [? Hc]]];
      rewrite Hc; nra.
  - destruct (clip_unit_cases (v / valueMax)) as [[? Hc] | [(? & ? & Hc) | [? Hc]]];
      rewrite Hc; nra.
Qed.

Lemma radiusFor_clamps_and_grows_witness :
  0 < Rev081346.PCT_MAX /\ Rev081346.r_small <= Rev081346.r_big /\
  radiusFor 30 Rev081346.PCT_MAX Rev081346.r_small Rev081346.r_big
  == Rev081346.r_big.
Proof.
  assert (Hmax : 0 < Rev081346.PCT_MAX) by reflexivity.
  assert (Hrad : Rev081346.r_small <= Rev081346.r_big) by (vm_compute; discriminate).
  split; [exact Hmax | split; [exact Hrad |]].
  apply (radiusFor_clamps_and_grows _ _ _ Hmax Hrad).
  vm_compute; discriminate.
Defined.

(** C6 as stated does not hold: the radii of the values 5, 10 and 20
    (valueMax 22, radii from 0.3 to 1.2) are not 0.349, 0.645 and 1.091,
    not even up to a tolerance of 0.01. *)
Lemma scenario_radii_not_as_stated :
  ~ Forall2 (close_to 0.01) (Rev133111.radii scenario_rows)
      [0.349; 0.645; 1.091].
Proof.
  intros H. inversion H as [| x c xs cs Hhead Htail]; subst.
  unfold close_to in Hhead. vm_compute in Hhead. apply Hhead. reflexivity.
Qed.

(** C6, amended.  For the values 5, 10 and 20 with valueMax 22 and radii
    from 0.3 to 1.2 the radii are 111/220, 39/55 and 123/110, that is
    0.505, 0.709 and 1.118 to three decimals, and the bands are
    green/EXCELLENT (the spec's LOW), orange/WARNING and red/CRITICAL. *)
Theorem scenario_radii_and_categories :
  Forall2 Qeq (Rev133111.radii scenario_rows) [111 # 220; 39 # 55; 123 # 110] /\
  Forall2 (close_to 0.0005) (Rev133111.radii scenario_rows)
    [0.505; 0.709; 1.118] /\
  map pct_color (Rev133111.vals scenario_rows)
  = [fresh_green; rich_orange; vibrant_red] /\
  map (fun v => fst (get_status v)) (Rev133111.vals scenario_rows)
  = ["EXCELLENT"; "WARNING"; "CRITICAL"].
Proof.
  repeat split.
  - repeat constructor.
  - repeat constructor; unfold close_to; vm_compute; discriminate.
Qed.

(** ** Phase selection in the last revision *)

Section Selection.

Import Rev081346.

Variable data : list (string * Q).

Local Notation "'P1'" := (PHASE1_FRAMES data).
Local Notation "'P2'" := PHASE2_FRAMES.
Local Notation "'P3'" := PHASE3_FRAMES.

Lemma P2_positive : (0 < P2)%Z.
Proof. reflexivity. Qed.

Lemma P3_positive : (0 < P3)%Z.
Proof. reflexivity. Qed.

Lemma n_nonneg : (0 <= n data)%Z.
Proof. unfold n. lia. Qed.

Lemma P1_nonneg : (0 <= P1)%Z.
Proof. unfold PHASE1_FRAMES, FRAMES_PER_CIRCLE. pose proof n_nonneg. lia. Qed.

Lemma circle_idx_in_range (frame : Z) :
  (0 <= frame < P1)%Z ->
  (0 <= frame / FRAMES_PER_CIRCLE < n data)%Z.
Proof.
  unfold PHASE1_FRAMES, FRAMES_PER_CIRCLE. intros [Hlo Hhi]. split.
  - apply Z.div_pos; lia.
  - apply Z.div_lt_upper_bound; lia.
Qed.

Lemma current_circle_in_phase (frame : Z) :
  (0 <= frame < P1)%Z ->
  current_circle data frame
  = ((frame / FRAMES_PER_CIRCLE)%Z,
     ease_out_cubic (truediv (frame mod FRAMES_PER_CIRCLE) FRAMES_PER_CIRCLE)).
Proof.
  intros H. apply circle_idx_in_range in H. unfold current_circle.
  destruct (Z.geb_spec (frame / FRAMES_PER_CIRCLE) (n data)); [lia | reflexivity].
Qed.

Lemma select_phase1 (frame : Z) :
  (0 <= frame < P1)%Z ->
  select data frame
  = Phase1 (frame / FRAMES_PER_CIRCLE)
      (ease_out_cubic (truediv (frame mod FRAMES_PER_CIRCLE) FRAMES_PER_CIRCLE)).
Proof.
  intros H. unfold select.
  destruct (Z.ltb_spec frame P1); [| lia].
  now rewrite (current_circle_in_phase frame H).
Qed.

Lemma select_phase2 (frame : Z) :
  (P1 <= frame < P1 + P2)%Z ->
  select data frame
  = Phase2 (truediv (frame - P1) P2) (ease_in_out (truediv (frame - P1) P2)).
Proof.
  intros H. unfold select.
  destruct (Z.ltb_spec frame P1); [lia |].
  destruct (Z.ltb_spec frame (P1 + P2)); [reflexivity | lia].
Qed.

Lemma select_phase3 (frame : Z) :
  (P1 + P2 <= frame < P1 + P2 + P3)%Z ->
  select data frame
  = Phase3 (truediv (frame - P1 - P2) P3)
      (ease_in_out (truediv (frame - P1 - P2) P3)).
Proof.
  intros H. unfold select. pose proof P2_positive.
  destruct (Z.ltb_spec frame P1); [lia |].
  destruct (Z.ltb_spec frame (P1 + P2)); [lia |].
  destruct (Z.ltb_spec frame (P1 + P2 + P3)); [reflexivity | lia].
Qed.

Lemma select_hold (frame : Z) :
  (P1 + P2 + P3 <= frame)%Z -> select data frame = Hold.
Proof.
  intros H. unfold select. pose proof P2_positive. pose proof P3_positive.
  destruct (Z.ltb_spec frame P1); [lia |].
  destruct (Z.ltb_spec frame (P1 + P2)); [lia |].
  destruct (Z.ltb_spec frame (P1 + P2 + P3)); [lia | reflexivity].
Qed.

(** the four cases of a non-negative frame *)
Lemma frame_cases (frame : Z) :
  (0 <= frame)%Z ->
  (0 <= frame < P1)%Z \/ (P1 <= frame < P1 + P2)%Z \/
  (P1 + P2 <= frame < P1 + P2 + P3)%Z \/ (P1 + P2 + P3 <= frame)%Z.
Proof. lia. Qed.

Lemma truediv_zero (d : Z) : truediv 0 d == 0.
Proof. unfold truediv, Qdiv. ring. Qed.

Lemma ease_in_out_zero (x : Q) : x == 0 -> ease_in_out x == 0.
Proof. intros H. unfold ease_in_out. rewrite H. ring. Qed.

Lemma ease_in_out_one (x : Q) : x == 1 -> ease_in_out x == 1.
Proof. intros H. unfold ease_in_out. rewrite H. ring. Qed.

Lemma spec_resolve_counts (frame : Z) :
  (0 <= frame)%Z ->
  spec_resolve (phase_counts data) frame
  = if (frame <? P1)%Z then Some (0%nat, frame)
    else if (frame <? P1 + P2)%Z then Some (1%nat, (frame - P1)%Z)
    else if (frame <? P1 + P2 + P3)%Z then Some (2%nat, (frame - P1 - P2)%Z)
    else if (frame <? total_frames data)%Z
         then Some (3%nat, (frame - P1 - P2 - P3)%Z)
    else None.
Proof.
  intros Hlo. unfold spec_resolve, phase_counts, total_frames. simpl.
  rewrite !Z.add_0_l, Z.sub_0_r.
  destruct (frame <? P1)%Z; [reflexivity |].
  destruct (frame <? P1 + P2)%Z; [reflexivity |].
  destruct (frame <? P1 + P2 + P3)%Z; [f_equal; f_equal; lia |].
  destruct (frame <? P1 + P2 + P3 + HOLD_FRAMES)%Z; [f_equal; f_equal; lia |].
  reflexivity.
Qed.

(** C1, amended.  For a frame in [0, total_frames) the if-chain of
    [update] takes the branch of phase k exactly when the frame lies in
    the half-open
    range [sum of the first k counts, sum of the first k+1 counts), as
    the walk over the phase counts does; the local frame is the frame
    minus the preceding counts; phases 2 and 3 pass local frame /
    frame count through ease_in_out, phase 1 feeds the local frame to
    its per-circle loop, the hold phase computes no progress.  A frame
    on a boundary (local frame 0) belongs to the later phase, with
    progress 0 before and after easing. *)
Theorem phase_selection_half_open (frame : Z)
    (Hlo : (0 <= frame)%Z) (Hhi : (frame < total_frames data)%Z) :
  (phase_index (select data frame) = 0%nat <-> (0 <= frame < P1)%Z) /\
  (phase_index (select data frame) = 1%nat <-> (P1 <= frame < P1 + P2)%Z) /\
  (phase_index (select data frame) = 2%nat
   <-> (P1 + P2 <= frame < P1 + P2 + P3)%Z) /\
  (phase_index (select data frame) = 3%nat
   <-> (P1 + P2 + P3 <= frame < total_frames data)%Z) /\
  exists localFrame : Z,
    spec_resolve (phase_counts data) frame
    = Some (phase_index (select data frame), localFrame) /\
    match select data frame with
    | Phase1 circle_idx circle_progress =>
        localFrame = frame /\
        circle_idx = (localFrame / FRAMES_PER_CIRCLE)%Z /\
        circle_progress
        = ease_out_cubic
            (truediv (localFrame mod FRAMES_PER_CIRCLE) FRAMES_PER_CIRCLE) /\
        (localFrame = 0%Z -> circle_idx = 0%Z /\ circle_progress == 0)
    | Phase2 phase_progress t =>
        localFrame = (frame - P1)%Z /\
        phase_progress = truediv localFrame P2 /\
        t = ease_in_out phase_progress /\
        (localFrame = 0%Z -> phase_progress == 0 /\ t == 0)
    | Phase3 phase_progress t =>
        localFrame = (frame - P1 - P2)%Z /\
        phase_progress = truediv localFrame P3 /\
        t = ease_in_out phase_progress /\
        (localFrame = 0%Z -> phase_progress == 0 /\ t == 0)
    | Hold => localFrame = (frame - P1 - P2 - P3)%Z
    end.
Proof.
  pose proof P2_positive as HP2. pose proof P3_positive as HP3.
  pose proof P1_nonneg as HP1.
  rewrite (spec_resolve_counts frame Hlo).
  destruct (frame_cases frame Hlo) as [H | [H | [H | H]]].
  - rewrite (select_phase1 frame H). simpl.
    destruct (Z.ltb_spec frame P1); [| lia].
    repeat split; intros; try lia; try discriminate.
    exists frame. repeat split; intros; subst; reflexivity.
  - rewrite (select_phase2 frame H). simpl.
    destruct (Z.ltb_spec frame P1); [lia |].
    destruct (Z.ltb_spec frame (P1 + P2)); [| lia].
    repeat split; intros; try lia; try discriminate.
    exists (frame - P1)%Z. split; [reflexivity |].
    split; [reflexivity |]. split; [reflexivity |]. split; [reflexivity |].
    intros E. rewrite E. split.
    + apply truediv_zero.
    + apply ease_in_out_zero, truediv_zero.
  - rewrite (select_phase3 frame H). simpl.
    destruct (Z.ltb_spec frame P1); [lia |].
    destruct (Z.ltb_spec frame (P1 + P2)); [lia |].
    destruct (Z.ltb_spec frame (P1 + P2 + P3)); [| lia].
    repeat split; intros; try lia; try discriminate.
    exists (frame - P1 - P2)%Z. split; [reflexivity |].
    split; [reflexivity |]. split; [reflexivity |]. split; [reflexivity |].
    intros E. rewrite E. split.
    + apply truediv_zero.
    + apply ease_in_out_zero, truediv_zero.
  - rewrite (select_hold frame H). simpl.
    destruct (Z.ltb_spec frame P1); [lia |].
    destruct (Z.ltb_spec frame (P1 + P2)); [lia |].
    destruct (Z.ltb_spec frame (P1 + P2 + P3)); [lia |].
    destruct (Z.ltb_spec frame (total_frames data)); [| lia].
    repeat split; intros; try lia; try discriminate.
    exists (frame - P1 - P2 - P3)%Z. split; reflexivity.
Qed.

End Selection.

Lemma phase_selection_half_open_witness :
  (0 <= 1120)%Z /\ (1120 < Rev081346.total_frames rows)%Z /\
  (Rev081346.phase_index (Rev081346.select rows 1120) = 1%nat
   <-> (Rev081346.PHASE1_FRAMES rows <= 1120
        < Rev081346.PHASE1_FRAMES rows + Rev081346.PHASE2_FRAMES)%Z).
Proof.
  assert (Hlo : (0 <= 1120)%Z) by lia.
  assert (Hhi : (1120 < Rev081346.total_frames rows)%Z) by reflexivity.
  split; [exact Hlo | split; [exact Hhi |]].
  exact (proj1 (proj2 (phase_selection_half_open rows 1120 Hlo Hhi))).
Defined.

(** C1 as worded, "localProgress = localFrame / phaseFrameCount passed
    through that phase's easing function" for every phase, does not hold
    in phase 1 and in the hold phase.  An easing is a monotonic remapping
    of the progress.  On the dataset of the script, frames 39 and 40 are
    both in phase 1 (local frames 39 and 40 of 1120); the only progress
    the branch computes is the one of the current circle, which is
    0.999984 at frame 39 and back to 0 at frame 40, so it is not a
    monotonic function of localFrame / PHASE1_FRAMES.  The terminal
    branch, taken at the boundary frame 1390, computes no progress. *)
Lemma phase1_progress_is_per_circle :
  Rev081346.select rows 39
  = Rev081346.Phase1 0 (ease_out_cubic (truediv 39 40)) /\
  Rev081346.select rows 40
  = Rev081346.Phase1 1 (ease_out_cubic (truediv 0 40)) /\
  ease_out_cubic (truediv 39 40) == 63999 # 64000 /\
  ease_out_cubic (truediv 0 40) == 0 /\
  Rev081346.select rows 1390 = Rev081346.Hold /\
  ~ exists easing : Q -> Q,
      (forall s t : Q, s <= t -> easing s <= easing t) /\
      forall (frame circle_idx : Z) (circle_progress : Q),
        (0 <= frame < Rev081346.PHASE1_FRAMES rows)%Z ->
        Rev081346.select rows frame
        = Rev081346.Phase1 circle_idx circle_progress ->
        circle_progress
        == easing (truediv frame (Rev081346.PHASE1_FRAMES rows)).
Proof.
  assert (H39 : Rev081346.select rows 39
                = Rev081346.Phase1 0 (ease_out_cubic (truediv 39 40)))
    by reflexivity.
  assert (H40 : Rev081346.select rows 40
                = Rev081346.Phase1 1 (ease_out_cubic (truediv 0 40)))
    by reflexivity.
  split; [exact H39 |]. split; [exact H40 |].
  split; [reflexivity |]. split; [reflexivity |]. split; [reflexivity |].
  intros (easing & Hmono & Hall).
  assert (R39 : (0 <= 39 < Rev081346.PHASE1_FRAMES rows)%Z)
    by (split; [lia | reflexivity]).
  assert (R40 : (0 <= 40 < Rev081346.PHASE1_FRAMES rows)%Z)
    by (split; [lia | reflexivity]).
  pose proof (Hall 39%Z _ _ R39 H39) as E39.
  pose proof (Hall 40%Z _ _ R40 H40) as E40.
  assert (Hle : truediv 39 (Rev081346.PHASE1_FRAMES rows)
                <= truediv 40 (Rev081346.PHASE1_FRAMES rows))
    by (vm_compute; discriminate).
  apply Hmono in Hle. rewrite <- E39, <- E40 in Hle.
  revert Hle. vm_compute. intros Hle. apply Hle. reflexivity.
Qed.

(** ** Sequences and loops *)

Lemma getitem_in_range {A : Type} (xs : list A) (i : Z) :
  (0 <= i < Z.of_nat (length xs))%Z ->
  exists x, getitem xs i = Ok x /\ xs !! Z.to_nat i = Some x.
Proof.
  intros [Hlo Hhi]. unfold getitem.
  destruct (Z.ltb_spec i 0); [lia |].
  destruct (Z.ltb_spec i 0); [lia |].
  destruct (Z.leb_spec (Z.of_nat (length xs)) i); [lia |]. simpl.
  destruct (lookup_lt_is_Some_2 xs (Z.to_nat i)) as [x Hx]; [lia |].
  exists x. now rewrite Hx.
Qed.


Lemma range_lookup (k : Z) (j : nat) (x : Z) :
  range k !! j = Some x -> x = Z.of_nat j /\ (0 <= x < k)%Z.
Proof.
  unfold range. rewrite list_lookup_fmap.
  destruct (seq 0 (Z.to_nat k) !! j) as [m |] eqn:E; simpl; [| discriminate].
  apply lookup_seq in E as [-> Hlt]. intros [= <-]. lia.
Qed.

Lemma range_length (k : Z) : (0 <= k)%Z -> Z.of_nat (length (range k)) = k.
Proof. intros H. unfold range. rewrite length_map, length_seq. lia. Qed.

Lemma range_step_lookup (k step : Z) (j : nat) (x : Z) :
  (0 < step)%Z ->
  range_step k step !! j = Some x -> (0 <= x < k)%Z.
Proof.
  intros Hstep. unfold range_step. rewrite list_lookup_fmap.
  destruct (seq 0 (Z.to_nat ((k + step - 1) / step)) !! j) as [m |] eqn:E;
    simpl; [| discriminate].
  apply lookup_seq in E as [-> Hlt]. intros [= <-].
  assert (Hj : (Z.of_nat j < (k + step - 1) / step)%Z) by lia.
  pose proof (Z.mul_div_le (k + step - 1) step Hstep). nia.
Qed.

Lemma for_each_succeeds {A B : Type} (body : A -> result B) (xs : list A) :
  (forall j x, xs !! j = Some x -> succeeds (body x)) ->
  succeeds (for_each body xs).
Proof.
  induction xs as [| x rest IH]; intros Hall; simpl.
  - now exists [].
  - destruct (Hall 0%nat x eq_refl) as [y Hy]. rewrite Hy. simpl.
    destruct IH as [ys Hys].
    { intros j z Hj. apply (Hall (S j) z Hj). }
    rewrite Hys. simpl. now exists (y :: ys).
Qed.

Lemma for_each_lookup {A B : Type} (body : A -> result B) (xs : list A)
    (ys : list B) :
  for_each body xs = Ok ys ->
  length ys = length xs /\
  forall j y, ys !! j = Some y -> exists x, xs !! j = Some x /\ body x = Ok y.
Proof.
  revert ys. induction xs as [| x rest IH]; intros ys; simpl.
  - intros [= <-]. split; [reflexivity |]. intros j y Hj. discriminate.
  - destruct (body x) as [y0 |] eqn:Hy0; simpl; [| discriminate].
    destruct (for_each body rest) as [ys0 |] eqn:Hrest; simpl; [| discriminate].
    intros [= <-]. destruct (IH ys0 eq_refl) as [Hlen Hget]. split.
    + simpl. now rewrite Hlen.
    + intros [| j] y Hj; simpl in *.
      * injection Hj as <-. now exists x.
      * now apply Hget.
Qed.

(** ** Drawing in the last revision *)

Section Drawing.

Import Rev081346.

Variable data : list (string * Q).

Local Notation "'P1'" := (PHASE1_FRAMES data).
Local Notation "'P2'" := PHASE2_FRAMES.
Local Notation "'P3'" := PHASE3_FRAMES.

Lemma length_r : Z.of_nat (length (r data)) = n data.
Proof. unfold r, n. now rewrite length_map. Qed.

Lemma length_labels : Z.of_nat (length (labels data)) = n data.
Proof. unfold labels, n, vals. now rewrite !length_map. Qed.

Lemma full_circle_in_range (z alpha lw : Q) (i : Z) :
  (0 <= i < n data)%Z ->
  exists ri vi,
    full_circle data z alpha lw i
    = Ok {| ln_radius := ri; ln_turn := 1; ln_points := 200; ln_z := z;
            ln_color := pct_color vi; ln_alpha := alpha; ln_lw := lw |}.
Proof.
  intros Hi. unfold full_circle.
  destruct (getitem_in_range (r data) i) as (ri & -> & _);
    [rewrite length_r; exact Hi |].
  destruct (getitem_in_range (vals data) i) as (vi & -> & _);
    [exact Hi |].
  now exists ri, vi.
Qed.

Lemma circles_succeed (z : Z -> Q) (alpha : Z -> Q) (lw : Q) (k : Z) :
  (k <= n data)%Z ->
  succeeds (for_each (fun i => full_circle data (z i) (alpha i) lw i) (range k)).
Proof.
  intros Hk. apply for_each_succeeds. intros j x Hj.
  apply range_lookup in Hj as [_ Hx].
  destruct (full_circle_in_range (z x) (alpha x) lw x) as (ri & vi & E); [lia |].
  rewrite E. now eexists.
Qed.

Lemma side_labels_succeed (z_spacing alpha : Q) :
  succeeds (side_labels data z_spacing alpha).
Proof.
  unfold side_labels. apply for_each_succeeds. intros j x Hj.
  apply range_step_lookup in Hj; [| lia].
  destruct (getitem_in_range (labels data) x) as (li & -> & _);
    [rewrite length_labels; exact Hj |].
  simpl. now eexists.
Qed.

Lemma draw_hold_succeeds (fig : figure) : succeeds (draw_hold data fig).
Proof.
  unfold draw_hold.
  destruct (circles_succeed (fun i => inject_Z i * 0.1) (fun _ => 0.85) 2.5
              (n data)) as [cs ->]; [lia |]. simpl.
  destruct (side_labels_succeed 0.1 0.85) as [ls ->]. simpl.
  now eexists.
Qed.

Lemma draw_phase3_succeeds (t : Q) (fig : figure) :
  succeeds (draw_phase3 data t fig).
Proof.
  unfold draw_phase3.
  destruct (circles_succeed (fun i => inject_Z i * 0.1) (fun _ => 0.85) 2.5
              (n data)) as [cs ->]; [lia |]. simpl.
  destruct (Qgtb t 0.4).
  - destruct (side_labels_succeed 0.1 (Qmin 1.0 ((t - 0.4) / 0.3) * 0.85))
      as [ls ->]. simpl. now eexists.
  - simpl. now eexists.
Qed.

Lemma draw_phase2_succeeds (t : Q) (fig : figure) :
  succeeds (draw_phase2 data t fig).
Proof.
  unfold draw_phase2.
  destruct (circles_succeed (fun i => inject_Z i * (0.1 * t))
              (fun i => Qmax (0.75 - inject_Z i * 0.01) 0.3) 2.2
              (n data)) as [cs ->]; [lia |]. simpl.
  now eexists.
Qed.

Lemma draw_phase1_succeeds (frame circle_idx : Z) (p : Q) (fig : figure) :
  (0 <= circle_idx < n data)%Z ->
  succeeds (draw_phase1 data frame circle_idx p fig).
Proof.
  intros Hidx. unfold draw_phase1.
  destruct (circles_succeed (fun _ => 0)
              (fun i => Qmax (0.5 - inject_Z i * 0.015) 0.15) 2.0
              circle_idx) as [cs ->]; [lia |]. simpl.
  destruct (Z.ltb_spec circle_idx (n data)); [| lia].
  destruct (getitem_in_range (r data) circle_idx) as (ri & -> & _);
    [rewrite length_r; exact Hidx |].
  destruct (getitem_in_range (vals data) circle_idx) as (vi & -> & _);
    [exact Hidx |].
  destruct (getitem_in_range (labels data) circle_idx) as (li & -> & _);
    [rewrite length_labels; exact Hidx |].
  destruct (int_of (200 * p) >=? 2)%Z; simpl;
    destruct (Qgtb p 0.7); simpl; try (now eexists);
    destruct (Qltb _ _); simpl; now eexists.
Qed.

(** Once the module body has run, [update] returns for every frame the
    animation driver can pass (the frames are 0, 1, 2, ...). *)
Lemma update_succeeds (frame : Z) (fig : figure) :
  (0 <= frame)%Z -> succeeds (update data frame fig).
Proof.
  intros Hlo. unfold update.
  destruct (frame_cases data frame Hlo) as [H | [H | [H | H]]].
  - rewrite (select_phase1 data frame H).
    apply draw_phase1_succeeds. now apply circle_idx_in_range.
  - rewrite (select_phase2 data frame H). apply draw_phase2_succeeds.
  - rewrite (select_phase3 data frame H). apply draw_phase3_succeeds.
  - rewrite (select_hold data frame H). apply draw_hold_succeeds.
Qed.

Lemma startup_guard :
  (data = [] -> startup data = Raise (SystemExit "rows is empty")) /\
  (data <> [] -> startup data = Ok initial_figure).
Proof.
  unfold startup, n, vals. destruct data as [| row rest]; simpl.
  - split; [reflexivity | congruence].
  - split; [discriminate | reflexivity].
Qed.

Lemma hold_circles (cs : list line3d) :
  for_each (fun i => full_circle data (inject_Z i * 0.1) 0.85 2.5 i)
    (range (n data)) = Ok cs ->
  Z.of_nat (length cs) = n data /\
  forall k line, cs !! k = Some line ->
    ln_turn line = 1 /\ ln_points line = 200%Z /\
    ln_z line = inject_Z (Z.of_nat k) * 0.1 /\ ln_alpha line = 0.85.
Proof.
  intros E. apply for_each_lookup in E as [Hlen Hget]. split.
  - rewrite Hlen. apply range_length, n_nonneg.
  - intros k line Hk. destruct (Hget k line Hk) as (x & Hx & Hbody).
    apply range_lookup in Hx as [-> Hx].
    destruct (full_circle_in_range (inject_Z (Z.of_nat k) * 0.1) 0.85 2.5
                (Z.of_nat k) Hx) as (ri & vi & E).
    rewrite E in Hbody. injection Hbody as <-. simpl. auto.
Qed.

(** C2. A frame at or past total_frames does not fail: it takes the
    hold branch, like every frame past the first three phases, so its
    output is the one of the last regular frame: camera (0, 0), all n
    circles complete and stacked at the full spacing 0.1, the centre
    texts hidden.  These are the circles and the camera with which
    phase 3 ends (progress 1.0). *)
Theorem over_range_frames_hold (frame : Z) (fig : figure)
    (Hover : (total_frames data <= frame)%Z) :
  select data frame = Hold /\
  update data frame fig = update data (total_frames data - 1) fig /\
  exists out,
    update data frame fig = Ok out /\
    draw_hold data fig = Ok out /\
    view out = (0, 0) /\
    Z.of_nat (length (lines out)) = n data /\
    (forall k line, lines out !! k = Some line ->
       ln_turn line = 1 /\ ln_points line = 200%Z /\
       ln_z line = inject_Z (Z.of_nat k) * 0.1 /\ ln_alpha line = 0.85) /\
    t_alpha (main_text out) = 0 /\
    t_alpha (date_text out) = 0 /\
    (forall out3, draw_phase3 data 1 fig = Ok out3 ->
       lines out3 = lines out /\ same_view (view out3) (view out)).
Proof.
  assert (Hhold : (0 < HOLD_FRAMES)%Z) by reflexivity.
  assert (H : (P1 + P2 + P3 <= frame)%Z) by (unfold total_frames in Hover; lia).
  assert (H' : (P1 + P2 + P3 <= total_frames data - 1)%Z)
    by (unfold total_frames; lia).
  split; [now apply select_hold |].
  unfold update. rewrite (select_hold data frame H), (select_hold data _ H').
  split; [reflexivity |].
  destruct (draw_hold_succeeds fig) as [out Hout]. exists out.
  split; [exact Hout |]. split; [exact Hout |].
  unfold draw_hold in Hout. unfold draw_phase3.
  destruct (for_each _ (range (n data))) as [cs |] eqn:Ecs;
    simpl in Hout; [| discriminate].
  destruct (side_labels data 0.1 0.85) as [ls |]; simpl in Hout; [| discriminate].
  injection Hout as <-. simpl.
  destruct (hold_circles cs Ecs) as [Hlen Hget].
  repeat (split; [first [assumption | reflexivity] |]).
  intros out3 H3.
  assert (E3 : lines out3 = cs /\ view out3 = view_phase3 1).
  { change (Qgtb 1 0.4) with true in H3. cbv iota in H3.
    destruct (side_labels data 0.1 _); simpl in H3; [| discriminate].
    injection H3 as <-. simpl. auto. }
  destruct E3 as [-> ->]. split; [reflexivity |].
  split; reflexivity.
Qed.

End Drawing.

Lemma over_range_frames_hold_witness :
  (Rev081346.total_frames rows <= 1000000)%Z /\
  Rev081346.select rows 1000000 = Rev081346.Hold.
Proof.
  assert (Hover : (Rev081346.total_frames rows <= 1000000)%Z)
    by (vm_compute; discriminate).
  split; [exact Hover |].
  exact (proj1 (over_range_frames_hold rows 1000000
                  (Rev081346.initial_figure) Hover)).
Defined.

(** ** Camera path of the last revision *)

(** run a successful monadic computation in hypothesis [H] step by step *)
Ltac step_through H :=
  repeat match type of H with
         | rbind ?m _ = Ok _ =>
             let E := fresh "E" in
             destruct m eqn:E; unfold rbind at 1 in H; [| discriminate H]
         end.

Section Camera.

Import Rev081346.

Variable data : list (string * Q).

Local Notation "'P1'" := (PHASE1_FRAMES data).
Local Notation "'P2'" := PHASE2_FRAMES.
Local Notation "'P3'" := PHASE3_FRAMES.

Lemma view_draw_phase1 (frame idx : Z) (p : Q) (fig out : figure) :
  draw_phase1 data frame idx p fig = Ok out -> view out = (90, -90).
Proof.
  unfold draw_phase1. intros H. step_through H. now injection H as <-.
Qed.

Lemma view_draw_phase2 (t : Q) (fig out : figure) :
  draw_phase2 data t fig = Ok out -> view out = view_phase2 t.
Proof.
  unfold draw_phase2. intros H. step_through H. now injection H as <-.
Qed.

Lemma view_draw_phase3 (t : Q) (fig out : figure) :
  draw_phase3 data t fig = Ok out -> view out = view_phase3 t.
Proof.
  unfold draw_phase3. intros H. step_through H. now injection H as <-.
Qed.

Lemma view_draw_hold (fig out : figure) :
  draw_hold data fig = Ok out -> view out = (0, 0).
Proof.
  unfold draw_hold. intros H. step_through H. now injection H as <-.
Qed.

(** C10. The camera of the last revision is continuous over the phase
    boundaries: phase 1 keeps (elev, azim) = (90, -90); phase 2 moves
    from (90, -90) at progress 0 to (45, -75) at progress 1; phase 3
    moves from (45, -75) at progress 0 to (0, 0) at progress 1; the hold
    phase stays at (0, 0).  The easing maps 0 to 0 and 1 to 1, and the
    first frame of each later phase shows the angles on which the phase
    before it ends. *)
Theorem camera_continuous :
  (forall frame fig,
     (0 <= frame < P1)%Z ->
     exists out, update data frame fig = Ok out /\ view out = (90, -90)) /\
  (forall frame fig,
     (P1 <= frame < P1 + P2)%Z ->
     exists out,
       update data frame fig = Ok out /\
       view out = view_phase2 (ease_in_out (truediv (frame - P1) P2))) /\
  (forall frame fig,
     (P1 + P2 <= frame < P1 + P2 + P3)%Z ->
     exists out,
       update data frame fig = Ok out /\
       view out = view_phase3 (ease_in_out (truediv (frame - P1 - P2) P3))) /\
  (forall frame fig,
     (P1 + P2 + P3 <= frame)%Z ->
     exists out, update data frame fig = Ok out /\ view out = (0, 0)) /\
  ease_in_out 0 == 0 /\ ease_in_out 1 == 1 /\
  same_view (view_phase2 (ease_in_out 0)) (90, -90) /\
  same_view (view_phase2 (ease_in_out 1)) (45, -75) /\
  same_view (view_phase3 (ease_in_out 0)) (view_phase2 (ease_in_out 1)) /\
  same_view (view_phase3 (ease_in_out 1)) (0, 0) /\
  (forall fig,
     exists out,
       update data P1 fig = Ok out /\ same_view (view out) (90, -90)) /\
  (forall fig,
     exists out,
       update data (P1 + P2) fig = Ok out /\ same_view (view out) (45, -75)) /\
  (forall fig,
     exists out,
       update data (P1 + P2 + P3) fig = Ok out /\ same_view (view out) (0, 0)).
Proof.
  pose proof P2_positive as HP2. pose proof P3_positive as HP3.
  pose proof (P1_nonneg data) as HP1.
  assert (Hruns : forall frame fig, (0 <= frame)%Z ->
            exists out, update data frame fig = Ok out).
  { intros frame fig Hlo. exact (update_succeeds data frame fig Hlo). }
  repeat apply conj; try (split; reflexivity); try reflexivity.
  - intros frame fig H.
    destruct (Hruns frame fig) as [out Hout]; [lia |].
    exists out. split; [exact Hout |]. revert Hout. unfold update.
    rewrite (select_phase1 data frame H). apply view_draw_phase1.
  - intros frame fig H.
    destruct (Hruns frame fig) as [out Hout]; [lia |].
    exists out. split; [exact Hout |]. revert Hout. unfold update.
    rewrite (select_phase2 data frame H). apply view_draw_phase2.
  - intros frame fig H.
    destruct (Hruns frame fig) as [out Hout]; [lia |].
    exists out. split; [exact Hout |]. revert Hout. unfold update.
    rewrite (select_phase3 data frame H). apply view_draw_phase3.
  - intros frame fig H.
    destruct (Hruns frame fig) as [out Hout]; [lia |].
    exists out. split; [exact Hout |]. revert Hout. unfold update.
    rewrite (select_hold data frame H). apply view_draw_hold.
  - intros fig.
    destruct (Hruns P1 fig) as [out Hout]; [lia |].
    exists out. split; [exact Hout |]. revert Hout. unfold update.
    rewrite (select_phase2 data P1) by lia. intros H.
    apply view_draw_phase2 in H. rewrite H, Z.sub_diag. split; reflexivity.
  - intros fig.
    destruct (Hruns (P1 + P2)%Z fig) as [out Hout]; [lia |].
    exists out. split; [exact Hout |]. revert Hout. unfold update.
    rewrite (select_phase3 data (P1 + P2)) by lia. intros H.
    apply view_draw_phase3 in H.
    replace (P1 + P2 - P1 - P2)%Z with 0%Z in H by lia.
    rewrite H. split; reflexivity.
  - intros fig.
    destruct (Hruns (P1 + P2 + P3)%Z fig) as [out Hout]; [lia |].
    exists out. split; [exact Hout |]. revert Hout. unfold update.
    rewrite (select_hold data (P1 + P2 + P3)) by lia. intros H.
    apply view_draw_hold in H. rewrite H. split; reflexivity.
Qed.

End Camera.

(** ** The per-circle loop *)

Lemma inject_Z_pos (b : Z) : (0 < b)%Z -> 0 < inject_Z b.
Proof. intros H. rewrite (Zlt_Qlt 0 b) in H. exact H. Qed.

Lemma inject_Z_nonneg (a : Z) : (0 <= a)%Z -> 0 <= inject_Z a.
Proof. intros H. rewrite (Zle_Qle 0 a) in H. exact H. Qed.

Lemma truediv_unit (a b : Z) :
  (0 <= a < b)%Z -> 0 <= truediv a b /\ truediv a b < 1.
Proof.
  intros [Ha Hab]. unfold truediv.
  assert (Hb : 0 < inject_Z b) by (apply inject_Z_pos; lia).
  split.
  - apply Qle_shift_div_l; [exact Hb |]. rewrite Qmult_0_l.
    now apply inject_Z_nonneg.
  - apply Qlt_shift_div_r; [exact Hb |]. rewrite Qmult_1_l.
    rewrite <- Zlt_Qlt. exact Hab.
Qed.

Lemma truediv_ge_one (a b : Z) : (0 < b <= a)%Z -> 1 <= truediv a b.
Proof.
  intros [Hb Hba]. unfold truediv.
  apply Qle_shift_div_l; [now apply inject_Z_pos |].
  rewrite Qmult_1_l. rewrite <- Zle_Qle. exact Hba.
Qed.

(** C3, amended.  In the per-circle loop the circle index is
    local frame div item period and the drawing progress is
    (local frame mod item period) / draw frames, held at 1.0 once the
    item frame has reached the draw frames, then eased.  Revision 081346
    has item period = draw frames = FRAMES_PER_CIRCLE, so its progress
    stays below 1 and is eased by ease_out_cubic; revision 133304 has
    item period = FRAMES_PER_CIRCLE + HOLD_FRAMES and draw frames =
    FRAMES_PER_CIRCLE, with a quadratic ease-out.  In both the index of
    a frame of the phase is at most n - 1.  An index that would exceed
    n - 1 is replaced by n - 1: with progress 1.0 in 081346, whereas
    133304 clamps the index alone and its progress stays the one
    computed from the item frame. *)
Theorem item_subloop (data : list (string * Q)) (frame : Z)
    (Hlo : (0 <= frame)%Z) :
  ((frame < Rev081346.PHASE1_FRAMES data)%Z ->
     let raw := truediv (frame mod Rev081346.FRAMES_PER_CIRCLE)
                  Rev081346.FRAMES_PER_CIRCLE in
     Rev081346.select data frame
     = Rev081346.Phase1 (frame / Rev081346.FRAMES_PER_CIRCLE)
         (ease_out_cubic raw) /\
     (0 <= frame / Rev081346.FRAMES_PER_CIRCLE <= Rev081346.n data - 1)%Z /\
     0 <= raw /\ raw < 1 /\ Qmin 1 raw == raw) /\
  ((Rev081346.n data <= frame / Rev081346.FRAMES_PER_CIRCLE)%Z ->
     Rev081346.current_circle data frame = ((Rev081346.n data - 1)%Z, 1.0)) /\
  ((frame < Rev133304.total_frames data)%Z ->
     let period := (Rev133304.FRAMES_PER_CIRCLE + Rev133304.HOLD_FRAMES)%Z in
     let raw := truediv (frame mod period) Rev133304.FRAMES_PER_CIRCLE in
     let s := Rev133304.update_item data frame in
     Rev133304.item_frame s = (frame mod period)%Z /\
     Rev133304.i s = (frame / period)%Z /\
     (0 <= Rev133304.i s <= Rev133304.n data - 1)%Z /\
     Rev133304.draw_progress s == 1 - (1 - Qmin 1 raw) ^ 2 /\
     ((Rev133304.item_frame s < Rev133304.FRAMES_PER_CIRCLE)%Z ->
        Rev133304.draw_progress s = 1 - (1 - raw) ^ 2) /\
     ((Rev133304.FRAMES_PER_CIRCLE <= Rev133304.item_frame s)%Z ->
        Rev133304.draw_progress s = 1.0)) /\
  ((Rev133304.n data - 1
    <= frame / (Rev133304.FRAMES_PER_CIRCLE + Rev133304.HOLD_FRAMES))%Z ->
     let period := (Rev133304.FRAMES_PER_CIRCLE + Rev133304.HOLD_FRAMES)%Z in
     let raw := truediv (frame mod period) Rev133304.FRAMES_PER_CIRCLE in
     let s := Rev133304.update_item data frame in
     Rev133304.i s = (Rev133304.n data - 1)%Z /\
     Rev133304.item_frame s = (frame mod period)%Z /\
     Rev133304.draw_progress s == 1 - (1 - Qmin 1 raw) ^ 2 /\
     ((frame mod period = 0)%Z -> Rev133304.draw_progress s == 0)).
Proof.
  assert (Hprogress :
    let period := (Rev133304.FRAMES_PER_CIRCLE + Rev133304.HOLD_FRAMES)%Z in
    let raw := truediv (frame mod period) Rev133304.FRAMES_PER_CIRCLE in
    let s := Rev133304.update_item data frame in
    Rev133304.draw_progress s == 1 - (1 - Qmin 1 raw) ^ 2 /\
    ((Rev133304.item_frame s < Rev133304.FRAMES_PER_CIRCLE)%Z ->
       Rev133304.draw_progress s = 1 - (1 - raw) ^ 2) /\
    ((Rev133304.FRAMES_PER_CIRCLE <= Rev133304.item_frame s)%Z ->
       Rev133304.draw_progress s = 1.0)).
  { intros period raw s.
    assert (Hperiod : (0 < period)%Z) by reflexivity.
    pose proof (Z.mod_pos_bound frame period Hperiod) as Hmod.
    unfold s, Rev133304.update_item. simpl Rev133304.draw_progress.
    simpl Rev133304.item_frame. fold period. fold raw.
    destruct (Z.ltb_spec (frame mod period) Rev133304.FRAMES_PER_CIRCLE)
      as [Hdraw | Hheld].
    + destruct (truediv_unit (frame mod period) Rev133304.FRAMES_PER_CIRCLE)
        as [H0 H1]; [lia |]. fold raw in H0, H1.
      split; [| split; [reflexivity | lia]].
      assert (Hmin : Qmin 1 raw == raw) by (apply Q.min_r; lra).
      rewrite Hmin. reflexivity.
    + assert (H1 : 1 <= raw).
      { apply truediv_ge_one. split; [reflexivity | exact Hheld]. }
      split; [| split; [lia | reflexivity]].
      assert (Hmin : Qmin 1 raw == 1) by (apply Q.min_l; exact H1).
      rewrite Hmin. reflexivity. }
  split; [| split; [| split]].
  - intros Hhi raw.
    assert (Hin : (0 <= frame < Rev081346.PHASE1_FRAMES data)%Z) by lia.
    pose proof (circle_idx_in_range data frame Hin) as Hidx.
    destruct (truediv_unit (frame mod Rev081346.FRAMES_PER_CIRCLE)
                Rev081346.FRAMES_PER_CIRCLE) as [H0 H1].
    { apply Z.mod_pos_bound. reflexivity. }
    split; [apply (select_phase1 data frame Hin) |].
    split; [lia |]. split; [exact H0 |]. split; [exact H1 |].
    apply Q.min_r. apply Qlt_le_weak. exact H1.
  - intros Hge. unfold Rev081346.current_circle.
    destruct (Z.geb_spec (frame / Rev081346.FRAMES_PER_CIRCLE) (Rev081346.n data));
      [reflexivity | lia].
  - intros Hhi period raw s.
    assert (Hperiod : (0 < period)%Z) by reflexivity.
    assert (Hdiv : (0 <= frame / period < Rev133304.n data)%Z).
    { split; [apply Z.div_pos; lia |].
      apply Z.div_lt_upper_bound; [lia |].
      unfold Rev133304.total_frames in Hhi. fold period in Hhi. lia. }
    assert (Hi : Rev133304.i s = (frame / period)%Z).
    { unfold s, Rev133304.update_item. simpl. fold period. lia. }
    split; [reflexivity |]. split; [exact Hi |]. split; [lia |].
    exact Hprogress.
  - intros Hge. cbv zeta in Hprogress |- *.
    destruct Hprogress as (E & _ & _).
    split; [unfold Rev133304.update_item; simpl; lia |].
    split; [reflexivity |].
    split; [exact E |].
    intros Hzero. rewrite E, Hzero. reflexivity.
Qed.

Lemma item_subloop_witness :
  (0 <= 29)%Z /\
  Rev133304.draw_progress (Rev133304.update_item rows 29) = 1.0.
Proof.
  assert (Hlo : (0 <= 29)%Z) by lia.
  split; [exact Hlo |].
  destruct (item_subloop rows 29 Hlo) as (_ & _ & H & _).
  apply H; vm_compute; [reflexivity | discriminate].
Defined.

(** C3 as worded, "when itemIndex would exceed n-1 it clamps to the last
    item at progress 1.0", does not hold for revision 133304.  On the 28
    rows of the script, frame 840 gives the index 840 div 30 = 28, which
    exceeds n - 1 = 27; [i = min(n - 1, frame // 30)] clamps it to 27,
    but the item frame is 840 mod 30 = 0 and the progress computed from
    it is 0, not 1.0: the last circle is drawn again from its start. *)
Lemma clamped_index_keeps_item_progress :
  Rev133304.n rows = 28%Z /\
  (840 / (Rev133304.FRAMES_PER_CIRCLE + Rev133304.HOLD_FRAMES))%Z = 28%Z /\
  Rev133304.i (Rev133304.update_item rows 840) = 27%Z /\
  Rev133304.item_frame (Rev133304.update_item rows 840) = 0%Z /\
  Rev133304.draw_progress (Rev133304.update_item rows 840) == 0 /\
  ~ Rev133304.draw_progress (Rev133304.update_item rows 840) == 1.
Proof.
  split; [reflexivity |]. split; [reflexivity |]. split; [reflexivity |].
  split; [reflexivity |]. split; [reflexivity |].
  vm_compute. discriminate.
Qed.

(** ** What a frame's output depends on *)


Section Dependence.

Import Rev081346.

Variable data : list (string * Q).






End Dependence.



(** ** Empty dataset *)

(** The guarded revision: the module body raises exactly for the empty
    dataset, which is also exactly when a phase frame count is not
    positive; the counts always sum to total_frames; and after a
    successful start every frame 0, 1, 2, ... is drawn without error. *)
Lemma guarded_revision_total (data : list (string * Q)) :
  (Rev081346.startup data = Raise (SystemExit "rows is empty") <-> data = []) /\
  ((Rev081346.PHASE1_FRAMES data <= 0)%Z <-> data = []) /\
  fold_right Z.add 0%Z (Rev081346.phase_counts data)
  = Rev081346.total_frames data /\
  (forall frame fig, (0 <= frame)%Z ->
     succeeds (Rev081346.update data frame fig)).
Proof.
  repeat apply conj.
  - destruct data; [reflexivity | discriminate].
  - now destruct (startup_guard data) as [H _].
  - destruct data; [reflexivity |].
    unfold Rev081346.PHASE1_FRAMES, Rev081346.n, Rev081346.vals,
      Rev081346.FRAMES_PER_CIRCLE.
    simpl length. lia.
  - intros ->. vm_compute. discriminate.
  - unfold Rev081346.phase_counts, Rev081346.total_frames.
    cbn [fold_right]. lia.
  - intros frame fig Hlo. now apply update_succeeds.
Qed.


(** ** Sample runs *)

(** the sample of the spec: frame counts 10, 20, 30 *)
Example spec_resolve_sample :
  map (spec_resolve [10; 20; 30]%Z) [0; 9; 10; 59; 1000]%Z
  = [Some (0%nat, 0%Z); Some (0%nat, 9%Z); Some (1%nat, 0%Z);
     Some (2%nat, 29%Z); None].
Proof. reflexivity. Qed.

(** the dataset of the scripts: 28 circles of 40 frames, then 120, 150
    and 90 frames *)
Example dataset_phase_counts :
  Rev081346.phase_counts rows = [1120; 120; 150; 90]%Z /\
  Rev081346.total_frames rows = 1480%Z.
Proof. split; reflexivity. Qed.

Example dataset_branches :
  map (fun f => Rev081346.phase_index (Rev081346.select rows f))
    [0; 1119; 1120; 1239; 1240; 1389; 1390; 1479; 1480; 5000]%Z
  = [0; 0; 1; 1; 2; 2; 3; 3; 3; 3]%nat.
Proof. reflexivity. Qed.

(** In a sequential run the first frame of phase 2 still shows the text
    that the last frame of phase 1 wrote: the fade-out of phase 2 works
    on the text artists as phase 1 left them. *)
Example phase2_fades_text_of_phase1 :
  exists fig out,
    Rev081346.update rows 1119 Rev081346.initial_figure = Ok fig /\
    Rev081346.update rows 1120 fig = Ok out /\
    t_text (Rev081346.main_text out) = Percent 1 10.23 /\
    t_alpha (Rev081346.main_text out) == 0.8.
Proof.
  do 2 eexists.
  split; [vm_compute; reflexivity |].
  split; [vm_compute; reflexivity |].
  split; reflexivity.
Qed.

(** Revision 133304 past its last frame: the index is clamped to the
    last circle, the drawing progress starts again from 0. *)
Example over_range_item_133304 :
  Rev133304.total_frames rows = 840%Z /\
  Rev133304.i (Rev133304.update_item rows 840) = 27%Z /\
  Rev133304.draw_progress (Rev133304.update_item rows 840) == 0.
Proof. repeat split. Qed.

(** Rounding decides truncated values.  In revision 133304 the progress
    of item frame 5 is 0.36 without rounding, which would give
    int(200 * 0.36) = 72 points; the floats give 0.35999999999999988 and
    71 points.  In revision 073806 with 22 rows, frame 525 would be the
    first frame of row 15 (525 / 770 * 22 = 15); the floats give
    14.999999999999998 and row 14.  In revision 133111 with 75 rows,
    frame 228 gives 54 rows instead of 88 / 120 * 75 = 55. *)
Example rounding_decides_truncation :
  int_of (200 * Rev133304.draw_progress (Rev133304.update_item rows 5)) = 72%Z /\
  int_of (binary64 (200 * Rev133304Draw.draw_progress 5)) = 71%Z /\
  int_of (truediv 525 770 * inject_Z 22) = 15%Z /\
  int_of (binary64 (binary64 (truediv 525 770) * binary64 (inject_Z 22))) = 14%Z /\
  int_of (truediv 88 120 * inject_Z 75) = 55%Z /\
  int_of (binary64 (binary64 (truediv 88 120) * binary64 (inject_Z 75))) = 54%Z.
Proof. repeat split; vm_compute; reflexivity. Qed.

(** Samples of [binary64]: 0.1 is 3602879701896397 / 2^55, the tie
    2^53 + 1 goes to the even neighbour 2^53, 2^53 + 3 to 2^53 + 4, the
    least subnormal is 2^-1074 and half of it rounds to 0; small
    integers and dyadic fractions are kept. *)
Example binary64_samples :
  binary64 (1 # 10) == 3602879701896397 # (2 ^ 55) /\
  binary64 (inject_Z (2 ^ 53 + 1)) == inject_Z (2 ^ 53) /\
  binary64 (inject_Z (2 ^ 53 + 3)) == inject_Z (2 ^ 53 + 4) /\
  binary64 (- (1 # 3)) == - (6004799503160661 # (2 ^ 54)) /\
  binary64 (pow2 (-1074)) == pow2 (-1074) /\
  binary64 (pow2 (-1075)) == 0 /\
  binary64 (3 * pow2 (-1075)) == 2 * pow2 (-1074) /\
  binary64 200 == 200 /\ binary64 0.75 == 0.75.
Proof. repeat split; vm_compute; reflexivity. Qed.

(** * Further properties of the helpers and of the drawing code *)

(** ** Easing and interpolation *)

(** X1. [ease_in_out] fixes 0, 1/2 and 1 and is point-symmetric about
    (1/2, 1/2): the eased progress of t and of 1 - t add up to 1. *)
Theorem ease_in_out_symmetric (t : Q) :
  ease_in_out t + ease_in_out (1 - t) == 1 /\
  ease_in_out 0 == 0 /\ ease_in_out (1 # 2) == 1 # 2 /\ ease_in_out 1 == 1.
Proof.
  unfold ease_in_out. repeat split; try reflexivity. ring.
Qed.

Lemma ease_in_out_unit (t : Q) :
  0 <= t -> t <= 1 -> 0 <= ease_in_out t /\ ease_in_out t <= 1.
Proof.
  intros H0 H1. unfold ease_in_out.
  assert (Hsq : 0 <= t * t) by nra.
  split; [nra |].
  assert (E : 1 - t * t * (3 - 2 * t) == (1 - t) * (1 - t) * (1 + 2 * t)) by ring.
  assert (Hpos : 0 <= (1 - t) * (1 - t) * (1 + 2 * t)).
  { apply Qmult_le_0_compat; [| lra]. nra. }
  rewrite <- E in Hpos. lra.
Qed.

Lemma ease_in_out_monotone (s t : Q) :
  0 <= s -> s <= t -> t <= 1 -> ease_in_out s <= ease_in_out t.
Proof.
  intros H0 Hst H1. unfold ease_in_out.
  assert (E : t * t * (3 - 2 * t) - s * s * (3 - 2 * s)
              == (t - s) * (3 * (t + s) - 2 * (t * t + t * s + s * s))) by ring.
  assert (Htt : t * t <= t) by nra.
  assert (Hss : s * s <= s) by nra.
  assert (Hts : t * s <= s) by nra.
  assert (Hpos : 0 <= (t - s) * (3 * (t + s) - 2 * (t * t + t * s + s * s))).
  { apply Qmult_le_0_compat; lra. }
  rewrite <- E in Hpos. lra.
Qed.

(** X2. On the unit interval [ease_in_out] stays in the unit interval
    and never decreases. *)
Theorem ease_in_out_on_unit_interval (s t : Q)
    (H0 : 0 <= s) (Hst : s <= t) (H1 : t <= 1) :
  unit_interval (ease_in_out s) /\ unit_interval (ease_in_out t) /\
  ease_in_out s <= ease_in_out t.
Proof.
  split; [apply ease_in_out_unit; lra |].
  split; [apply ease_in_out_unit; lra |].
  now apply ease_in_out_monotone.
Qed.

Lemma ease_in_out_on_unit_interval_witness :
  ease_in_out (1 # 4) <= ease_in_out (3 # 4).
Proof.
  apply (ease_in_out_on_unit_interval (1 # 4) (3 # 4));
    vm_compute; discriminate.
Defined.

Lemma cube_expand (x : Q) : x ^ 3 == x * x * x.
Proof. simpl. ring. Qed.

Lemma ease_out_cubic_unit (t : Q) :
  0 <= t -> t <= 1 -> t <= ease_out_cubic t /\ ease_out_cubic t <= 1.
Proof.
  intros H0 H1. unfold ease_out_cubic. rewrite cube_expand.
  assert (Hsq : 0 <= (1 - t) * (1 - t)) by nra.
  assert (Hsq1 : (1 - t) * (1 - t) <= 1) by nra.
  assert (Hcube : 0 <= (1 - t) * (1 - t) * (1 - t))
    by (apply Qmult_le_0_compat; lra).
  split; [| lra].
  assert (Hle : (1 - t) * (1 - t) * (1 - t) <= 1 * (1 - t))
    by (apply Qmult_le_compat_r; lra).
  lra.
Qed.

Lemma ease_out_cubic_monotone (s t : Q) :
  0 <= s -> s <= t -> t <= 1 -> ease_out_cubic s <= ease_out_cubic t.
Proof.
  intros H0 Hst H1. unfold ease_out_cubic. rewrite !cube_expand.
  assert (E : (1 - s) * (1 - s) * (1 - s) - (1 - t) * (1 - t) * (1 - t)
              == (t - s) * ((1 - s) * (1 - s) + (1 - s) * (1 - t)
                            + (1 - t) * (1 - t))) by ring.
  assert (Hpos : 0 <= (t - s) * ((1 - s) * (1 - s) + (1 - s) * (1 - t)
                                 + (1 - t) * (1 - t))).
  { apply Qmult_le_0_compat; [lra |].
    assert (0 <= (1 - s) * (1 - s)) by nra.
    assert (0 <= (1 - s) * (1 - t)) by nra.
    assert (0 <= (1 - t) * (1 - t)) by nra. lra. }
  rewrite <- E in Hpos. lra.
Qed.

(** X3. [ease_out_cubic] maps 0 to 0 and 1 to 1; on the unit interval
    it never decreases, stays at most 1 and runs ahead of the linear
    progress (t <= ease_out_cubic t). *)
Theorem ease_out_cubic_on_unit_interval (s t : Q)
    (H0 : 0 <= s) (Hst : s <= t) (H1 : t <= 1) :
  ease_out_cubic 0 == 0 /\ ease_out_cubic 1 == 1 /\
  t <= ease_out_cubic t /\ ease_out_cubic t <= 1 /\
  ease_out_cubic s <= ease_out_cubic t.
Proof.
  split; [reflexivity |]. split; [reflexivity |].
  destruct (ease_out_cubic_unit t) as [Hlo Hhi]; [lra | lra |].
  split; [exact Hlo |]. split; [exact Hhi |].
  now apply ease_out_cubic_monotone.
Qed.

Lemma ease_out_cubic_on_unit_interval_witness :
  (1 # 2) <= ease_out_cubic (1 # 2).
Proof.
  apply (ease_out_cubic_on_unit_interval (1 # 4) (1 # 2));
    vm_compute; discriminate.
Defined.

(** X4. For every a and b, [lerp a b] starts at a (t = 0) and ends at b
    (t = 1); while t runs through the unit interval it moves
    monotonically from a to b and stays between them: upwards when
    a <= b (the fade of the trail, [lerp(0.20, 0.70, .)]), downwards
    when b <= a (the camera, [lerp(90, 25, .)] and [lerp(0, -60, .)]). *)
Theorem lerp_between (a b : Q) :
  lerp a b 0 == a /\ lerp a b 1 == b /\
  forall s t : Q, 0 <= s -> s <= t -> t <= 1 ->
    (a <= b ->
       a <= lerp a b s /\ lerp a b s <= lerp a b t /\ lerp a b t <= b) /\
    (b <= a ->
       b <= lerp a b t /\ lerp a b t <= lerp a b s /\ lerp a b s <= a).
Proof.
  unfold lerp. split; [ring |]. split; [ring |].
  intros s t H0 Hst H1. split; intros Hab; repeat split; nra.
Qed.

Lemma lerp_between_witness :
  lerp 90 25 0 == 90 /\ lerp 90 25 1 == 25 /\
  25 <= lerp 90 25 (2 # 7) /\ lerp 90 25 (2 # 7) <= lerp 90 25 (1 # 7) /\
  lerp 0.20 0.70 (1 # 7) <= lerp 0.20 0.70 (2 # 7).
Proof.
  destruct (lerp_between 90 25) as (E0 & E1 & H).
  destruct (lerp_between 0.20 0.70) as (_ & _ & H').
  split; [exact E0 |]. split; [exact E1 |].
  destruct (H (1 # 7) (2 # 7)) as [_ Hdown]; try (vm_compute; discriminate).
  destruct (H' (1 # 7) (2 # 7)) as [Hup _]; try (vm_compute; discriminate).
  destruct Hdown as (D1 & D2 & _); [vm_compute; discriminate |].
  destruct Hup as (_ & U2 & _); [vm_compute; discriminate |].
  split; [exact D1 |]. split; [exact D2 |]. exact U2.
Defined.

(** ** The radius array *)

Lemma radiusFor_between (v valueMax radiusMin radiusMax : Q) :
  radiusMin <= radiusMax ->
  radiusMin <= radiusFor v valueMax radiusMin radiusMax /\
  radiusFor v valueMax radiusMin radiusMax <= radiusMax.
Proof.
  intros Hrad. unfold radiusFor.
  destruct (clip_unit_cases (v / valueMax)) as [[? Hc] | [(? & ? & Hc) | [? Hc]]];
    rewrite Hc; split; nra.
Qed.

Lemma radiusFor_monotone (v w valueMax radiusMin radiusMax : Q) :
  0 < valueMax -> radiusMin <= radiusMax -> v <= w ->
  radiusFor v valueMax radiusMin radiusMax
  <= radiusFor w valueMax radiusMin radiusMax.
Proof.
  intros Hmax Hrad Hvw. unfold radiusFor.
  pose proof (clip_unit_monotone _ _ (div_le_compat v w valueMax Hmax Hvw)).
  nra.
Qed.

Lemma r_small_le_r_big : Rev081346.r_small <= Rev081346.r_big.
Proof. vm_compute. discriminate. Qed.

Lemma r_lookup (data : list (string * Q)) (k : nat) (rk : Q) :
  Rev081346.r data !! k = Some rk ->
  exists v, Rev081346.vals data !! k = Some v /\
            rk = radiusFor v Rev081346.PCT_MAX Rev081346.r_small Rev081346.r_big.
Proof.
  unfold Rev081346.r. rewrite list_lookup_fmap.
  destruct (Rev081346.vals data !! k) as [v |]; simpl; [| discriminate].
  intros [= <-]. now exists v.
Qed.

(** X5. The radius array of the last revision has one radius per data
    row; every radius lies between r_small = 0.35 and r_big = 1.1, and a
    row with a larger (or equal) value never gets a smaller radius. *)
Theorem radii_follow_values (data : list (string * Q)) :
  length (Rev081346.r data) = length data /\
  (forall k rk, Rev081346.r data !! k = Some rk ->
     Rev081346.r_small <= rk /\ rk <= Rev081346.r_big) /\
  (forall j k vj vk rj rk,
     Rev081346.vals data !! j = Some vj -> Rev081346.vals data !! k = Some vk ->
     Rev081346.r data !! j = Some rj -> Rev081346.r data !! k = Some rk ->
     vj <= vk -> rj <= rk).
Proof.
  split; [| split].
  - unfold Rev081346.r, Rev081346.vals. now rewrite !length_map.
  - intros k rk Hk. destruct (r_lookup data k rk Hk) as (v & _ & ->).
    apply radiusFor_between, r_small_le_r_big.
  - intros j k vj vk rj rk Hvj Hvk Hrj Hrk Hle.
    destruct (r_lookup data j rj Hrj) as (vj' & Hvj' & ->).
    destruct (r_lookup data k rk Hrk) as (vk' & Hvk' & ->).
    assert (vj' = vj) as -> by congruence.
    assert (vk' = vk) as -> by congruence.
    apply radiusFor_monotone; [reflexivity | apply r_small_le_r_big | exact Hle].
Qed.

(** ** Frames of the last revision in detail *)

Lemma holds_below_spec (k : Z) (test : Z -> bool) :
  holds_below k test = true ->
  forall j, (0 <= j < k)%Z -> test j = true.
Proof.
  unfold holds_below, range. intros Hall j Hj.
  rewrite forallb_forall in Hall. apply Hall.
  apply in_map_iff. exists (Z.to_nat j). split; [lia |].
  apply in_seq. lia.
Qed.

Lemma getitem_ok_lookup {A : Type} (xs : list A) (i : Z) (x : A) :
  getitem xs i = Ok x -> (0 <= i)%Z -> xs !! Z.to_nat i = Some x.
Proof.
  unfold getitem. intros H Hi.
  destruct (Z.ltb_spec i 0); [lia |].
  destruct (_ || _); [discriminate |].
  destruct (xs !! Z.to_nat i); [congruence | discriminate].
Qed.

Lemma range_step_lookup_value (k step : Z) (j : nat) (x : Z) :
  range_step k step !! j = Some x -> x = (Z.of_nat j * step)%Z.
Proof.
  unfold range_step. rewrite list_lookup_fmap.
  destruct (seq 0 _ !! j) as [m |] eqn:E; simpl; [| discriminate].
  apply lookup_seq in E as [-> _]. now intros [= <-].
Qed.

Lemma range_step_length (k step : Z) :
  length (range_step k step) = Z.to_nat ((k + step - 1) / step).
Proof. unfold range_step. now rewrite length_map, length_seq. Qed.

(** the item frames on which the value text is written, and on which the
    arc of the current circle has at least two points *)
Lemma text_window (k : Z) :
  (0 <= k < Rev081346.FRAMES_PER_CIRCLE)%Z ->
  Qgtb (ease_out_cubic (truediv k Rev081346.FRAMES_PER_CIRCLE)) 0.7
  = (14 <=? k)%Z.
Proof.
  intros Hk. apply Bool.eqb_prop.
  apply (holds_below_spec Rev081346.FRAMES_PER_CIRCLE
           (fun k => Bool.eqb
                       (Qgtb (ease_out_cubic
                                (truediv k Rev081346.FRAMES_PER_CIRCLE)) 0.7)
                       (14 <=? k)%Z));
    [vm_compute; reflexivity | exact Hk].
Qed.

Lemma arc_window (k : Z) :
  (0 <= k < Rev081346.FRAMES_PER_CIRCLE)%Z ->
  (int_of (200 * ease_out_cubic (truediv k Rev081346.FRAMES_PER_CIRCLE)) >=? 2)%Z
  = (1 <=? k)%Z.
Proof.
  intros Hk. apply Bool.eqb_prop.
  apply (holds_below_spec Rev081346.FRAMES_PER_CIRCLE
           (fun k => Bool.eqb
                       (int_of (200 * ease_out_cubic
                                        (truediv k Rev081346.FRAMES_PER_CIRCLE))
                        >=? 2)%Z
                       (1 <=? k)%Z));
    [vm_compute; reflexivity | exact Hk].
Qed.

Lemma fade_test (frame : Z) :
  Qltb (inject_Z frame) (inject_Z Rev081346.FRAMES_PER_CIRCLE * 0.3)
  = (frame <? 12)%Z.
Proof.
  assert (E : inject_Z Rev081346.FRAMES_PER_CIRCLE * 0.3 == inject_Z 12)
    by reflexivity.
  destruct (Qltb_cases (inject_Z frame)
              (inject_Z Rev081346.FRAMES_PER_CIRCLE * 0.3)) as [[-> H] | [-> H]];
    rewrite E in H; symmetry.
  - rewrite <- Zlt_Qlt in H. now apply Z.ltb_lt.
  - rewrite <- Zle_Qle in H. now apply Z.ltb_ge.
Qed.

Section Frames.

Import Rev081346.

Variable data : list (string * Q).

Local Notation "'P1'" := (PHASE1_FRAMES data).
Local Notation "'P2'" := PHASE2_FRAMES.
Local Notation "'P3'" := PHASE3_FRAMES.

Lemma full_circle_fields (z alpha lw : Q) (i : Z) (line : line3d) :
  full_circle data z alpha lw i = Ok line -> (0 <= i)%Z ->
  r data !! Z.to_nat i = Some (ln_radius line) /\
  pct_color <$> vals data !! Z.to_nat i = Some (ln_color line) /\
  ln_turn line = 1 /\ ln_points line = 200%Z /\ ln_z line = z /\
  ln_alpha line = alpha /\ ln_lw line = lw.
Proof.
  unfold full_circle. intros H Hi.
  destruct (getitem (r data) i) as [ri |] eqn:Er; simpl in H; [| discriminate].
  destruct (getitem (vals data) i) as [vi |] eqn:Ev; simpl in H; [| discriminate].
  injection H as <-. simpl.
  rewrite (getitem_ok_lookup _ _ _ Er Hi), (getitem_ok_lookup _ _ _ Ev Hi).
  repeat split; reflexivity.
Qed.

Lemma circles_fields (z alpha : Z -> Q) (lw : Q) (k : Z) (cs : list line3d) :
  for_each (fun i => full_circle data (z i) (alpha i) lw i) (range k) = Ok cs ->
  length cs = Z.to_nat k /\
  forall j line, cs !! j = Some line ->
    r data !! j = Some (ln_radius line) /\
    pct_color <$> vals data !! j = Some (ln_color line) /\
    ln_turn line = 1 /\ ln_points line = 200%Z /\
    ln_z line = z (Z.of_nat j) /\ ln_alpha line = alpha (Z.of_nat j) /\
    ln_lw line = lw.
Proof.
  intros E. apply for_each_lookup in E as [Hlen Hget]. split.
  - rewrite Hlen. unfold range. now rewrite length_map, length_seq.
  - intros j line Hj. destruct (Hget j line Hj) as (x & Hx & Hbody).
    apply range_lookup in Hx as [-> Hx].
    apply full_circle_fields in Hbody; [| lia].
    now rewrite Nat2Z.id in Hbody.
Qed.

Lemma side_labels_fields (z_spacing alpha : Q) (ls : list label3d) :
  side_labels data z_spacing alpha = Ok ls ->
  length ls = Z.to_nat ((n data + 1) / 2) /\
  forall j lb, ls !! j = Some lb ->
    labels data !! (2 * j)%nat = Some (lb_text lb) /\
    lb_pos lb = (1.5, 0, inject_Z (Z.of_nat j * 2) * z_spacing) /\
    lb_alpha lb = alpha.
Proof.
  unfold side_labels. intros E.
  apply for_each_lookup in E as [Hlen Hget]. split.
  - rewrite Hlen, range_step_length. f_equal. f_equal. lia.
  - intros j lb Hj. destruct (Hget j lb Hj) as (x & Hx & Hbody).
    assert (Hrange : (0 <= x < n data)%Z)
      by (apply (range_step_lookup (n data) 2 j x); [lia | exact Hx]).
    apply range_step_lookup_value in Hx. subst x.
    destruct (getitem (labels data) (Z.of_nat j * 2)) as [li |] eqn:El;
      simpl in Hbody; [| discriminate].
    injection Hbody as <-. simpl.
    apply getitem_ok_lookup in El; [| lia].
    replace (Z.to_nat (Z.of_nat j * 2)) with (2 * j)%nat in El by lia.
    auto.
Qed.

(** the artists after a frame of phase 1, written out *)
Lemma update_phase1_explicit (frame : Z) (fig : figure) :
  (0 <= frame < P1)%Z ->
  let idx := (frame / FRAMES_PER_CIRCLE)%Z in
  let k := (frame mod FRAMES_PER_CIRCLE)%Z in
  let p := ease_out_cubic (truediv k FRAMES_PER_CIRCLE) in
  exists cs ri vi li,
    for_each
      (fun i => full_circle data 0 (Qmax (0.5 - inject_Z i * 0.015) 0.15) 2.0 i)
      (range idx) = Ok cs /\
    r data !! Z.to_nat idx = Some ri /\
    vals data !! Z.to_nat idx = Some vi /\
    labels data !! Z.to_nat idx = Some li /\
    update data frame fig
    = Ok {| lines :=
              cs ++ (if (1 <=? k)%Z
                     then [ {| ln_radius := ri; ln_turn := p;
                               ln_points := int_of (200 * p); ln_z := 0;
                               ln_color := pct_color vi;
                               ln_alpha := 0.95; ln_lw := 2.8 |};
                            {| ln_radius := ri; ln_turn := p;
                               ln_points := int_of (200 * p); ln_z := 0;
                               ln_color := pct_color vi;
                               ln_alpha := 0.3; ln_lw := 6.0 |} ]
                     else []);
            date_labels_3d := [];
            main_text :=
              if (14 <=? k)%Z
              then {| t_text := Percent 1 vi; t_color := RGB (pct_color vi);
                      t_alpha := (p - 0.7) / 0.3 * 0.8 |}
              else if (frame <? 12)%Z
              then set_alpha
                     ((1 - inject_Z k / (inject_Z FRAMES_PER_CIRCLE * 0.3)) * 0.8)
                     (main_text fig)
              else set_alpha 0 (main_text fig);
            date_text :=
              if (14 <=? k)%Z
              then set_alpha ((p - 0.7) / 0.3 * 0.7)
                     (set_text (Literal li) (date_text fig))
              else if (frame <? 12)%Z
              then set_alpha
                     ((1 - inject_Z k / (inject_Z FRAMES_PER_CIRCLE * 0.3)) * 0.7)
                     (date_text fig)
              else set_alpha 0 (date_text fig);
            view := (90, -90) |}.
Proof.
  intros Hin idx k p. subst p k idx.
  pose proof (circle_idx_in_range data frame Hin) as Hidx.
  assert (Hk : (0 <= frame mod FRAMES_PER_CIRCLE < FRAMES_PER_CIRCLE)%Z)
    by (apply Z.mod_pos_bound; reflexivity).
  destruct (circles_succeed data (fun _ => 0)
              (fun i => Qmax (0.5 - inject_Z i * 0.015) 0.15) 2.0
              (frame / FRAMES_PER_CIRCLE))
    as [cs Ecs]; [lia |].
  destruct (getitem_in_range (r data) (frame / FRAMES_PER_CIRCLE))
    as (ri & Er & Er'); [rewrite length_r; exact Hidx |].
  destruct (getitem_in_range (vals data) (frame / FRAMES_PER_CIRCLE))
    as (vi & Ev & Ev'); [exact Hidx |].
  destruct (getitem_in_range (labels data) (frame / FRAMES_PER_CIRCLE))
    as (li & El & El'); [rewrite length_labels; exact Hidx |].
  exists cs, ri, vi, li. repeat (split; [assumption |]).
  unfold update. rewrite (select_phase1 data frame Hin).
  unfold draw_phase1. rewrite Ecs. cbv zeta.
  destruct (Z.ltb_spec (frame / FRAMES_PER_CIRCLE) (n data)); [| lia].
  rewrite Er, Ev, El.
  rewrite (arc_window _ Hk), (text_window _ Hk), fade_test.
  destruct (1 <=? _)%Z; destruct (14 <=? _)%Z; destruct (frame <? 12)%Z;
    reflexivity.
Qed.

Lemma trail_alpha_bounds (j : nat) :
  0.15 <= Qmax (0.5 - inject_Z (Z.of_nat j) * 0.015) 0.15 /\
  Qmax (0.5 - inject_Z (Z.of_nat j) * 0.015) 0.15 <= 0.5.
Proof.
  assert (H : 0 <= inject_Z (Z.of_nat j)) by (apply inject_Z_nonneg; lia).
  destruct (Q.max_spec (0.5 - inject_Z (Z.of_nat j) * 0.015) 0.15)
    as [[? ->] | [? ->]]; split; lra.
Qed.

(** X6. A frame of phase 1 draws the circles before the current one in
    full, flat (z = 0), each with the radius and the colour of its data
    row and an opacity between 0.15 and 0.5, and after them the current
    circle as an arc with a glow copy, unless the frame is the first of
    its circle (item frame 0), where the arc is left out. *)
Theorem phase1_curves (frame : Z) (fig : figure)
    (Hin : (0 <= frame < P1)%Z) :
  let idx := Z.to_nat (frame / FRAMES_PER_CIRCLE) in
  let k := (frame mod FRAMES_PER_CIRCLE)%Z in
  let p := ease_out_cubic (truediv k FRAMES_PER_CIRCLE) in
  exists out,
    update data frame fig = Ok out /\
    length (lines out) = (idx + (if (k =? 0)%Z then 0 else 2))%nat /\
    (forall j line,
       (j < idx)%nat -> lines out !! j = Some line ->
       r data !! j = Some (ln_radius line) /\
       pct_color <$> vals data !! j = Some (ln_color line) /\
       ln_turn line = 1 /\ ln_points line = 200%Z /\ ln_z line = 0 /\
       0.15 <= ln_alpha line /\ ln_alpha line <= 0.5 /\ ln_lw line = 2.0) /\
    (k <> 0%Z ->
     exists arc glow,
       lines out !! idx = Some arc /\ lines out !! S idx = Some glow /\
       r data !! idx = Some (ln_radius arc) /\
       pct_color <$> vals data !! idx = Some (ln_color arc) /\
       ln_turn arc = p /\ ln_points arc = int_of (200 * p) /\
       (2 <= ln_points arc)%Z /\ ln_z arc = 0 /\
       ln_alpha arc = 0.95 /\ ln_lw arc = 2.8 /\
       ln_radius glow = ln_radius arc /\ ln_color glow = ln_color arc /\
       ln_turn glow = p /\ ln_points glow = ln_points arc /\ ln_z glow = 0 /\
       ln_alpha glow = 0.3 /\ ln_lw glow = 6.0).
Proof.
  intros idx k p.
  destruct (update_phase1_explicit frame fig Hin) as (cs & ri & vi & li & Ecs & Er & Ev & El & Eout).
  fold k p in Eout. fold idx in Er, Ev, El.
  assert (Hk : (0 <= k < FRAMES_PER_CIRCLE)%Z)
    by (apply Z.mod_pos_bound; reflexivity).
  apply circles_fields in Ecs as [Hlen Hcs]. fold idx in Hlen.
  eexists. split; [exact Eout |]. cbn [lines].
  assert (Harc : (int_of (200 * p) >=? 2)%Z = (1 <=? k)%Z)
    by (apply arc_window; exact Hk).
  split; [| split].
  - rewrite length_app, Hlen.
    destruct (Z.eqb_spec k 0) as [-> | Hne]; [reflexivity |].
    destruct (Z.leb_spec 1 k); [reflexivity | lia].
  - intros j line Hj Hline. rewrite lookup_app_l in Hline by lia.
    destruct (Hcs j line Hline) as (H1 & H2 & H3 & H4 & H5 & H6 & H7).
    rewrite H6. pose proof (trail_alpha_bounds j). tauto.
  - intros Hne. destruct (Z.leb_spec 1 k) as [Hk1 | Hk1]; [| lia].
    do 2 eexists.
    split; [rewrite lookup_app_r by lia; rewrite Hlen, Nat.sub_diag; reflexivity |].
    split; [rewrite lookup_app_r by lia; rewrite Hlen;
            replace (S idx - idx)%nat with 1%nat by lia; reflexivity |].
    cbn. rewrite Er, Ev. cbn.
    repeat split; try reflexivity.
    destruct (Z.geb_spec (int_of (200 * p)) 2) as [Hge | Hlt]; [lia |].
    destruct (Z.leb_spec 1 k); [discriminate | lia].
Qed.

(** X7. The centre texts after a frame of phase 1.  From item frame 14
    on (eased progress above 0.7) the value text is rewritten to the
    value of the current circle in its colour and the date text to its
    label, with an opacity growing with the progress.  Before that the
    texts are only dimmed: to 0 for every frame from 12 on, and along a
    ramp from 0.8 / 0.7 down for the first twelve frames of the
    animation (the test compares the global frame, not the item frame). *)
Theorem phase1_texts (frame : Z) (fig : figure)
    (Hin : (0 <= frame < P1)%Z) :
  let idx := Z.to_nat (frame / FRAMES_PER_CIRCLE) in
  let k := (frame mod FRAMES_PER_CIRCLE)%Z in
  let p := ease_out_cubic (truediv k FRAMES_PER_CIRCLE) in
  exists out,
    update data frame fig = Ok out /\
    ((14 <= k)%Z ->
       exists vi li,
         vals data !! idx = Some vi /\ labels data !! idx = Some li /\
         main_text out
         = {| t_text := Percent 1 vi; t_color := RGB (pct_color vi);
              t_alpha := (p - 0.7) / 0.3 * 0.8 |} /\
         date_text out
         = {| t_text := Literal li; t_color := t_color (date_text fig);
              t_alpha := (p - 0.7) / 0.3 * 0.7 |} /\
         0.7 < p /\ p <= 1) /\
    ((k < 14)%Z -> (12 <= frame)%Z ->
       main_text out = set_alpha 0 (main_text fig) /\
       date_text out = set_alpha 0 (date_text fig)) /\
    ((frame < 12)%Z ->
       main_text out
       = set_alpha ((1 - inject_Z frame / (inject_Z FRAMES_PER_CIRCLE * 0.3)) * 0.8)
           (main_text fig) /\
       date_text out
       = set_alpha ((1 - inject_Z frame / (inject_Z FRAMES_PER_CIRCLE * 0.3)) * 0.7)
           (date_text fig)).
Proof.
  intros idx k p.
  destruct (update_phase1_explicit frame fig Hin) as (cs & ri & vi & li & Ecs & Er & Ev & El & Eout).
  fold k p in Eout. fold idx in Er, Ev, El.
  assert (Hk : (0 <= k < FRAMES_PER_CIRCLE)%Z)
    by (apply Z.mod_pos_bound; reflexivity).
  eexists. split; [exact Eout |]. cbn [main_text date_text].
  split; [| split].
  - intros H14. destruct (Z.leb_spec 14 k); [| lia].
    exists vi, li. repeat (split; [first [assumption | reflexivity] |]).
    pose proof (text_window k Hk) as Hwin. fold p in Hwin.
    destruct (Z.leb_spec 14 k); [| lia].
    destruct (Qgtb_cases p 0.7) as [[_ Hgt] | [E _]]; [| congruence].
    split; [exact Hgt |].
    destruct (truediv_unit k FRAMES_PER_CIRCLE Hk) as [Hraw0 Hraw1].
    apply ease_out_cubic_unit; lra.
  - intros Hk14 H12. destruct (Z.leb_spec 14 k); [lia |].
    destruct (Z.ltb_spec frame 12); [lia |]. split; reflexivity.
  - intros H12.
    assert (Hsmall : k = frame).
    { unfold k. apply Z.mod_small. unfold FRAMES_PER_CIRCLE. lia. }
    destruct (Z.leb_spec 14 k); [lia |].
    destruct (Z.ltb_spec frame 12); [| lia].
    rewrite Hsmall. split; reflexivity.
Qed.

End Frames.

Lemma phase1_curves_witness :
  exists out,
    Rev081346.update rows 45 Rev081346.initial_figure = Ok out /\
    length (Rev081346.lines out) = 3%nat.
Proof.
  assert (Hin : (0 <= 45 < Rev081346.PHASE1_FRAMES rows)%Z)
    by (split; [lia | reflexivity]).
  destruct (phase1_curves rows 45 Rev081346.initial_figure Hin)
    as (out & Hout & Hlen & _).
  exists out. split; [exact Hout | exact Hlen].
Defined.

Lemma phase1_texts_witness :
  exists out,
    Rev081346.update rows 45 Rev081346.initial_figure = Ok out /\
    Rev081346.main_text out
    = set_alpha 0 (Rev081346.main_text Rev081346.initial_figure).
Proof.
  assert (Hin : (0 <= 45 < Rev081346.PHASE1_FRAMES rows)%Z)
    by (split; [lia | reflexivity]).
  destruct (phase1_texts rows 45 Rev081346.initial_figure Hin)
    as (out & Hout & _ & Hdim & _).
  exists out. split; [exact Hout |].
  apply Hdim; vm_compute; [reflexivity | discriminate].
Defined.

Section Cylinder.

Import Rev081346.

Variable data : list (string * Q).

Local Notation "'P1'" := (PHASE1_FRAMES data).
Local Notation "'P2'" := PHASE2_FRAMES.
Local Notation "'P3'" := PHASE3_FRAMES.

Lemma update_phase2_explicit (frame : Z) (fig : figure) :
  (P1 <= frame < P1 + P2)%Z ->
  let t := ease_in_out (truediv (frame - P1) P2) in
  exists cs,
    for_each
      (fun i => full_circle data (inject_Z i * (0.1 * t))
                  (Qmax (0.75 - inject_Z i * 0.01) 0.3) 2.2 i)
      (range (n data)) = Ok cs /\
    update data frame fig
    = Ok {| lines := cs;
            date_labels_3d := [];
            main_text := set_alpha (0.8 * (1 - t)) (main_text fig);
            date_text := set_alpha (0.7 * (1 - t)) (date_text fig);
            view := view_phase2 t |}.
Proof.
  intros Hin t. subst t.
  destruct (circles_succeed data
              (fun i => inject_Z i
                        * (0.1 * ease_in_out (truediv (frame - P1) P2)))
              (fun i => Qmax (0.75 - inject_Z i * 0.01) 0.3) 2.2 (n data))
    as [cs Ecs]; [lia |].
  exists cs. split; [exact Ecs |].
  unfold update. rewrite (select_phase2 data frame Hin).
  unfold draw_phase2. cbv zeta. rewrite Ecs. reflexivity.
Qed.

Lemma update_phase3_explicit (frame : Z) (fig : figure) :
  (P1 + P2 <= frame < P1 + P2 + P3)%Z ->
  let t := ease_in_out (truediv (frame - P1 - P2) P3) in
  exists cs ls,
    for_each (fun i => full_circle data (inject_Z i * 0.1) 0.85 2.5 i)
      (range (n data)) = Ok cs /\
    side_labels data 0.1 (Qmin 1.0 ((t - 0.4) / 0.3) * 0.85) = Ok ls /\
    update data frame fig
    = Ok {| lines := cs;
            date_labels_3d := if Qgtb t 0.4 then ls else [];
            main_text := set_alpha 0 (main_text fig);
            date_text := set_alpha 0 (date_text fig);
            view := view_phase3 t |}.
Proof.
  intros Hin t. subst t.
  destruct (circles_succeed data (fun i => inject_Z i * 0.1) (fun _ => 0.85)
              2.5 (n data)) as [cs Ecs]; [lia |].
  destruct (side_labels_succeed data 0.1
              (Qmin 1.0 ((ease_in_out (truediv (frame - P1 - P2) P3) - 0.4) / 0.3)
               * 0.85)) as [ls Els].
  exists cs, ls. split; [exact Ecs |]. split; [exact Els |].
  unfold update. rewrite (select_phase3 data frame Hin).
  unfold draw_phase3. cbv zeta. rewrite Ecs. cbn [rbind].
  destruct (Qgtb _ 0.4); [rewrite Els |]; reflexivity.
Qed.

Lemma update_hold_explicit (frame : Z) (fig : figure) :
  (P1 + P2 + P3 <= frame)%Z ->
  exists cs ls,
    for_each (fun i => full_circle data (inject_Z i * 0.1) 0.85 2.5 i)
      (range (n data)) = Ok cs /\
    side_labels data 0.1 0.85 = Ok ls /\
    update data frame fig
    = Ok {| lines := cs;
            date_labels_3d := ls;
            main_text := set_alpha 0 (main_text fig);
            date_text := set_alpha 0 (date_text fig);
            view := (0, 0) |}.
Proof.
  intros Hin.
  destruct (circles_succeed data (fun i => inject_Z i * 0.1) (fun _ => 0.85)
              2.5 (n data)) as [cs Ecs]; [lia |].
  destruct (side_labels_succeed data 0.1 0.85) as [ls Els].
  exists cs, ls. split; [exact Ecs |]. split; [exact Els |].
  unfold update. rewrite (select_hold data frame Hin).
  unfold draw_hold. cbv zeta. rewrite Ecs. cbn [rbind]. now rewrite Els.
Qed.

Lemma stack_alpha_bounds (j : nat) :
  0.3 <= Qmax (0.75 - inject_Z (Z.of_nat j) * 0.01) 0.3 /\
  Qmax (0.75 - inject_Z (Z.of_nat j) * 0.01) 0.3 <= 0.75.
Proof.
  assert (H : 0 <= inject_Z (Z.of_nat j)) by (apply inject_Z_nonneg; lia).
  destruct (Q.max_spec (0.75 - inject_Z (Z.of_nat j) * 0.01) 0.3)
    as [[? ->] | [? ->]]; split; lra.
Qed.

Lemma length_vals_n : Z.to_nat (n data) = length data.
Proof. unfold n, vals. rewrite length_map. lia. Qed.

(** X8. From phase 2 on every frame draws all n circles in full, the
    j-th with the radius and colour of data row j at height j times the
    spacing: the spacing is 0.1 * t in phase 2 (t the eased progress,
    so the stack grows from flat to its full height) and 0.1 afterwards;
    the opacity of circle j is max(0.75 - 0.01 * j, 0.3) in phase 2, so
    it fades with j from 0.75 down to 0.3, and is 0.85 afterwards. *)
Theorem cylinder_circles (frame : Z) (fig : figure)
    (Hin : (P1 <= frame)%Z) :
  exists out,
    update data frame fig = Ok out /\
    length (lines out) = length data /\
    forall j line, lines out !! j = Some line ->
      r data !! j = Some (ln_radius line) /\
      pct_color <$> vals data !! j = Some (ln_color line) /\
      ln_turn line = 1 /\ ln_points line = 200%Z /\
      ((frame < P1 + P2)%Z ->
         ln_z line
         = inject_Z (Z.of_nat j)
           * (0.1 * ease_in_out (truediv (frame - P1) P2)) /\
         ln_alpha line = Qmax (0.75 - inject_Z (Z.of_nat j) * 0.01) 0.3 /\
         0.3 <= ln_alpha line /\ ln_alpha line <= 0.75 /\ ln_lw line = 2.2) /\
      ((P1 + P2 <= frame)%Z ->
         ln_z line = inject_Z (Z.of_nat j) * 0.1 /\
         ln_alpha line = 0.85 /\ ln_lw line = 2.5).
Proof.
  pose proof P2_positive as HP2. pose proof P3_positive as HP3.
  assert (Hcases : (P1 <= frame < P1 + P2)%Z \/
                   (P1 + P2 <= frame < P1 + P2 + P3)%Z \/
                   (P1 + P2 + P3 <= frame)%Z) by lia.
  destruct Hcases as [H | [H | H]].
  - destruct (update_phase2_explicit frame fig H) as (cs & Ecs & Eout).
    apply circles_fields in Ecs as [Hlen Hcs].
    eexists. split; [exact Eout |]. cbn [lines].
    split; [now rewrite Hlen, length_vals_n |].
    intros j line Hj.
    destruct (Hcs j line Hj) as (H1 & H2 & H3 & H4 & H5 & H6 & H7).
    repeat (split; [assumption |]). split; [| lia].
    intros _. pose proof (stack_alpha_bounds j) as [Ba Bb].
    rewrite <- H6 in Ba, Bb. tauto.
  - destruct (update_phase3_explicit frame fig H) as (cs & ls & Ecs & _ & Eout).
    apply circles_fields in Ecs as [Hlen Hcs].
    eexists. split; [exact Eout |]. cbn [lines].
    split; [now rewrite Hlen, length_vals_n |].
    intros j line Hj.
    destruct (Hcs j line Hj) as (H1 & H2 & H3 & H4 & H5 & H6 & H7).
    repeat (split; [assumption |]). split; [lia | tauto].
  - destruct (update_hold_explicit frame fig H) as (cs & ls & Ecs & _ & Eout).
    apply circles_fields in Ecs as [Hlen Hcs].
    eexists. split; [exact Eout |]. cbn [lines].
    split; [now rewrite Hlen, length_vals_n |].
    intros j line Hj.
    destruct (Hcs j line Hj) as (H1 & H2 & H3 & H4 & H5 & H6 & H7).
    repeat (split; [assumption |]). split; [lia | tauto].
Qed.

Lemma label_alpha_bounds (t : Q) :
  0.4 < t ->
  0 < Qmin 1.0 ((t - 0.4) / 0.3) * 0.85 /\
  Qmin 1.0 ((t - 0.4) / 0.3) * 0.85 <= 0.85.
Proof.
  intros Ht.
  assert (Hpos : 0 < (t - 0.4) / 0.3).
  { apply Qlt_shift_div_l; [reflexivity | lra]. }
  destruct (Q.min_spec 1.0 ((t - 0.4) / 0.3)) as [[? ->] | [? ->]];
    split; lra.
Qed.

(** X9. The date labels of the side view.  In phase 3 there are none
    while the eased progress t is at most 0.4; once t exceeds 0.4, and
    in the hold phase, every second date is labelled: ceil(n/2) labels,
    the j-th with the text of data row 2j at height 2j * 0.1 beside the
    stack, with an opacity in (0, 0.85] that is 0.85 in the hold phase. *)
Theorem side_view_labels (frame : Z) (fig : figure)
    (Hin : (P1 + P2 <= frame)%Z) :
  let t := ease_in_out (truediv (frame - P1 - P2) P3) in
  exists out,
    update data frame fig = Ok out /\
    ((frame < P1 + P2 + P3)%Z -> t <= 0.4 -> date_labels_3d out = []) /\
    ((P1 + P2 + P3 <= frame)%Z \/ 0.4 < t ->
       length (date_labels_3d out) = Z.to_nat ((n data + 1) / 2) /\
       forall j lb, date_labels_3d out !! j = Some lb ->
         labels data !! (2 * j)%nat = Some (lb_text lb) /\
         lb_pos lb = (1.5, 0, inject_Z (Z.of_nat j * 2) * 0.1) /\
         0 < lb_alpha lb /\ lb_alpha lb <= 0.85 /\
         ((P1 + P2 + P3 <= frame)%Z -> lb_alpha lb = 0.85)).
Proof.
  intros t.
  destruct (Z.lt_ge_cases frame (P1 + P2 + P3)) as [Hlt | Hge].
  - destruct (update_phase3_explicit frame fig (conj Hin Hlt))
      as (cs & ls & _ & Els & Eout). fold t in Els, Eout.
    eexists. split; [exact Eout |]. cbn [date_labels_3d].
    destruct (Qgtb_cases t 0.4) as [[-> Ht] | [-> Ht]].
    + split; [intros _ Hle; lra |]. intros _.
      apply side_labels_fields in Els as [Hlen Hls].
      split; [exact Hlen |]. intros j lb Hj.
      destruct (Hls j lb Hj) as (H1 & H2 & H3).
      pose proof (label_alpha_bounds t Ht) as [Ha Hb].
      rewrite H3. repeat (split; [assumption |]). lia.
    + split; [reflexivity |]. intros [Hc | Hc]; [lia | lra].
  - destruct (update_hold_explicit frame fig Hge)
      as (cs & ls & _ & Els & Eout).
    eexists. split; [exact Eout |]. cbn [date_labels_3d].
    split; [lia |]. intros _.
    apply side_labels_fields in Els as [Hlen Hls].
    split; [exact Hlen |]. intros j lb Hj.
    destruct (Hls j lb Hj) as (H1 & H2 & H3).
    rewrite H3. repeat (split; [assumption |]).
    split; [reflexivity |]. split; [discriminate | reflexivity].
Qed.

End Cylinder.

Lemma cylinder_circles_witness :
  exists out,
    Rev081346.update rows 1200 Rev081346.initial_figure = Ok out /\
    length (Rev081346.lines out) = 28%nat /\
    forall line, Rev081346.lines out !! 5%nat = Some line ->
      ln_alpha line = Qmax (0.75 - inject_Z (Z.of_nat 5) * 0.01) 0.3.
Proof.
  assert (Hin : (Rev081346.PHASE1_FRAMES rows <= 1200)%Z)
    by (vm_compute; discriminate).
  destruct (cylinder_circles rows 1200 Rev081346.initial_figure Hin)
    as (out & Hout & Hlen & Hall).
  exists out. split; [exact Hout |]. split; [exact Hlen |].
  intros line Hline.
  destruct (Hall 5%nat line Hline) as (_ & _ & _ & _ & Hphase2 & _).
  apply Hphase2. reflexivity.
Defined.

Lemma side_view_labels_witness :
  exists out,
    Rev081346.update rows 1400 Rev081346.initial_figure = Ok out /\
    length (Rev081346.date_labels_3d out) = 14%nat.
Proof.
  assert (Hin : (Rev081346.PHASE1_FRAMES rows + Rev081346.PHASE2_FRAMES
                 <= 1400)%Z) by (vm_compute; discriminate).
  destruct (side_view_labels rows 1400 Rev081346.initial_figure Hin)
    as (out & Hout & _ & Hshown).
  exists out. split; [exact Hout |].
  apply Hshown. left. vm_compute. discriminate.
Defined.

Section Opacity.

Import Rev081346.

Variable data : list (string * Q).

Local Notation "'P1'" := (PHASE1_FRAMES data).
Local Notation "'P2'" := PHASE2_FRAMES.
Local Notation "'P3'" := PHASE3_FRAMES.

Lemma fade_ramp_bounds (frame : Z) (c : Q) :
  (0 <= frame < 12)%Z -> 0 <= c -> c <= 1 ->
  unit_interval
    ((1 - inject_Z frame / (inject_Z FRAMES_PER_CIRCLE * 0.3)) * c).
Proof.
  intros [Hlo Hhi] Hc0 Hc1.
  assert (E : inject_Z FRAMES_PER_CIRCLE * 0.3 == 12) by reflexivity.
  assert (Hf0 : 0 <= inject_Z frame) by now apply inject_Z_nonneg.
  assert (Hf1 : inject_Z frame < 12).
  { change 12 with (inject_Z 12). rewrite <- Zlt_Qlt. exact Hhi. }
  assert (Hq0 : 0 <= inject_Z frame / 12).
  { apply Qle_shift_div_l; [reflexivity | lra]. }
  assert (Hq1 : inject_Z frame / 12 <= 1).
  { apply Qle_shift_div_r; [reflexivity | lra]. }
  unfold unit_interval. rewrite E. split; nra.
Qed.

Lemma text_ramp_bounds (p c : Q) :
  0.7 < p -> p <= 1 -> 0 <= c -> c <= 1 ->
  unit_interval ((p - 0.7) / 0.3 * c).
Proof.
  intros Hp0 Hp1 Hc0 Hc1.
  assert (Hq0 : 0 <= (p - 0.7) / 0.3).
  { apply Qle_shift_div_l; [reflexivity | lra]. }
  assert (Hq1 : (p - 0.7) / 0.3 <= 1).
  { apply Qle_shift_div_r; [reflexivity | lra]. }
  unfold unit_interval. split; nra.
Qed.

(** X10. Every opacity that [update] sets for a frame 0, 1, 2, ... lies
    in [0, 1], the range outside of which matplotlib raises ValueError:
    this holds for all curves, all date labels and both centre texts,
    whatever the artists were before the call. *)
Theorem opacities_in_range (frame : Z) (fig : figure)
    (Hlo : (0 <= frame)%Z) :
  exists out,
    update data frame fig = Ok out /\
    Forall (fun line => unit_interval (ln_alpha line)) (lines out) /\
    Forall (fun lb => unit_interval (lb_alpha lb)) (date_labels_3d out) /\
    unit_interval (t_alpha (main_text out)) /\
    unit_interval (t_alpha (date_text out)).
Proof.
  assert (Hzero : unit_interval 0) by (split; [apply Qle_refl | discriminate]).
  destruct (frame_cases data frame Hlo) as [H | [H | [H | H]]].
  - destruct (update_phase1_explicit data frame fig H)
      as (cs & ri & vi & li & Ecs & _ & _ & _ & Eout).
    assert (Hk : (0 <= frame mod FRAMES_PER_CIRCLE < FRAMES_PER_CIRCLE)%Z)
      by (apply Z.mod_pos_bound; reflexivity).
    apply circles_fields in Ecs as [_ Hcs].
    eexists. split; [exact Eout |].
    cbn [lines date_labels_3d main_text date_text].
    split; [| split; [constructor |]].
    + apply Forall_app. split.
      * apply Forall_lookup. intros j line Hj.
        destruct (Hcs j line Hj) as (_ & _ & _ & _ & _ & Ha & _).
        rewrite Ha. pose proof (trail_alpha_bounds j). split; lra.
      * destruct (1 <=? _)%Z; repeat constructor; cbn; discriminate.
    + pose proof (text_window _ Hk) as Hwin.
      destruct (Z.leb_spec 14 (frame mod FRAMES_PER_CIRCLE)) as [H14 | H14].
      * destruct (Qgtb_cases
                    (ease_out_cubic
                       (truediv (frame mod FRAMES_PER_CIRCLE) FRAMES_PER_CIRCLE))
                    0.7) as [[_ Hgt] | [E _]]; [| congruence].
        destruct (truediv_unit _ _ Hk) as [Hraw0 Hraw1].
        destruct (ease_out_cubic_unit
                    (truediv (frame mod FRAMES_PER_CIRCLE) FRAMES_PER_CIRCLE))
          as [_ Hp1]; [lra | lra |].
        cbn [t_alpha set_alpha set_text].
        split; apply text_ramp_bounds; try assumption; lra.
      * destruct (Z.ltb_spec frame 12) as [H12 | H12];
          cbn [t_alpha set_alpha]; [| split; exact Hzero].
        rewrite (Z.mod_small frame FRAMES_PER_CIRCLE)
          by (unfold FRAMES_PER_CIRCLE; lia).
        split; apply fade_ramp_bounds; try lia; lra.
  - destruct (update_phase2_explicit data frame fig H) as (cs & Ecs & Eout).
    apply circles_fields in Ecs as [_ Hcs].
    eexists. split; [exact Eout |].
    cbn [lines date_labels_3d main_text date_text t_alpha set_alpha].
    destruct (truediv_unit (frame - P1) P2) as [Hraw0 Hraw1]; [lia |].
    destruct (ease_in_out_unit (truediv (frame - P1) P2)) as [Ht0 Ht1];
      [lra | lra |].
    split; [| split; [constructor |]].
    + apply Forall_lookup. intros j line Hj.
      destruct (Hcs j line Hj) as (_ & _ & _ & _ & _ & Ha & _).
      rewrite Ha. pose proof (stack_alpha_bounds j). split; lra.
    + split; split; nra.
  - destruct (update_phase3_explicit data frame fig H)
      as (cs & ls & Ecs & Els & Eout).
    apply circles_fields in Ecs as [_ Hcs].
    apply side_labels_fields in Els as [_ Hls].
    eexists. split; [exact Eout |].
    cbn [lines date_labels_3d main_text date_text t_alpha set_alpha].
    split; [| split; [| split; exact Hzero]].
    + apply Forall_lookup. intros j line Hj.
      destruct (Hcs j line Hj) as (_ & _ & _ & _ & _ & Ha & _).
      rewrite Ha. split; discriminate.
    + destruct (Qgtb_cases
                  (ease_in_out (truediv (frame - P1 - P2) P3)) 0.4)
        as [[-> Ht] | [-> Ht]]; [| constructor].
      apply Forall_lookup. intros j lb Hj.
      destruct (Hls j lb Hj) as (_ & _ & Ha).
      rewrite Ha. pose proof (label_alpha_bounds _ Ht). split; lra.
  - destruct (update_hold_explicit data frame fig H)
      as (cs & ls & Ecs & Els & Eout).
    apply circles_fields in Ecs as [_ Hcs].
    apply side_labels_fields in Els as [_ Hls].
    eexists. split; [exact Eout |].
    cbn [lines date_labels_3d main_text date_text t_alpha set_alpha].
    split; [| split; [| split; exact Hzero]].
    + apply Forall_lookup. intros j line Hj.
      destruct (Hcs j line Hj) as (_ & _ & _ & _ & _ & Ha & _).
      rewrite Ha. split; discriminate.
    + apply Forall_lookup. intros j lb Hj.
      destruct (Hls j lb Hj) as (_ & _ & Ha).
      rewrite Ha. split; discriminate.
Qed.

End Opacity.

Lemma opacities_in_range_witness :
  exists out,
    Rev081346.update rows 5 Rev081346.initial_figure = Ok out /\
    unit_interval (t_alpha (Rev081346.main_text out)).
Proof.
  assert (Hlo : (0 <= 5)%Z) by lia.
  destruct (opacities_in_range rows 5 Rev081346.initial_figure Hlo)
    as (out & Hout & _ & _ & Hmain & _).
  exists out. split; [exact Hout | exact Hmain].
Defined.

(** ** Revision 133111 in detail *)

Lemma int_of_nonneg (x : Q) : 0 <= x -> (0 <= int_of x)%Z.
Proof.
  intros Hx. unfold int_of.
  destruct (Qle_bool 0 x) eqn:E.
  - change 0%Z with (Qfloor 0). now apply Qfloor_resp_le.
  - apply Qle_bool_iff in Hx. congruence.
Qed.

Lemma int_of_floor (x : Q) : 0 <= x -> int_of x = Qfloor x.
Proof.
  intros Hx. unfold int_of. apply Qle_bool_iff in Hx. now rewrite Hx.
Qed.

Lemma int_of_zero (x : Q) : 0 <= x -> x < 1 -> int_of x = 0%Z.
Proof.
  intros H0 H1. pose proof (int_of_nonneg x H0) as Hlo.
  rewrite (int_of_floor x H0) in *.
  pose proof (Qfloor_le x) as Hle.
  assert (Hlt : inject_Z (Qfloor x) < 1) by lra.
  change 1 with (inject_Z 1) in Hlt. rewrite <- Zlt_Qlt in Hlt. lia.
Qed.

(** [int(a / b * c)] without rounding is the integer quotient *)
Lemma int_of_scaled_quotient (a b c : Z) :
  (0 <= a)%Z -> (0 < b)%Z -> (0 <= c)%Z ->
  int_of (truediv a b * inject_Z c) = (a * c / b)%Z.
Proof.
  intros Ha Hb Hc.
  assert (Hbq : 0 < inject_Z b) by now apply inject_Z_pos.
  assert (Hx : 0 <= truediv a b * inject_Z c).
  { apply Qmult_le_0_compat; [| now apply inject_Z_nonneg].
    unfold truediv. apply Qle_shift_div_l; [exact Hbq |].
    rewrite Qmult_0_l. now apply inject_Z_nonneg. }
  rewrite (int_of_floor _ Hx).
  assert (E : truediv a b * inject_Z c == (a * c) # Z.to_pos b).
  { rewrite Qmake_Qdiv, Z2Pos.id by exact Hb. rewrite inject_Z_mult.
    unfold truediv. field. intros E0. rewrite E0 in Hbq. discriminate. }
  rewrite (Qfloor_comp _ _ E). simpl. now rewrite Z2Pos.id.
Qed.

(** ** Rounding *)

Lemma pow2_pos (e : Z) : 0 < pow2 e.
Proof.
  unfold pow2. destruct (Z.leb_spec 0 e).
  - apply inject_Z_pos. now apply Z.pow_pos_nonneg.
  - reflexivity.
Qed.

Lemma round_half_even_nonneg (x : Q) : 0 <= x -> (0 <= round_half_even x)%Z.
Proof.
  intros Hx. unfold round_half_even.
  assert (Hf : (0 <= Qfloor x)%Z)
    by (change 0%Z with (Qfloor 0); now apply Qfloor_resp_le).
  destruct (Qcompare _ _); [destruct (Z.even _) | |]; lia.
Qed.

(** rounding keeps the sign of a non-negative number *)
Lemma binary64_nonneg (q : Q) : 0 <= q -> 0 <= binary64 q.
Proof.
  intros Hq. unfold binary64.
  destruct (Qeq_bool q 0); [apply Qle_refl |].
  assert (Hb := Hq). apply Qle_bool_iff in Hb. rewrite Hb. cbv zeta.
  set (ulp := pow2 _). assert (Hulp : 0 < ulp) by apply pow2_pos.
  apply Qmult_le_0_compat; [| now apply Qlt_le_weak].
  apply inject_Z_nonneg, round_half_even_nonneg.
  apply Qle_shift_div_l; [exact Hulp |]. rewrite Qmult_0_l. apply Qabs_nonneg.
Qed.

Lemma float_overflow_large : 1 < float_overflow.
Proof. vm_compute. reflexivity. Qed.

(** a quotient in [0, 1) is far from the overflow threshold *)
Lemma no_overflow_below_one (a b : Z) :
  (0 <= a < b)%Z -> Qle_bool float_overflow (Qabs (truediv a b)) = false.
Proof.
  intros H. destruct (truediv_unit a b H) as [H0 H1].
  pose proof float_overflow_large as Hbig.
  destruct (Qle_bool _ _) eqn:E; [| reflexivity].
  apply Qle_bool_iff in E. rewrite (Qabs_pos _ H0) in E.
  exfalso. apply (Qlt_irrefl 1).
  apply Qlt_trans with float_overflow; [exact Hbig |].
  apply Qle_lt_trans with (truediv a b); assumption.
Qed.

Lemma checked_truediv_unit {A : Type} (a b : Z)
    (k : Q -> Rev133304Draw.attempt A) :
  (0 <= a < b)%Z -> Rev133304Draw.checked_truediv a b k = k (truediv a b).
Proof.
  intros H. unfold Rev133304Draw.checked_truediv.
  destruct (Z.eqb_spec b 0); [lia |].
  now rewrite (no_overflow_below_one a b H).
Qed.

Lemma checked_truediv_overflow {A : Type} (a b : Z)
    (k : Q -> Rev133304Draw.attempt A) :
  (0 < b)%Z -> float_overflow * inject_Z b <= inject_Z a ->
  Rev133304Draw.checked_truediv a b k
  = Rev133304Draw.Failed Rev133304Draw.OverflowError.
Proof.
  intros Hb Hbig. unfold Rev133304Draw.checked_truediv.
  destruct (Z.eqb_spec b 0); [lia |].
  assert (E : Qle_bool float_overflow (Qabs (truediv a b)) = true).
  { apply Qle_bool_iff. apply Qle_trans with (truediv a b).
    - unfold truediv. apply Qle_shift_div_l; [now apply inject_Z_pos | exact Hbig].
    - apply Qle_Qabs. }
  now rewrite E.
Qed.

Lemma setitem_in_range {A : Type} (xs : list A) (i : Z) (x : A) :
  (0 <= i < Z.of_nat (length xs))%Z ->
  setitem xs i x = Ok (<[Z.to_nat i := x]> xs).
Proof.
  intros [Hlo Hhi]. unfold setitem.
  destruct (Z.ltb_spec i 0); [lia |].
  destruct (Z.ltb_spec i 0); [lia |].
  destruct (Z.leb_spec (Z.of_nat (length xs)) i); [lia | reflexivity].
Qed.

Lemma range_succ (m : nat) :
  range (Z.of_nat (S m)) = (range (Z.of_nat m) ++ [Z.of_nat m])%list.
Proof.
  unfold range. rewrite !Nat2Z.id, seq_S, map_app. reflexivity.
Qed.

Lemma for_fold_app {A S : Type} (body : A -> S -> result S)
    (xs ys : list A) (s : S) :
  Rev133111.for_fold body (xs ++ ys)%list s
  = rbind (Rev133111.for_fold body xs s) (Rev133111.for_fold body ys).
Proof.
  revert s. induction xs as [| x rest IH]; intros s; simpl; [reflexivity |].
  destruct (body x s); simpl; [apply IH | reflexivity].
Qed.

Section Cylinder133111.

Import Rev133111.

Variable data : list (string * Q).

Lemma length_radii : Z.of_nat (length (radii data)) = n data.
Proof. unfold radii, n. now rewrite length_map. Qed.

Lemma length_labels_133111 : Z.of_nat (length (labels data)) = n data.
Proof. unfold labels, n, vals. now rewrite !length_map. Qed.

Lemma n_nonneg_133111 : (0 <= n data)%Z.
Proof. unfold n. lia. Qed.

Lemma put_circle_in_range (i : Z) (z alpha lw : Q) (cs : list circle_artist) :
  (0 <= i < n data)%Z -> Z.of_nat (length cs) = n data ->
  exists rj vj,
    radii data !! Z.to_nat i = Some rj /\
    vals data !! Z.to_nat i = Some vj /\
    put_circle data i z alpha lw cs
    = Ok (<[Z.to_nat i := drawn z alpha lw rj vj]> cs).
Proof.
  intros Hi Hlen. unfold put_circle.
  destruct (getitem_in_range (radii data) i) as (rj & -> & Hr);
    [rewrite length_radii; exact Hi |].
  destruct (getitem_in_range cs i) as (c & -> & _); [lia |].
  destruct (getitem_in_range (vals data) i) as (vj & -> & Hv); [exact Hi |].
  exists rj, vj. repeat (split; [assumption |]).
  cbn [rbind]. apply setitem_in_range. lia.
Qed.

(** the loop [for i in range(m): circles_3d[i] = ...] over the first
    [m] artists *)
Lemma put_circles_result (z alpha : Z -> Q) (lw : Q) (m : nat)
    (cs0 : list circle_artist) :
  (Z.of_nat m <= n data)%Z -> Z.of_nat (length cs0) = n data ->
  exists cs,
    for_fold (fun i cs => put_circle data i (z i) (alpha i) lw cs)
      (range (Z.of_nat m)) cs0 = Ok cs /\
    length cs = length cs0 /\
    (forall j, (j < m)%nat ->
       exists rj vj,
         radii data !! j = Some rj /\ vals data !! j = Some vj /\
         cs !! j = Some (drawn (z (Z.of_nat j)) (alpha (Z.of_nat j)) lw rj vj)) /\
    (forall j, (m <= j)%nat -> cs !! j = cs0 !! j).
Proof.
  intros Hm Hlen. induction m as [| m IH].
  - exists cs0. split; [reflexivity |]. split; [reflexivity |].
    split; [intros j Hj; lia | reflexivity].
  - destruct IH as (cs & Efold & Hlen' & Hdrawn & Hrest); [lia |].
    destruct (put_circle_in_range (Z.of_nat m) (z (Z.of_nat m))
                (alpha (Z.of_nat m)) lw cs) as (rm & vm & Hr & Hv & Eput);
      [lia | lia |].
    rewrite Nat2Z.id in Hr, Hv, Eput.
    eexists. rewrite range_succ, for_fold_app, Efold. cbn [rbind for_fold].
    rewrite Eput. cbn [rbind]. split; [reflexivity |].
    split; [now rewrite length_insert |]. split.
    + intros j Hj. destruct (Nat.eq_dec j m) as [-> | Hne].
      * exists rm, vm. repeat (split; [assumption |]).
        apply list_lookup_insert_eq. lia.
      * destruct (Hdrawn j) as (rj & vj & H1 & H2 & H3); [lia |].
        exists rj, vj. repeat (split; [assumption |]).
        rewrite list_lookup_insert_ne by lia. exact H3.
    + intros j Hj. rewrite list_lookup_insert_ne by lia. apply Hrest. lia.
Qed.

Lemma cleared_length (cs : list circle_artist) :
  length (map clear_circle cs) = length cs.
Proof. apply length_map. Qed.

Lemma cleared_lookup (cs : list circle_artist) (j : nat) (c : circle_artist) :
  map clear_circle cs !! j = Some c -> c_data c = None /\ c_alpha c = 0.0.
Proof.
  rewrite list_lookup_fmap. destruct (cs !! j); simpl; [| discriminate].
  now intros [= <-].
Qed.

Lemma flat_index_in_range (frame : Z) :
  (0 <= frame)%Z -> (1 <= n data)%Z ->
  (0 <= Z.min (int_of (truediv frame PHASE1_FRAMES * inject_Z (n data)))
          (n data - 1) < n data)%Z.
Proof.
  intros Hlo Hn.
  assert (H : (0 <= int_of (truediv frame PHASE1_FRAMES * inject_Z (n data)))%Z).
  { apply int_of_nonneg. apply Qmult_le_0_compat.
    - unfold truediv. apply Qle_shift_div_l; [reflexivity |].
      rewrite Qmult_0_l. now apply inject_Z_nonneg.
    - apply inject_Z_nonneg. lia. }
  lia.
Qed.

(** the artists after a frame of phase 1 *)
Lemma update_flat_explicit (frame : Z) (fig : figure) :
  (0 <= frame < PHASE1_FRAMES)%Z -> (1 <= n data)%Z ->
  Z.of_nat (length (circles_3d fig)) = n data ->
  let idx := Z.min (int_of (truediv frame PHASE1_FRAMES * inject_Z (n data)))
               (n data - 1) in
  exists ri vi li,
    radii data !! Z.to_nat idx = Some ri /\
    vals data !! Z.to_nat idx = Some vi /\
    labels data !! Z.to_nat idx = Some li /\
    update data frame fig
    = Ok {| circles_3d :=
              <[0%nat := drawn 0 0.95 3.0 ri vi]>
                (map clear_circle (circles_3d fig));
            date_text := set_text (Literal li) (date_text fig);
            value_text :=
              set_color (RGB (pct_color vi))
                (set_text (Percent 2 vi) (value_text fig));
            view := Some (90, 0) |}.
Proof.
  intros Hin Hn Hlen idx.
  pose proof (flat_index_in_range frame (proj1 Hin) Hn) as Hidx. fold idx in Hidx.
  destruct (getitem_in_range (radii data) idx) as (ri & Er & Er');
    [rewrite length_radii; exact Hidx |].
  destruct (getitem_in_range (vals data) idx) as (vi & Ev & Ev');
    [exact Hidx |].
  destruct (getitem_in_range (labels data) idx) as (li & El & El');
    [rewrite length_labels_133111; exact Hidx |].
  destruct (getitem_in_range (map clear_circle (circles_3d fig)) 0)
    as (c0 & Ec & _); [rewrite cleared_length; lia |].
  exists ri, vi, li. repeat (split; [assumption |]).
  unfold update. destruct (Z.ltb_spec frame PHASE1_FRAMES); [| lia].
  cbv zeta. fold idx. rewrite Er, Ec, Ev. cbn [rbind].
  rewrite setitem_in_range by (rewrite cleared_length; lia).
  cbn [rbind]. rewrite El. reflexivity.
Qed.

(** X11. A frame of phase 1 of revision 133111 (non-empty dataset, one
    line artist per row), where the index [int(frame / 60 * n)] computed
    with binary64 rounding is the one of the exact quotient, shows
    exactly one circle, the one of row idx = min(frame * n div 60, n - 1):
    artist 0 carries that circle, flat, with the row's radius and
    colour; every other artist is emptied and hidden; the date and value
    texts are those of the same row, the value in the row's colour; the
    camera looks from the top. *)
Theorem flat_view_shows_one_circle (frame : Z) (fig : figure)
    (Hin : (0 <= frame < PHASE1_FRAMES)%Z) (Hdata : data <> [])
    (Hfig : length (circles_3d fig) = length data)
    (Hround :
       int_of (binary64 (binary64 (truediv frame PHASE1_FRAMES)
                         * binary64 (inject_Z (n data))))
       = int_of (truediv frame PHASE1_FRAMES * inject_Z (n data))) :
  let idx :=
    Z.to_nat
      (Z.min (int_of (binary64 (binary64 (truediv frame PHASE1_FRAMES)
                                * binary64 (inject_Z (n data)))))
             (n data - 1)) in
  exists out ri vi li,
    update data frame fig = Ok out /\
    Z.of_nat idx = Z.min (frame * n data / PHASE1_FRAMES) (n data - 1) /\
    (idx < length data)%nat /\
    radii data !! idx = Some ri /\ vals data !! idx = Some vi /\
    labels data !! idx = Some li /\
    length (circles_3d out) = length data /\
    circles_3d out !! 0%nat = Some (drawn 0 0.95 3.0 ri vi) /\
    (forall j c, (1 <= j)%nat -> circles_3d out !! j = Some c ->
       c_data c = None /\ c_alpha c = 0.0) /\
    t_text (date_text out) = Literal li /\
    t_text (value_text out) = Percent 2 vi /\
    t_color (value_text out) = RGB (pct_color vi) /\
    view out = Some (90, 0).
Proof.
  intros idx0.
  assert (Eidx : idx0 = Z.to_nat (Z.min (int_of (truediv frame PHASE1_FRAMES
                                                 * inject_Z (n data)))
                                        (n data - 1)))
    by (unfold idx0; now rewrite Hround).
  rewrite Eidx. clear Eidx idx0.
  assert (Hn : (1 <= n data)%Z).
  { unfold n, vals. rewrite length_map. destruct data; [congruence | simpl; lia]. }
  assert (Hlen : Z.of_nat (length (circles_3d fig)) = n data).
  { rewrite Hfig. unfold n, vals. now rewrite length_map. }
  assert (Hnlen : n data = Z.of_nat (length data)).
  { unfold n, vals. now rewrite length_map. }
  destruct (update_flat_explicit frame fig Hin Hn Hlen)
    as (ri & vi & li & Er & Ev & El & Eout).
  pose proof (flat_index_in_range frame (proj1 Hin) Hn) as Hidx.
  eexists. exists ri, vi, li.
  split; [exact Eout |].
  cbn [circles_3d date_text value_text view].
  split.
  { rewrite Z2Nat.id by lia.
    rewrite int_of_scaled_quotient; [reflexivity | lia | reflexivity | lia]. }
  split; [lia |]. repeat (split; [assumption |]).
  split; [now rewrite length_insert, cleared_length |].
  split; [apply list_lookup_insert_eq; rewrite cleared_length; lia |].
  split; [| repeat split].
  intros j c Hj Hc. rewrite list_lookup_insert_ne in Hc by lia.
  now apply cleared_lookup in Hc.
Qed.

End Cylinder133111.

Lemma flat_view_shows_one_circle_witness :
  exists out,
    Rev133111.update rows 45 (Rev133111.initial_figure rows) = Ok out /\
    Rev133111.circles_3d out !! 0%nat
    = Some (Rev133111.drawn 0 0.95 3.0
              (radiusFor 14.52 Rev133111.PCT_MAX Rev133111.r_min
                 Rev133111.r_max) 14.52) /\
    t_text (Rev133111.date_text out) = Literal "1404/09/24" /\
    t_text (Rev133111.value_text out) = Percent 2 14.52.
Proof.
  assert (Hin : (0 <= 45 < Rev133111.PHASE1_FRAMES)%Z)
    by (split; [lia | reflexivity]).
  assert (Hdata : rows <> []) by discriminate.
  assert (Hfig : length (Rev133111.circles_3d (Rev133111.initial_figure rows))
                 = length rows) by reflexivity.
  assert (Hround :
    int_of (binary64 (binary64 (truediv 45 Rev133111.PHASE1_FRAMES)
                      * binary64 (inject_Z (Rev133111.n rows))))
    = int_of (truediv 45 Rev133111.PHASE1_FRAMES
              * inject_Z (Rev133111.n rows)))
    by (vm_compute; reflexivity).
  destruct (flat_view_shows_one_circle rows 45 (Rev133111.initial_figure rows)
              Hin Hdata Hfig Hround)
    as (out & ri & vi & li & Hout & _ & _ & Hr & Hv & Hl & _ & Hc & _
        & Hdate & Hval & _).
  vm_compute in Hr. vm_compute in Hv. vm_compute in Hl.
  injection Hr as <-. injection Hv as <-. injection Hl as <-.
  exists out. split; [exact Hout |]. split; [exact Hc |].
  split; [exact Hdate | exact Hval].
Defined.

Section Stack133111.

Import Rev133111.

Variable data : list (string * Q).
Hypothesis Hn : (1 <= n data)%Z.

Lemma transition_progress (frame : Z) :
  (PHASE1_FRAMES <= frame < PHASE1_FRAMES + PHASE2_FRAMES)%Z ->
  0 <= ease_in_out (truediv (frame - PHASE1_FRAMES) PHASE2_FRAMES) /\
  ease_in_out (truediv (frame - PHASE1_FRAMES) PHASE2_FRAMES) <= 1.
Proof.
  intros Hin.
  destruct (truediv_unit (frame - PHASE1_FRAMES) PHASE2_FRAMES) as [H0 H1];
    [lia |].
  apply ease_in_out_unit; lra.
Qed.

Lemma transition_count (frame : Z) :
  (PHASE1_FRAMES <= frame < PHASE1_FRAMES + PHASE2_FRAMES)%Z ->
  let t := ease_in_out (truediv (frame - PHASE1_FRAMES) PHASE2_FRAMES) in
  (1 <= Z.min (int_of (t * 8) + 1) (n data) <= n data)%Z /\
  (Z.min (int_of (t * 8) + 1) (n data) <= 9)%Z.
Proof.
  intros Hin t. destruct (transition_progress frame Hin) as [H0 H1].
  fold t in H0, H1.
  assert (Hx0 : 0 <= t * 8) by lra.
  pose proof (int_of_nonneg (t * 8) Hx0) as Hlo.
  assert (Hhi : (int_of (t * 8) <= 8)%Z).
  { rewrite (int_of_floor _ Hx0).
    assert (Hx8 : t * 8 <= 8) by lra.
    apply Qfloor_resp_le in Hx8. exact Hx8. }
  lia.
Qed.

(** the artists after a frame of phase 2 *)
Lemma update_transition_explicit (frame : Z) (fig : figure) :
  (PHASE1_FRAMES <= frame < PHASE1_FRAMES + PHASE2_FRAMES)%Z ->
  Z.of_nat (length (circles_3d fig)) = n data ->
  let t := ease_in_out (truediv (frame - PHASE1_FRAMES) PHASE2_FRAMES) in
  let m := Z.to_nat (Z.min (int_of (t * 8) + 1) (n data)) in
  exists cs,
    length cs = length (circles_3d fig) /\
    (forall j, (j < m)%nat ->
       exists rj vj,
         radii data !! j = Some rj /\ vals data !! j = Some vj /\
         cs !! j = Some (drawn (inject_Z (Z.of_nat j) * 0.15 * t) 0.85 2.5 rj vj)) /\
    (forall j, (m <= j)%nat -> cs !! j = map clear_circle (circles_3d fig) !! j) /\
    update data frame fig
    = Ok {| circles_3d := cs;
            date_text := set_text (Literal "Building Cylinder...") (date_text fig);
            value_text := set_text (Literal "") (value_text fig);
            view := Some (lerp 90 25 t, lerp 0 (-60) t) |}.
Proof.
  intros Hin Hlen t m.
  destruct (transition_count frame Hin) as [Hm _]. fold t in Hm.
  destruct (put_circles_result data (fun i => inject_Z i * 0.15 * t)
              (fun _ => 0.85) 2.5 m (map clear_circle (circles_3d fig)))
    as (cs & Efold & Hlen' & Hdrawn & Hrest);
    [unfold m; lia | rewrite cleared_length; exact Hlen |].
  exists cs. split; [now rewrite Hlen', cleared_length |].
  split; [exact Hdrawn |]. split; [exact Hrest |].
  unfold update.
  destruct (Z.ltb_spec frame PHASE1_FRAMES); [lia |].
  destruct (Z.ltb_spec frame (PHASE1_FRAMES + PHASE2_FRAMES)); [| lia].
  cbv zeta. fold t.
  replace (Z.min (int_of (t * 8) + 1) (n data)) with (Z.of_nat m)
    by (unfold m; lia).
  rewrite Efold. reflexivity.
Qed.

(** X12. A frame of phase 2 of revision 133111 shows the first m rows,
    m = min(int(8 t) + 1, n) with t the eased progress, so between 1 and
    9 circles: artist j < m carries the circle of row j (its radius and
    colour, opacity 0.85) lifted to height j * 0.15 * t, every artist
    from m on is emptied and hidden; the date text reads
    "Building Cylinder..." and the value text is blank. *)
Theorem transition_stacks_first_rows (frame : Z) (fig : figure)
    (Hin : (PHASE1_FRAMES <= frame < PHASE1_FRAMES + PHASE2_FRAMES)%Z)
    (Hfig : Z.of_nat (length (circles_3d fig)) = n data) :
  let t := ease_in_out (truediv (frame - PHASE1_FRAMES) PHASE2_FRAMES) in
  let m := Z.to_nat (Z.min (int_of (t * 8) + 1) (n data)) in
  exists out,
    update data frame fig = Ok out /\
    (1 <= m <= 9)%nat /\ (Z.of_nat m <= n data)%Z /\
    length (circles_3d out) = length (circles_3d fig) /\
    (forall j, (j < m)%nat ->
       exists rj vj,
         radii data !! j = Some rj /\ vals data !! j = Some vj /\
         circles_3d out !! j
         = Some (drawn (inject_Z (Z.of_nat j) * 0.15 * t) 0.85 2.5 rj vj)) /\
    (forall j c, (m <= j)%nat -> circles_3d out !! j = Some c ->
       c_data c = None /\ c_alpha c = 0.0) /\
    t_text (date_text out) = Literal "Building Cylinder..." /\
    t_text (value_text out) = Literal "".
Proof.
  intros t m.
  destruct (update_transition_explicit frame fig Hin Hfig)
    as (cs & Hlen & Hdrawn & Hrest & Eout). fold t m in Hdrawn, Hrest, Eout.
  destruct (transition_count frame Hin) as [Hm Hm9]. fold t in Hm, Hm9.
  eexists. split; [exact Eout |].
  cbn [circles_3d date_text value_text].
  split; [unfold m; lia |]. split; [unfold m; lia |].
  split; [exact Hlen |]. split; [exact Hdrawn |].
  split; [| split; reflexivity].
  intros j c Hj Hc. rewrite (Hrest j Hj) in Hc. now apply cleared_lookup in Hc.
Qed.

End Stack133111.

Lemma transition_stacks_first_rows_witness :
  exists out,
    Rev133111.update rows 100 (Rev133111.initial_figure rows) = Ok out /\
    t_text (Rev133111.date_text out) = Literal "Building Cylinder...".
Proof.
  assert (Hn : (1 <= Rev133111.n rows)%Z) by (vm_compute; discriminate).
  assert (Hin : (Rev133111.PHASE1_FRAMES <= 100
                 < Rev133111.PHASE1_FRAMES + Rev133111.PHASE2_FRAMES)%Z)
    by (split; [vm_compute; discriminate | reflexivity]).
  assert (Hfig : Z.of_nat (length (Rev133111.circles_3d
                                     (Rev133111.initial_figure rows)))
                 = Rev133111.n rows) by reflexivity.
  destruct (transition_stacks_first_rows rows Hn 100
              (Rev133111.initial_figure rows) Hin Hfig) as (out & Hout & H).
  exists out. split; [exact Hout |].
  exact (proj1 (proj2 (proj2 (proj2 (proj2 (proj2 H)))))).
Defined.

Section Build133111.

Import Rev133111.

Variable data : list (string * Q).
Hypothesis Hn : (1 <= n data)%Z.

Local Notation "'start3'" := (PHASE1_FRAMES + PHASE2_FRAMES)%Z.

Lemma build_progress_nonneg (frame : Z) :
  (start3 <= frame)%Z ->
  0 <= truediv (frame - PHASE1_FRAMES - PHASE2_FRAMES) PHASE3_FRAMES.
Proof.
  intros Hin. unfold truediv.
  apply Qle_shift_div_l; [reflexivity |]. rewrite Qmult_0_l.
  apply inject_Z_nonneg. lia.
Qed.

Lemma build_count (frame : Z) :
  (start3 <= frame)%Z ->
  let progress := truediv (frame - PHASE1_FRAMES - PHASE2_FRAMES) PHASE3_FRAMES in
  let m := Z.min (int_of (progress * inject_Z (n data))) (n data) in
  (0 <= m <= n data)%Z /\
  (((frame - start3) * n data < PHASE3_FRAMES)%Z -> m = 0%Z) /\
  ((start3 + PHASE3_FRAMES <= frame)%Z -> m = n data).
Proof.
  intros Hin progress m.
  pose proof (build_progress_nonneg frame Hin) as Hp. fold progress in Hp.
  assert (Hqn : 0 <= inject_Z (n data)) by (apply inject_Z_nonneg; lia).
  assert (Hx : 0 <= progress * inject_Z (n data))
    by now apply Qmult_le_0_compat.
  pose proof (int_of_nonneg _ Hx) as Hlo.
  assert (Eprog : progress
                  == inject_Z (frame - PHASE1_FRAMES - PHASE2_FRAMES) * (1 # 120)).
  { unfold progress, truediv, Qdiv. reflexivity. }
  split; [unfold m; lia |]. split.
  - intros Hsmall. unfold m.
    assert (Hlt : inject_Z ((frame - start3) * n data) < inject_Z PHASE3_FRAMES)
      by (rewrite <- Zlt_Qlt; exact Hsmall).
    rewrite inject_Z_mult in Hlt.
    replace (frame - start3)%Z
      with (frame - PHASE1_FRAMES - PHASE2_FRAMES)%Z in Hlt by lia.
    change (inject_Z PHASE3_FRAMES) with 120 in Hlt.
    rewrite (int_of_zero (progress * inject_Z (n data))); [lia | exact Hx |].
    rewrite Eprog. lra.
  - intros Hover. unfold m.
    assert (Hge : inject_Z PHASE3_FRAMES
                  <= inject_Z (frame - PHASE1_FRAMES - PHASE2_FRAMES))
      by (rewrite <- Zle_Qle; lia).
    change (inject_Z PHASE3_FRAMES) with 120 in Hge.
    assert (Hbig : inject_Z (n data) <= progress * inject_Z (n data)).
    { rewrite Eprog. nra. }
    apply Qfloor_resp_le in Hbig. rewrite Qfloor_Z in Hbig.
    rewrite (int_of_floor _ Hx). lia.
Qed.

Lemma age_alpha_bounds (j m : Z) :
  (0 <= j < m)%Z ->
  0.525 < 0.75 * (1.0 - truediv j (Z.max 1 m) * 0.3) /\
  0.75 * (1.0 - truediv j (Z.max 1 m) * 0.3) <= 0.75.
Proof.
  intros Hj. destruct (truediv_unit j (Z.max 1 m)) as [H0 H1]; [lia |].
  split; lra.
Qed.

(** the artists after a frame of phase 3 *)
Lemma update_build_explicit (frame : Z) (fig : figure) :
  (start3 <= frame)%Z ->
  Z.of_nat (length (circles_3d fig)) = n data ->
  let progress := truediv (frame - PHASE1_FRAMES - PHASE2_FRAMES) PHASE3_FRAMES in
  let num_show := Z.min (int_of (progress * inject_Z (n data))) (n data) in
  let m := Z.to_nat num_show in
  let age i := 0.75 * (1.0 - truediv i (Z.max 1 num_show) * 0.3) in
  exists cs,
    length cs = length (circles_3d fig) /\
    (forall j, (j < m)%nat ->
       exists rj vj,
         radii data !! j = Some rj /\ vals data !! j = Some vj /\
         cs !! j = Some (drawn (inject_Z (Z.of_nat j) * 0.15)
                           (if (S j =? m)%nat then 0.95 else age (Z.of_nat j))
                           (if (S j =? m)%nat then 3.5 else 2.2) rj vj)) /\
    (forall j, (m <= j)%nat -> cs !! j = map clear_circle (circles_3d fig) !! j) /\
    exists dt vt,
      (m = 0%nat -> dt = date_text fig /\ vt = value_text fig) /\
      (forall m', m = S m' ->
         exists v l,
           vals data !! m' = Some v /\ labels data !! m' = Some l /\
           dt = set_text (Literal l) (date_text fig) /\
           vt = set_color (RGB (pct_color v))
                  (set_text (Percent 2 v) (value_text fig))) /\
      update data frame fig
      = Ok {| circles_3d := cs; date_text := dt; value_text := vt;
              view := Some (25, -60 + progress * 30) |}.
Proof.
  intros Hin Hlen progress num_show m age.
  destruct (build_count frame Hin) as [Hm _]. fold progress num_show in Hm.
  destruct (put_circles_result data (fun i => inject_Z i * 0.15) age 2.2 m
              (map clear_circle (circles_3d fig)))
    as (cs & Efold & Hlen' & Hdrawn & Hrest);
    [unfold m; lia | rewrite cleared_length; exact Hlen |].
  assert (Hstart : update data frame fig
                   = (let! circles :=
                        for_fold
                          (fun i cs => put_circle data i (inject_Z i * 0.15)
                                         (age i) 2.2 cs)
                          (range num_show) (map clear_circle (circles_3d fig)) in
                      let! texts :=
                        if (num_show >? 0)%Z then
                          let! li := getitem (labels data) (num_show - 1) in
                          let! vi := getitem (vals data) (num_show - 1) in
                          Ok (set_text (Literal li) (date_text fig),
                              set_color (RGB (pct_color vi))
                                (set_text (Percent 2 vi) (value_text fig)))
                        else Ok (date_text fig, value_text fig) in
                      let! circles :=
                        if (num_show >? 0)%Z then
                          let! c := getitem circles (num_show - 1) in
                          setitem circles (num_show - 1)
                            {| c_data := c_data c; c_color := c_color c;
                               c_alpha := 0.95; c_lw := 3.5 |}
                        else Ok circles in
                      Ok {| circles_3d := circles;
                            date_text := fst texts;
                            value_text := snd texts;
                            view := Some (25, -60 + progress * 30) |})).
  { assert (Hpos : (0 < PHASE2_FRAMES)%Z) by reflexivity.
    unfold update.
    destruct (Z.ltb_spec frame PHASE1_FRAMES); [lia |].
    destruct (Z.ltb_spec frame (PHASE1_FRAMES + PHASE2_FRAMES)); [lia |].
    reflexivity. }
  rewrite Hstart. clear Hstart.
  replace num_show with (Z.of_nat m) in * by (unfold m; lia).
  rewrite Efold. cbn [rbind].
  destruct m as [| m'].
  - exists cs. split; [now rewrite Hlen', cleared_length |].
    split; [intros j Hj; lia |]. split; [exact Hrest |].
    exists (date_text fig), (value_text fig).
    split; [auto |]. split; [intros m' E; discriminate |]. reflexivity.
  - assert (Hgt : (Z.of_nat (S m') >? 0)%Z = true) by (apply Z.gtb_lt; lia).
    rewrite Hgt.
    replace (Z.of_nat (S m') - 1)%Z with (Z.of_nat m') by lia.
    destruct (getitem_in_range (labels data) (Z.of_nat m')) as (li & -> & El);
      [rewrite length_labels_133111; lia |].
    destruct (getitem_in_range (vals data) (Z.of_nat m')) as (vi & -> & Ev);
      [fold (n data); lia |].
    rewrite Nat2Z.id in El, Ev.
    destruct (Hdrawn m') as (rm & vm & Hr & Hv & Hc); [lia |].
    assert (vm = vi) as -> by congruence.
    destruct (getitem_in_range cs (Z.of_nat m')) as (c & -> & Ec);
      [rewrite Hlen', cleared_length; lia |].
    rewrite Nat2Z.id in Ec. assert (Ec' := Ec). rewrite Hc in Ec'.
    injection Ec' as <-.
    cbn [rbind]. rewrite setitem_in_range by (rewrite Hlen', cleared_length; lia).
    rewrite Nat2Z.id. cbn [rbind fst snd c_data c_color drawn].
    eexists. split; [| split; [| split]]; cycle 3.
    + exists (set_text (Literal li) (date_text fig)),
        (set_color (RGB (pct_color vi)) (set_text (Percent 2 vi) (value_text fig))).
      split; [intros E; discriminate |]. split; [| reflexivity].
      intros m'' [= <-]. exists vi, li. auto.
    + now rewrite length_insert, Hlen', cleared_length.
    + intros j Hj. destruct (Nat.eq_dec j m') as [-> | Hne].
      * exists rm, vi. repeat (split; [assumption |]).
        rewrite list_lookup_insert_eq by (rewrite Hlen', cleared_length; lia).
        rewrite Nat.eqb_refl. reflexivity.
      * destruct (Hdrawn j) as (rj & vj & H1 & H2 & H3); [lia |].
        exists rj, vj. repeat (split; [assumption |]).
        rewrite list_lookup_insert_ne by lia.
        destruct (Nat.eqb_spec (S j) (S m')); [lia | exact H3].
    + intros j Hj. rewrite list_lookup_insert_ne by lia. apply Hrest. lia.
Qed.

(** X13. A frame of phase 3 of revision 133111, where the count
    [int(progress * n)] computed with binary64 rounding is the one of
    the exact product, shows the first m rows,
    m = min((frame - 140) * n div 120, n): artist j < m carries the
    circle of row j at height j * 0.15 in the row's colour; the newest
    one (j = m - 1) is highlighted with opacity 0.95 and width 3.5, the
    older ones have width 2.2 and an opacity in (0.525, 0.75]; every
    artist from m on is emptied and hidden.  The texts show the date and
    value of row m - 1.  While (frame - 140) * n < 120 nothing is shown
    at all (m = 0) and both texts stay as the earlier frames left
    them. *)
Theorem build_shows_first_rows (frame : Z) (fig : figure)
    (Hin : (start3 <= frame < total_frames)%Z)
    (Hfig : Z.of_nat (length (circles_3d fig)) = n data)
    (Hround :
       int_of (binary64
                 (binary64 (truediv (frame - PHASE1_FRAMES - PHASE2_FRAMES)
                              PHASE3_FRAMES)
                  * binary64 (inject_Z (n data))))
       = int_of (truediv (frame - PHASE1_FRAMES - PHASE2_FRAMES) PHASE3_FRAMES
                 * inject_Z (n data))) :
  let progress := truediv (frame - PHASE1_FRAMES - PHASE2_FRAMES) PHASE3_FRAMES in
  let m :=
    Z.to_nat
      (Z.min (int_of (binary64 (binary64 progress * binary64 (inject_Z (n data)))))
             (n data)) in
  exists out,
    update data frame fig = Ok out /\
    Z.of_nat m = Z.min ((frame - start3) * n data / PHASE3_FRAMES) (n data) /\
    (Z.of_nat m <= n data)%Z /\
    length (circles_3d out) = length (circles_3d fig) /\
    (forall j, (j < m)%nat ->
       exists rj vj c,
         radii data !! j = Some rj /\ vals data !! j = Some vj /\
         circles_3d out !! j = Some c /\
         c_data c = Some (rj, inject_Z (Z.of_nat j) * 0.15) /\
         c_color c = Some (pct_color vj) /\
         (S j = m -> c_alpha c = 0.95 /\ c_lw c = 3.5) /\
         ((S j < m)%nat ->
            0.525 < c_alpha c /\ c_alpha c <= 0.75 /\ c_lw c = 2.2)) /\
    (forall j c, (m <= j)%nat -> circles_3d out !! j = Some c ->
       c_data c = None /\ c_alpha c = 0.0) /\
    (forall m', m = S m' ->
       exists v l,
         vals data !! m' = Some v /\ labels data !! m' = Some l /\
         t_text (date_text out) = Literal l /\
         t_text (value_text out) = Percent 2 v /\
         t_color (value_text out) = RGB (pct_color v)) /\
    (m = 0%nat ->
       date_text out = date_text fig /\ value_text out = value_text fig) /\
    (((frame - start3) * n data < PHASE3_FRAMES)%Z -> m = 0%nat).
Proof.
  intros progress m0.
  assert (Em : m0 = Z.to_nat (Z.min (int_of (progress * inject_Z (n data)))
                                    (n data)))
    by (unfold m0, progress; now rewrite Hround).
  rewrite Em. clear Em m0.
  set (m := Z.to_nat (Z.min (int_of (progress * inject_Z (n data))) (n data))).
  destruct Hin as [Hin Hhi].
  destruct (update_build_explicit frame fig Hin Hfig)
    as (cs & Hlen & Hdrawn & Hrest & dt & vt & Hnone & Hsome & Eout).
  fold progress in Hdrawn, Hrest, Hnone, Hsome, Eout.
  fold m in Hdrawn, Hrest, Hnone, Hsome.
  destruct (build_count frame Hin) as (Hm & Hzero & _).
  fold progress in Hm, Hzero.
  eexists. split; [exact Eout |].
  cbn [circles_3d date_text value_text].
  split.
  { unfold m. rewrite Z2Nat.id by lia. unfold progress.
    rewrite int_of_scaled_quotient; [| lia | reflexivity | lia].
    replace (frame - PHASE1_FRAMES - PHASE2_FRAMES)%Z with (frame - start3)%Z
      by lia.
    reflexivity. }
  split; [unfold m; lia |]. split; [exact Hlen |]. split; [| split; [| split]].
  - intros j Hj. destruct (Hdrawn j Hj) as (rj & vj & Hr & Hv & Hc).
    exists rj, vj. eexists. repeat (split; [eassumption |]).
    cbn [c_data c_color c_alpha c_lw drawn].
    split; [reflexivity |]. split; [reflexivity |]. split.
    + intros E. destruct (Nat.eqb_spec (S j) m); [auto | congruence].
    + intros Hlt. destruct (Nat.eqb_spec (S j) m); [lia |].
      destruct (age_alpha_bounds (Z.of_nat j)
                  (Z.min (int_of (progress * inject_Z (n data))) (n data)))
        as [Ha Hb]; [unfold m in Hj; lia |].
      auto.
  - intros j c Hj Hc. rewrite (Hrest j Hj) in Hc. now apply cleared_lookup in Hc.
  - intros m' E. destruct (Hsome m' E) as (v & l & Hv & Hl & -> & ->).
    exists v, l. auto.
  - split; [intros E; destruct (Hnone E) as [-> ->]; auto |].
    intros Hsmall. unfold m. rewrite (Hzero Hsmall). reflexivity.
Qed.

Lemma view_flat_or_later (frame : Z) (fig : figure) :
  (0 <= frame)%Z -> Z.of_nat (length (circles_3d fig)) = n data ->
  exists out,
    update data frame fig = Ok out /\
    length (circles_3d out) = length (circles_3d fig) /\
    view out
    = Some (if (frame <? PHASE1_FRAMES)%Z then (90, 0)
            else if (frame <? start3)%Z
            then let t := ease_in_out (truediv (frame - PHASE1_FRAMES)
                                         PHASE2_FRAMES) in
                 (lerp 90 25 t, lerp 0 (-60) t)
            else (25, -60 + truediv (frame - PHASE1_FRAMES - PHASE2_FRAMES)
                              PHASE3_FRAMES * 30)).
Proof.
  intros Hlo Hlen.
  destruct (Z.ltb_spec frame PHASE1_FRAMES) as [H1 | H1].
  - destruct (update_flat_explicit data frame fig (conj Hlo H1) Hn Hlen)
      as (ri & vi & li & _ & _ & _ & Eout).
    eexists. split; [exact Eout |]. cbn [circles_3d view].
    split; [now rewrite length_insert, cleared_length | reflexivity].
  - destruct (Z.ltb_spec frame start3) as [H2 | H2].
    + destruct (update_transition_explicit data Hn frame fig (conj H1 H2) Hlen)
        as (cs & Hcs & _ & _ & Eout).
      eexists. split; [exact Eout |]. cbn [circles_3d view]. auto.
    + destruct (update_build_explicit frame fig H2 Hlen)
        as (cs & Hcs & _ & _ & dt & vt & _ & _ & Eout).
      eexists. split; [exact Eout |]. cbn [circles_3d view]. auto.
Qed.

(** X14. With a non-empty dataset and one line artist per row,
    [update] of revision 133111 returns for every frame of the animation
    (0 <= frame < total_frames) and keeps the number of line artists.
    Its camera path is continuous:
    (90, 0) throughout phase 1 and at the first frame of phase 2;
    phase 2 interpolates to (25, -60), the angles of the first frame of
    phase 3; phase 3 keeps the elevation 25 and turns the azimuth from
    -60 towards -30, which it stays below for every frame of the
    animation. *)
Theorem camera_path_133111 (frame : Z) (fig : figure)
    (Hlo : (0 <= frame)%Z) (Hhi : (frame < total_frames)%Z)
    (Hfig : Z.of_nat (length (circles_3d fig)) = n data) :
  exists out elev azim,
    update data frame fig = Ok out /\
    length (circles_3d out) = length (circles_3d fig) /\
    view out = Some (elev, azim) /\
    ((frame <= PHASE1_FRAMES)%Z -> elev == 90 /\ azim == 0) /\
    ((PHASE1_FRAMES <= frame < start3)%Z ->
       25 <= elev /\ elev <= 90 /\ -60 <= azim /\ azim <= 0) /\
    (frame = start3 -> elev == 25 /\ azim == -60) /\
    ((start3 <= frame)%Z ->
       elev == 25 /\ -60 <= azim /\ azim < -30) /\
    lerp 90 25 1 == 25 /\ lerp 0 (-60) 1 == -60.
Proof.
  destruct (view_flat_or_later frame fig Hlo Hfig) as (out & Eout & Hlen & Hview).
  assert (HP2 : (0 < PHASE2_FRAMES)%Z) by reflexivity.
  assert (HP3 : (0 < PHASE3_FRAMES)%Z) by reflexivity.
  destruct (Z.ltb_spec frame PHASE1_FRAMES) as [H1 | H1];
    [| destruct (Z.ltb_spec frame start3) as [H2 | H2]].
  - exists out, 90, 0. repeat (split; [first [assumption | reflexivity] |]).
    split; [intros _; split; reflexivity |].
    split; [lia |]. split; [lia |]. split; [lia |]. split; reflexivity.
  - cbv zeta in Hview.
    destruct (transition_progress frame (conj H1 H2)) as [Ht0 Ht1].
    eexists out, _, _. repeat (split; [first [eassumption | reflexivity] |]).
    split; [| split; [| split; [lia | split; [lia | split; reflexivity]]]].
    + intros Hle. assert (frame = PHASE1_FRAMES) as -> by lia.
      rewrite Z.sub_diag. split; reflexivity.
    + intros _. unfold lerp. repeat split; nra.
  - pose proof (build_progress_nonneg frame H2) as Hp0.
    eexists out, _, _. repeat (split; [first [eassumption | reflexivity] |]).
    split; [lia |]. split; [lia |].
    split; [| split; [| split; reflexivity]].
    + intros ->. replace (start3 - PHASE1_FRAMES - PHASE2_FRAMES)%Z
        with 0%Z by lia. split; reflexivity.
    + intros _.
      destruct (truediv_unit (frame - PHASE1_FRAMES - PHASE2_FRAMES)
                  PHASE3_FRAMES) as [_ Hp1];
        [unfold total_frames in Hhi; lia |].
      split; [reflexivity |]. split; lra.
Qed.

End Build133111.

Lemma build_shows_first_rows_witness :
  exists out,
    Rev133111.update rows 200 (Rev133111.initial_figure rows) = Ok out /\
    t_text (Rev133111.date_text out) = Literal "1404/09/16" /\
    t_text (Rev133111.value_text out) = Percent 2 4.97.
Proof.
  assert (Hn : (1 <= Rev133111.n rows)%Z) by (vm_compute; discriminate).
  assert (Hin : (Rev133111.PHASE1_FRAMES + Rev133111.PHASE2_FRAMES <= 200
                 < Rev133111.total_frames)%Z)
    by (split; [vm_compute; discriminate | reflexivity]).
  assert (Hfig : Z.of_nat (length (Rev133111.circles_3d
                                     (Rev133111.initial_figure rows)))
                 = Rev133111.n rows) by reflexivity.
  assert (Hround :
    int_of (binary64
              (binary64 (truediv (200 - Rev133111.PHASE1_FRAMES
                                  - Rev133111.PHASE2_FRAMES)
                           Rev133111.PHASE3_FRAMES)
               * binary64 (inject_Z (Rev133111.n rows))))
    = int_of (truediv (200 - Rev133111.PHASE1_FRAMES - Rev133111.PHASE2_FRAMES)
                Rev133111.PHASE3_FRAMES
              * inject_Z (Rev133111.n rows)))
    by (vm_compute; reflexivity).
  destruct (build_shows_first_rows rows Hn 200
              (Rev133111.initial_figure rows) Hin Hfig Hround)
    as (out & Hout & _ & _ & _ & _ & _ & Hnewest & _).
  destruct (Hnewest 13%nat) as (v & l & Hv & Hl & Hdate & Hval & _);
    [vm_compute; reflexivity |].
  vm_compute in Hv. vm_compute in Hl.
  injection Hv as <-. injection Hl as <-.
  exists out. split; [exact Hout |]. split; [exact Hdate | exact Hval].
Defined.

Lemma camera_path_133111_witness :
  exists out elev azim,
    Rev133111.update rows 140 (Rev133111.initial_figure rows) = Ok out /\
    Rev133111.view out = Some (elev, azim) /\ elev == 25 /\ azim == -60.
Proof.
  assert (Hn : (1 <= Rev133111.n rows)%Z) by (vm_compute; discriminate).
  assert (Hlo : (0 <= 140)%Z) by lia.
  assert (Hhi : (140 < Rev133111.total_frames)%Z) by reflexivity.
  assert (Hfig : Z.of_nat (length (Rev133111.circles_3d
                                     (Rev133111.initial_figure rows)))
                 = Rev133111.n rows) by reflexivity.
  destruct (camera_path_133111 rows Hn 140 (Rev133111.initial_figure rows)
              Hlo Hhi Hfig)
    as (out & elev & azim & Hout & _ & Hview & _ & _ & Hstart & _).
  exists out, elev, azim. split; [exact Hout |]. split; [exact Hview |].
  apply Hstart. reflexivity.
Defined.

(** On a dataset of 28 rows, the size of the one in the scripts,
    rounding changes none of the truncated indices of revision 133111:
    neither [int(frame / 60 * n)] on the frames of phase 1 nor
    [int((frame - 140) / 120 * n)] on the frames of phase 3. *)
Lemma rounding_keeps_indices_of_28_rows (data : list (string * Q)) (k : Z) :
  Rev133111.n data = 28%Z ->
  ((0 <= k < Rev133111.PHASE1_FRAMES)%Z ->
     int_of (binary64 (binary64 (truediv k Rev133111.PHASE1_FRAMES)
                       * binary64 (inject_Z (Rev133111.n data))))
     = int_of (truediv k Rev133111.PHASE1_FRAMES
               * inject_Z (Rev133111.n data))) /\
  ((0 <= k < Rev133111.PHASE3_FRAMES)%Z ->
     int_of (binary64 (binary64 (truediv k Rev133111.PHASE3_FRAMES)
                       * binary64 (inject_Z (Rev133111.n data))))
     = int_of (truediv k Rev133111.PHASE3_FRAMES
               * inject_Z (Rev133111.n data))).
Proof.
  intros ->. split; intros Hk.
  - assert (Hall :
      holds_below Rev133111.PHASE1_FRAMES
        (fun k =>
           (int_of (binary64 (binary64 (truediv k Rev133111.PHASE1_FRAMES)
                              * binary64 (inject_Z 28)))
            =? int_of (truediv k Rev133111.PHASE1_FRAMES * inject_Z 28))%Z)
      = true) by (vm_compute; reflexivity).
    pose proof (holds_below_spec _ _ Hall k Hk) as H. cbv beta in H.
    now apply Z.eqb_eq in H.
  - assert (Hall :
      holds_below Rev133111.PHASE3_FRAMES
        (fun k =>
           (int_of (binary64 (binary64 (truediv k Rev133111.PHASE3_FRAMES)
                              * binary64 (inject_Z 28)))
            =? int_of (truediv k Rev133111.PHASE3_FRAMES * inject_Z 28))%Z)
      = true) by (vm_compute; reflexivity).
    pose proof (holds_below_spec _ _ Hall k Hk) as H. cbv beta in H.
    now apply Z.eqb_eq in H.
Qed.

(** ** Revision 133304: the trail *)

Lemma combine_with_image {A B : Type} (f : A -> B) (xs : list A) :
  combine xs (map f xs) = map (fun x => (x, f x)) xs.
Proof. induction xs as [| x rest IH]; simpl; [reflexivity | now rewrite IH]. Qed.

Lemma enumerate_range_from (a b : Z) :
  Rev133304Draw.enumerate (Rev133304Draw.range_from a b)
  = map (fun k => (k, (a + k)%Z)) (range (b - a)).
Proof.
  unfold Rev133304Draw.enumerate, Rev133304Draw.range_from.
  rewrite length_map.
  replace (range (Z.of_nat (length (range (b - a))))) with (range (b - a)).
  - apply combine_with_image.
  - unfold range. now rewrite length_map, length_seq, Nat2Z.id.
Qed.

Lemma range_from_length (a b : Z) :
  Z.of_nat (length (Rev133304Draw.range_from a b)) = Z.max 0 (b - a).
Proof.
  unfold Rev133304Draw.range_from, range.
  rewrite !length_map, length_seq. lia.
Qed.

Lemma clear_zipped_same_length (cs gs : list Rev133304Draw.curve_artist) :
  length cs = length gs ->
  Rev133304Draw.clear_zipped cs gs
  = (map Rev133304Draw.clear cs, map Rev133304Draw.clear gs).
Proof.
  intros Hlen. unfold Rev133304Draw.clear_zipped.
  rewrite <- Hlen, Nat.min_id.
  rewrite firstn_all, skipn_all, app_nil_r.
  rewrite Hlen, firstn_all, skipn_all, app_nil_r. reflexivity.
Qed.

Lemma cleared_curve_lookup (cs : list Rev133304Draw.curve_artist) (j : nat)
    (c : Rev133304Draw.curve_artist) :
  map Rev133304Draw.clear cs !! j = Some c ->
  Rev133304Draw.a_data c = None /\ Rev133304Draw.a_alpha c = 0.0.
Proof.
  rewrite list_lookup_fmap. destruct (cs !! j); simpl; [| discriminate].
  now intros [= <-].
Qed.

Section Trail.

Import Rev133304Draw.

Variable data : list (string * Q).

Lemma length_radii_133304 : Z.of_nat (length (radii data)) = n data.
Proof. unfold radii, n, Rev133304.n, vals. now rewrite length_map. Qed.

Lemma length_vals_133304 : Z.of_nat (length (vals data)) = n data.
Proof. reflexivity. Qed.

Lemma length_labels_133304 : Z.of_nat (length (labels data)) = n data.
Proof.
  unfold labels, n, Rev133304.n, Rev133304.vals. now rewrite !length_map.
Qed.

(** one pass of the loop body for a circle before the current one *)
Lemma draw_one_previous (i denom k j : Z) (p : Q)
    (cs gs : list curve_artist) :
  (0 <= j < i)%Z -> (i <= n data)%Z ->
  Z.of_nat (length cs) = n data -> Z.of_nat (length gs) = n data ->
  exists rj vj,
    radii data !! Z.to_nat j = Some rj /\
    vals data !! Z.to_nat j = Some vj /\
    draw_one data i p denom (k, j) (cs, gs)
    = Ok (<[Z.to_nat j :=
              {| a_data := Some (rj, 200%Z, inject_Z j * 0.15);
                 a_color := Some (pct_color vj);
                 a_alpha := lerp 0.20 0.70 (truediv k denom);
                 a_lw := 2.0 |}]> cs,
          <[Z.to_nat j :=
              {| a_data := Some (rj, 200%Z, inject_Z j * 0.15);
                 a_color := Some (pct_color vj);
                 a_alpha := lerp 0.20 0.70 (truediv k denom) * 0.2;
                 a_lw := 4.5 |}]> gs).
Proof.
  intros Hj Hi Hcs Hgs. unfold draw_one. cbn [fst snd].
  destruct (Z.ltb_spec j i); [| lia].
  destruct (getitem_in_range (radii data) j) as (rj & -> & Hr);
    [rewrite length_radii_133304; lia |].
  destruct (getitem_in_range (vals data) j) as (vj & Ev & Hv);
    [rewrite length_vals_133304; lia |].
  destruct (getitem_in_range gs j) as (g & Eg & _); [lia |].
  destruct (getitem_in_range cs j) as (c & Ec & _); [lia |].
  exists rj, vj. repeat (split; [assumption |]).
  cbn [rbind]. rewrite Ev. cbn [rbind]. rewrite Eg. cbn [rbind].
  rewrite setitem_in_range by lia. cbn [rbind]. rewrite Ec. cbn [rbind].
  rewrite setitem_in_range by lia. reflexivity.
Qed.

(** the loop over the circles before the current one *)
Lemma trail_loop (i start denom : Z) (p : Q) (m : nat)
    (cs0 gs0 : list curve_artist) :
  (0 <= start)%Z -> (start + Z.of_nat m <= i)%Z -> (i <= n data)%Z ->
  Z.of_nat (length cs0) = n data -> Z.of_nat (length gs0) = n data ->
  exists cs gs,
    Rev133111.for_fold (draw_one data i p denom)
      (map (fun k => (k, (start + k)%Z)) (range (Z.of_nat m))) (cs0, gs0)
    = Ok (cs, gs) /\
    length cs = length cs0 /\ length gs = length gs0 /\
    (forall k, (k < m)%nat ->
       exists rj vj,
         radii data !! (Z.to_nat start + k)%nat = Some rj /\
         vals data !! (Z.to_nat start + k)%nat = Some vj /\
         cs !! (Z.to_nat start + k)%nat
         = Some {| a_data := Some (rj, 200%Z,
                                   inject_Z (start + Z.of_nat k) * 0.15);
                   a_color := Some (pct_color vj);
                   a_alpha := lerp 0.20 0.70 (truediv (Z.of_nat k) denom);
                   a_lw := 2.0 |} /\
         gs !! (Z.to_nat start + k)%nat
         = Some {| a_data := Some (rj, 200%Z,
                                   inject_Z (start + Z.of_nat k) * 0.15);
                   a_color := Some (pct_color vj);
                   a_alpha := lerp 0.20 0.70 (truediv (Z.of_nat k) denom) * 0.2;
                   a_lw := 4.5 |}) /\
    (forall j, (j < Z.to_nat start \/ Z.to_nat start + m <= j)%nat ->
       cs !! j = cs0 !! j /\ gs !! j = gs0 !! j).
Proof.
  intros Hstart Hm Hi Hcs0 Hgs0. induction m as [| m IH].
  - exists cs0, gs0. split; [reflexivity |]. split; [reflexivity |].
    split; [reflexivity |]. split; [intros k Hk; lia | auto].
  - destruct IH as (cs & gs & Efold & Hlc & Hlg & Hshown & Hrest); [lia |].
    destruct (draw_one_previous i denom (Z.of_nat m) (start + Z.of_nat m) p cs gs)
      as (rm & vm & Hr & Hv & Eone); [lia | lia | lia | lia |].
    replace (Z.to_nat (start + Z.of_nat m)) with (Z.to_nat start + m)%nat
      in Hr, Hv, Eone by lia.
    do 2 eexists.
    rewrite range_succ, map_app, for_fold_app, Efold.
    cbn [map rbind Rev133111.for_fold]. rewrite Eone. cbn [rbind].
    split; [reflexivity |].
    split; [now rewrite length_insert |]. split; [now rewrite length_insert |].
    split.
    + intros k Hk. destruct (Nat.eq_dec k m) as [-> | Hne].
      * exists rm, vm. repeat (split; [assumption |]).
        split; apply list_lookup_insert_eq; lia.
      * destruct (Hshown k) as (rj & vj & H1 & H2 & H3 & H4); [lia |].
        exists rj, vj. repeat (split; [assumption |]).
        rewrite !list_lookup_insert_ne by lia. auto.
    + intros j Hj. rewrite !list_lookup_insert_ne by lia. apply Hrest. lia.
Qed.

(** the loop body for the current circle *)
Lemma draw_one_current (i denom k : Z) (p : Q) (cs gs : list curve_artist) :
  (0 <= i < n data)%Z ->
  Z.of_nat (length cs) = n data -> Z.of_nat (length gs) = n data ->
  exists ri vi,
    radii data !! Z.to_nat i = Some ri /\
    vals data !! Z.to_nat i = Some vi /\
    draw_one data i p denom (k, i) (cs, gs)
    = Ok (if (int_of (binary64 (200 * p)) <? 2)%Z then (cs, gs)
          else (<[Z.to_nat i :=
                    {| a_data := Some (ri, Z.min (int_of (binary64 (200 * p))) 200,
                                       inject_Z i * 0.15);
                       a_color := Some (pct_color vi);
                       a_alpha := 0.95; a_lw := 3.0 |}]> cs,
                <[Z.to_nat i :=
                    {| a_data := Some (ri, Z.min (int_of (binary64 (200 * p))) 200,
                                       inject_Z i * 0.15);
                       a_color := Some (pct_color vi);
                       a_alpha := 0.95 * 0.2; a_lw := 6.5 |}]> gs)).
Proof.
  intros Hi Hcs Hgs. unfold draw_one. cbn [fst snd].
  rewrite Z.ltb_irrefl.
  destruct (getitem_in_range (radii data) i) as (ri & Er & Hr);
    [rewrite length_radii_133304; lia |].
  destruct (getitem_in_range (vals data) i) as (vi & Ev & Hv);
    [rewrite length_vals_133304; lia |].
  destruct (getitem_in_range gs i) as (g & Eg & _); [lia |].
  destruct (getitem_in_range cs i) as (c & Ec & _); [lia |].
  exists ri, vi. repeat (split; [assumption |]).
  change (inject_Z 200) with 200.
  destruct (int_of (binary64 (200 * p)) <? 2)%Z; cbn [rbind]; [reflexivity |].
  rewrite Er. cbn [rbind]. rewrite Ev. cbn [rbind]. rewrite Eg. cbn [rbind].
  rewrite setitem_in_range by lia. cbn [rbind]. rewrite Ec. cbn [rbind].
  rewrite setitem_in_range by lia. reflexivity.
Qed.

End Trail.

Section TrailFrames.

Import Rev133304Draw.

Variable data : list (string * Q).
Hypothesis Hn : (1 <= n data)%Z.

Local Notation "'period'" :=
  (Rev133304.FRAMES_PER_CIRCLE + Rev133304.HOLD_FRAMES)%Z.

Lemma item_index_in_range (frame : Z) :
  (0 <= frame)%Z ->
  (0 <= Rev133304.i (Rev133304.update_item data frame) < n data)%Z.
Proof.
  intros Hlo. unfold Rev133304.update_item. cbn [Rev133304.i].
  assert (0 <= frame / period)%Z by (apply Z.div_pos; [lia | reflexivity]).
  unfold n in *. lia.
Qed.

Lemma total_frames_positive : (0 < total_frames data)%Z.
Proof.
  unfold total_frames, Rev133304.total_frames.
  unfold n in Hn. change period with 30%Z. lia.
Qed.

(** the artists after a frame, written out: [m] circles of the trail
    before the current circle [i], then the current one *)
Lemma update_trail_explicit (frame : Z) (fig : figure) :
  (0 <= frame < total_frames data)%Z ->
  Z.of_nat (length (circles_3d fig)) = n data ->
  Z.of_nat (length (glows_3d fig)) = n data ->
  let item := Rev133304.update_item data frame in
  let i := Rev133304.i item in
  let p := draw_progress (Rev133304.item_frame item) in
  let start := Z.max 0 (i - TRAIL + 1) in
  let m := Z.to_nat (i - start) in
  let denom := Z.max 1 (i - start) in
  let ramp (full : Q) (t : text_artist) :=
    if (Rev133304.item_frame item <? 10)%Z
    then set_alpha (truediv (Rev133304.item_frame item) 10 * full) t else t in
  exists cs gs ri vi li,
    radii data !! Z.to_nat i = Some ri /\
    vals data !! Z.to_nat i = Some vi /\
    labels data !! Z.to_nat i = Some li /\
    length cs = length (circles_3d fig) /\
    length gs = length (glows_3d fig) /\
    (forall k, (k < m)%nat ->
       exists rj vj,
         radii data !! (Z.to_nat start + k)%nat = Some rj /\
         vals data !! (Z.to_nat start + k)%nat = Some vj /\
         cs !! (Z.to_nat start + k)%nat
         = Some {| a_data := Some (rj, 200%Z,
                                   inject_Z (start + Z.of_nat k) * 0.15);
                   a_color := Some (pct_color vj);
                   a_alpha := lerp 0.20 0.70 (truediv (Z.of_nat k) denom);
                   a_lw := 2.0 |} /\
         gs !! (Z.to_nat start + k)%nat
         = Some {| a_data := Some (rj, 200%Z,
                                   inject_Z (start + Z.of_nat k) * 0.15);
                   a_color := Some (pct_color vj);
                   a_alpha := lerp 0.20 0.70 (truediv (Z.of_nat k) denom) * 0.2;
                   a_lw := 4.5 |}) /\
    cs !! Z.to_nat i
    = (if (int_of (binary64 (200 * p)) <? 2)%Z
       then map clear (circles_3d fig) !! Z.to_nat i
       else Some {| a_data := Some (ri, Z.min (int_of (binary64 (200 * p))) 200,
                                    inject_Z i * 0.15);
                    a_color := Some (pct_color vi);
                    a_alpha := 0.95; a_lw := 3.0 |}) /\
    gs !! Z.to_nat i
    = (if (int_of (binary64 (200 * p)) <? 2)%Z
       then map clear (glows_3d fig) !! Z.to_nat i
       else Some {| a_data := Some (ri, Z.min (int_of (binary64 (200 * p))) 200,
                                    inject_Z i * 0.15);
                    a_color := Some (pct_color vi);
                    a_alpha := 0.95 * 0.2; a_lw := 6.5 |}) /\
    (forall j, (j < Z.to_nat start \/ Z.to_nat i < j)%nat ->
       cs !! j = map clear (circles_3d fig) !! j /\
       gs !! j = map clear (glows_3d fig) !! j) /\
    update data frame fig
    = Done {| circles_3d := cs;
              glows_3d := gs;
              value_text :=
                set_color (RGB (pct_color vi))
                  (set_text (Percent 2 vi) (ramp 0.95 (value_text fig)));
              status_text :=
                set_color (Hex (snd (get_status vi)))
                  (set_text (Literal (fst (get_status vi)))
                     (ramp 0.9 (status_text fig)));
              date_text := set_text (Literal li) (ramp 0.9 (date_text fig));
              view := (25, -60 + truediv frame (total_frames data) * 30) |}.
Proof.
  intros Hin Hcs Hgs item i p start m denom ramp.
  pose proof (item_index_in_range frame (proj1 Hin)) as Hi. fold item i in Hi.
  pose proof total_frames_positive as Htot.
  assert (Hstart : (0 <= start <= i)%Z) by (unfold start, TRAIL; lia).
  assert (Hm : Z.of_nat m = (i - start)%Z) by (unfold m; lia).
  destruct (trail_loop data i start denom p m
              (map clear (circles_3d fig)) (map clear (glows_3d fig)))
    as (cs & gs & Efold & Hlc & Hlg & Hshown & Hrest);
    [lia | lia | lia | now rewrite length_map | now rewrite length_map |].
  rewrite length_map in Hlc, Hlg.
  destruct (draw_one_current data i denom (Z.of_nat m) p cs gs)
    as (ri & vi & Hr & Hv & Eone); [lia | lia | lia |].
  destruct (getitem_in_range (vals data) i) as (vi' & Ev & Hv');
    [rewrite length_vals_133304; lia |].
  assert (vi' = vi) as -> by congruence.
  destruct (getitem_in_range (labels data) i) as (li & El & Hl);
    [rewrite length_labels_133304; lia |].
  assert (Eloop :
    Rev133111.for_fold (draw_one data i p denom)
      (enumerate (range_from start (i + 1)))
      (clear_zipped (circles_3d fig) (glows_3d fig))
    = Ok (if (int_of (binary64 (200 * p)) <? 2)%Z then (cs, gs)
          else (<[Z.to_nat i :=
                    {| a_data := Some (ri, Z.min (int_of (binary64 (200 * p))) 200,
                                       inject_Z i * 0.15);
                       a_color := Some (pct_color vi);
                       a_alpha := 0.95; a_lw := 3.0 |}]> cs,
                <[Z.to_nat i :=
                    {| a_data := Some (ri, Z.min (int_of (binary64 (200 * p))) 200,
                                       inject_Z i * 0.15);
                       a_color := Some (pct_color vi);
                       a_alpha := 0.95 * 0.2; a_lw := 6.5 |}]> gs))).
  { rewrite clear_zipped_same_length by lia.
    rewrite enumerate_range_from.
    replace (i + 1 - start)%Z with (Z.of_nat (S m)) by lia.
    rewrite range_succ, map_app, for_fold_app, Efold.
    cbn [map rbind Rev133111.for_fold].
    replace (start + Z.of_nat m)%Z with i by lia.
    rewrite Eone. reflexivity. }
  assert (Edenom : Z.max 1 (Z.of_nat (length (range_from start (i + 1))) - 1)
                   = denom).
  { rewrite range_from_length. unfold denom. lia. }
  exists (fst (if (int_of (binary64 (200 * p)) <? 2)%Z then (cs, gs)
               else (<[Z.to_nat i :=
                         {| a_data := Some (ri, Z.min (int_of (binary64 (200 * p))) 200,
                                            inject_Z i * 0.15);
                            a_color := Some (pct_color vi);
                            a_alpha := 0.95; a_lw := 3.0 |}]> cs,
                     <[Z.to_nat i :=
                         {| a_data := Some (ri, Z.min (int_of (binary64 (200 * p))) 200,
                                            inject_Z i * 0.15);
                            a_color := Some (pct_color vi);
                            a_alpha := 0.95 * 0.2; a_lw := 6.5 |}]> gs))).
  exists (snd (if (int_of (binary64 (200 * p)) <? 2)%Z then (cs, gs)
               else (<[Z.to_nat i :=
                         {| a_data := Some (ri, Z.min (int_of (binary64 (200 * p))) 200,
                                            inject_Z i * 0.15);
                            a_color := Some (pct_color vi);
                            a_alpha := 0.95; a_lw := 3.0 |}]> cs,
                     <[Z.to_nat i :=
                         {| a_data := Some (ri, Z.min (int_of (binary64 (200 * p))) 200,
                                            inject_Z i * 0.15);
                            a_color := Some (pct_color vi);
                            a_alpha := 0.95 * 0.2; a_lw := 6.5 |}]> gs))).
  exists ri, vi, li.
  repeat (split; [assumption |]).
  assert (Hiat : cs !! Z.to_nat i = map clear (circles_3d fig) !! Z.to_nat i
                 /\ gs !! Z.to_nat i = map clear (glows_3d fig) !! Z.to_nat i)
    by (apply Hrest; lia).
  destruct (int_of (binary64 (200 * p)) <? 2)%Z eqn:Epts; cbn [fst snd].
  - split; [exact Hlc |]. split; [exact Hlg |]. split; [exact Hshown |].
    split; [apply Hiat |]. split; [apply Hiat |].
    split; [intros j Hj; apply Hrest; lia |].
    unfold update. cbv zeta. rewrite checked_truediv_unit by exact Hin.
    fold item. fold i. fold p. fold start. rewrite Edenom, Eloop, ?Epts.
    cbn [lift rbind fst snd]. rewrite Ev. cbn [rbind]. rewrite El. reflexivity.
  - split; [now rewrite length_insert |]. split; [now rewrite length_insert |].
    split.
    { intros k Hk. destruct (Hshown k Hk) as (rj & vj & H1 & H2 & H3 & H4).
      exists rj, vj. repeat (split; [assumption |]).
      rewrite !list_lookup_insert_ne by lia. auto. }
    split; [apply list_lookup_insert_eq; lia |].
    split; [apply list_lookup_insert_eq; lia |].
    split.
    { intros j Hj. rewrite !list_lookup_insert_ne by lia. apply Hrest. lia. }
    unfold update. cbv zeta. rewrite checked_truediv_unit by exact Hin.
    fold item. fold i. fold p. fold start. rewrite Edenom, Eloop, ?Epts.
    cbn [lift rbind fst snd]. rewrite Ev. cbn [rbind]. rewrite El. reflexivity.
Qed.

Lemma trail_fade_bounds (k denom : Z) :
  (0 <= k < denom)%Z ->
  0.20 <= lerp 0.20 0.70 (truediv k denom) /\
  lerp 0.20 0.70 (truediv k denom) < 0.70.
Proof.
  intros Hk. destruct (truediv_unit k denom Hk) as [H0 H1].
  unfold lerp. split; lra.
Qed.

Lemma trail_fade_increasing (k k' denom : Z) :
  (0 <= k < k')%Z -> (0 < denom)%Z ->
  lerp 0.20 0.70 (truediv k denom) < lerp 0.20 0.70 (truediv k' denom).
Proof.
  intros Hk Hd.
  assert (H : truediv k denom < truediv k' denom).
  { unfold truediv. apply div_lt_compat; [now apply inject_Z_pos |].
    rewrite <- Zlt_Qlt. lia. }
  unfold lerp. lra.
Qed.

(** X15. The trail of revision 133304.  After a frame of the animation
    (0 <= frame < total_frames; one line and one glow artist per row) the
    circles before the current circle i that are shown are exactly the
    last seven at most, rows max(0, i - 7) .. i - 1: each is a full
    circle with the radius and colour of its row at height j * 0.15,
    width 2 (glow 4.5), with an opacity that grows with j from 0.2 and
    stays below 0.7, the glow having a fifth of it.  Every artist of a
    row before that window or after i is emptied and hidden, whatever
    the earlier frames drew. *)
Theorem trail_window (frame : Z) (fig : figure)
    (Hin : (0 <= frame < total_frames data)%Z)
    (Hcs : Z.of_nat (length (circles_3d fig)) = n data)
    (Hgs : Z.of_nat (length (glows_3d fig)) = n data) :
  let i := Rev133304.i (Rev133304.update_item data frame) in
  let start := Z.max 0 (i - 7) in
  exists out,
    update data frame fig = Done out /\
    i = (frame / period)%Z /\
    length (circles_3d out) = length (circles_3d fig) /\
    length (glows_3d out) = length (glows_3d fig) /\
    (0 <= start <= i)%Z /\ (i - start <= 7)%Z /\ (i < n data)%Z /\
    (forall j, (start <= j < i)%Z ->
       exists rj vj c g,
         radii data !! Z.to_nat j = Some rj /\
         vals data !! Z.to_nat j = Some vj /\
         circles_3d out !! Z.to_nat j = Some c /\
         glows_3d out !! Z.to_nat j = Some g /\
         a_data c = Some (rj, 200%Z, inject_Z j * 0.15) /\
         a_data g = a_data c /\
         a_color c = Some (pct_color vj) /\ a_color g = a_color c /\
         a_alpha c = lerp 0.20 0.70 (truediv (j - start) (Z.max 1 (i - start))) /\
         0.20 <= a_alpha c /\ a_alpha c < 0.70 /\
         a_alpha g = a_alpha c * 0.2 /\
         a_lw c = 2.0 /\ a_lw g = 4.5) /\
    (forall j j', (start <= j < j')%Z -> (j' < i)%Z ->
       lerp 0.20 0.70 (truediv (j - start) (Z.max 1 (i - start)))
       < lerp 0.20 0.70 (truediv (j' - start) (Z.max 1 (i - start)))) /\
    (forall j c, (Z.of_nat j < start \/ i < Z.of_nat j)%Z ->
       circles_3d out !! j = Some c -> a_data c = None /\ a_alpha c = 0.0) /\
    (forall j g, (Z.of_nat j < start \/ i < Z.of_nat j)%Z ->
       glows_3d out !! j = Some g -> a_data g = None /\ a_alpha g = 0.0).
Proof.
  intros i start.
  pose proof (item_index_in_range frame (proj1 Hin)) as Hi. fold i in Hi.
  destruct (update_trail_explicit frame fig Hin Hcs Hgs)
    as (cs & gs & ri & vi & li & _ & _ & _ & Hlc & Hlg & Hshown & _ & _
        & Hrest & Eout).
  fold i in Hshown, Hrest, Eout.
  replace (Z.max 0 (i - TRAIL + 1)) with start in Hshown, Hrest
    by (unfold start, TRAIL; lia).
  assert (Hstart : (0 <= start <= i)%Z) by (unfold start; lia).
  eexists. split; [exact Eout |]. cbn [circles_3d glows_3d].
  split.
  { unfold i, Rev133304.update_item. cbn [Rev133304.i].
    assert (frame / period < n data)%Z.
    { apply Z.div_lt_upper_bound; [reflexivity |].
      unfold total_frames, Rev133304.total_frames in Hin.
      unfold n. lia. }
    unfold n in *. lia. }
  split; [exact Hlc |]. split; [exact Hlg |]. split; [exact Hstart |].
  split; [unfold start; lia |]. split; [lia |].
  split; [| split; [| split]].
  - intros j Hj.
    destruct (Hshown (Z.to_nat (j - start))) as (rj & vj & H1 & H2 & H3 & H4);
      [lia |].
    replace (Z.to_nat start + Z.to_nat (j - start))%nat with (Z.to_nat j)
      in H1, H2, H3, H4 by lia.
    replace (start + Z.of_nat (Z.to_nat (j - start)))%Z with j in H3, H4 by lia.
    replace (Z.of_nat (Z.to_nat (j - start))) with (j - start)%Z in H3, H4 by lia.
    exists rj, vj. do 2 eexists.
    repeat (split; [eassumption |]).
    cbn [a_data a_color a_alpha a_lw].
    destruct (trail_fade_bounds (j - start) (Z.max 1 (i - start))) as [Ha Hb];
      [lia |].
    repeat (split; [first [reflexivity | assumption] |]). reflexivity.
  - intros j j' Hj Hj'. apply trail_fade_increasing; lia.
  - intros j c Hj Hc.
    destruct (Hrest j) as [E _]; [lia |]. rewrite E in Hc.
    now apply cleared_curve_lookup in Hc.
  - intros j g Hj Hg.
    destruct (Hrest j) as [_ E]; [lia |]. rewrite E in Hg.
    now apply cleared_curve_lookup in Hg.
Qed.

(** the points of the current circle on each item frame *)
Lemma points_window (k : Z) :
  (0 <= k < period)%Z ->
  let p := draw_progress k in
  (int_of (binary64 (200 * p)) <? 2)%Z = (k =? 0)%Z /\
  (int_of (binary64 (200 * p)) <=? 200)%Z = true /\
  (int_of (binary64 (200 * p)) =? 200)%Z
  = (Rev133304.FRAMES_PER_CIRCLE <=? k)%Z /\
  (int_of (binary64 (200 * draw_progress (k - 1)))
   <=? int_of (binary64 (200 * p)))%Z = true.
Proof.
  intros Hk p.
  assert (Hall :
    holds_below period
      (fun k =>
         let p := draw_progress k in
         Bool.eqb (int_of (binary64 (200 * p)) <? 2)%Z (k =? 0)%Z
         && (int_of (binary64 (200 * p)) <=? 200)%Z
         && Bool.eqb (int_of (binary64 (200 * p)) =? 200)%Z
              (Rev133304.FRAMES_PER_CIRCLE <=? k)%Z
         && (int_of (binary64 (200 * draw_progress (k - 1)))
             <=? int_of (binary64 (200 * p)))%Z) = true)
    by (vm_compute; reflexivity).
  pose proof (holds_below_spec _ _ Hall k Hk) as H. cbv beta zeta in H.
  fold p in H.
  apply andb_prop in H as [H H4].
  apply andb_prop in H as [H H3]. apply andb_prop in H as [H1 H2].
  apply Bool.eqb_prop in H1, H3. auto.
Qed.

(** X16. The current circle of revision 133304, on a frame of the
    animation.  On the first frame of its item (item frame 0) the current
    circle i is not drawn: its line and glow artists stay emptied and
    hidden.  On every other item frame both carry the first
    int(200 * draw_progress) of the 200 sample points of the circle of
    row i (its radius and colour, height i * 0.15), the product and the
    progress rounded as floats, the line with opacity 0.95 and width 3,
    the glow with a fifth of that opacity and width 6.5.  The number of
    points is at least 2, never less than on the item frame before, and
    reaches 200 exactly from item frame 25 on (the hold frames). *)
Theorem current_circle_grows (frame : Z) (fig : figure)
    (Hin : (0 <= frame < total_frames data)%Z)
    (Hcs : Z.of_nat (length (circles_3d fig)) = n data)
    (Hgs : Z.of_nat (length (glows_3d fig)) = n data) :
  let item := Rev133304.update_item data frame in
  let i := Z.to_nat (Rev133304.i item) in
  let points := int_of (binary64 (200 * draw_progress (frame mod period))) in
  exists out ri vi c g,
    update data frame fig = Done out /\
    radii data !! i = Some ri /\ vals data !! i = Some vi /\
    circles_3d out !! i = Some c /\ glows_3d out !! i = Some g /\
    ((frame mod period = 0)%Z ->
       a_data c = None /\ a_alpha c = 0.0 /\
       a_data g = None /\ a_alpha g = 0.0) /\
    ((frame mod period <> 0)%Z ->
       (2 <= points <= 200)%Z /\
       (int_of (binary64 (200 * draw_progress (frame mod period - 1)))
        <= points)%Z /\
       a_data c = Some (ri, points, inject_Z (Rev133304.i item) * 0.15) /\
       a_data g = a_data c /\
       a_color c = Some (pct_color vi) /\ a_color g = a_color c /\
       a_alpha c = 0.95 /\ a_alpha g = 0.95 * 0.2 /\
       a_lw c = 3.0 /\ a_lw g = 6.5) /\
    (points = 200%Z <-> (Rev133304.FRAMES_PER_CIRCLE <= frame mod period)%Z).
Proof.
  intros item i points.
  pose proof (item_index_in_range frame (proj1 Hin)) as Hi. fold item in Hi.
  destruct (update_trail_explicit frame fig Hin Hcs Hgs)
    as (cs & gs & ri & vi & li & Hr & Hv & _ & Hlc & Hlg & _ & Hc & Hg & _ & Eout).
  fold item i in Hr, Hv, Hc, Hg.
  change (Rev133304.item_frame item) with (frame mod period)%Z in Hc, Hg.
  fold points in Hc, Hg.
  assert (Hk : (0 <= frame mod period < period)%Z)
    by (apply Z.mod_pos_bound; reflexivity).
  destruct (points_window (frame mod period) Hk) as (Hw1 & Hw2 & Hw3 & Hw4).
  cbv zeta in Hw1, Hw2, Hw3, Hw4. fold points in Hw1, Hw2, Hw3, Hw4.
  assert (Hfull : points = 200%Z
                  <-> (Rev133304.FRAMES_PER_CIRCLE <= frame mod period)%Z).
  { rewrite <- Z.eqb_eq, <- Z.leb_le. now rewrite Hw3. }
  destruct (lookup_lt_is_Some_2 (map clear (circles_3d fig)) i) as [c0 Hc0];
    [rewrite length_map; unfold i; lia |].
  destruct (lookup_lt_is_Some_2 (map clear (glows_3d fig)) i) as [g0 Hg0];
    [rewrite length_map; unfold i; lia |].
  destruct (Z.eqb_spec (frame mod period) 0) as [Hzero | Hnz].
  - rewrite Hw1, Hc0 in Hc. rewrite Hw1, Hg0 in Hg.
    eexists _, ri, vi, c0, g0. split; [exact Eout |].
    cbn [circles_3d glows_3d]. repeat (split; [assumption |]).
    apply cleared_curve_lookup in Hc0 as [? ?].
    apply cleared_curve_lookup in Hg0 as [? ?].
    split; [auto |]. split; [congruence | exact Hfull].
  - rewrite Hw1 in Hc, Hg.
    assert (Hpts : (2 <= points <= 200)%Z).
    { apply Z.ltb_ge in Hw1. apply Z.leb_le in Hw2. lia. }
    rewrite Z.min_l in Hc, Hg by lia.
    eexists _, ri, vi, _, _. split; [exact Eout |].
    cbn [circles_3d glows_3d]. repeat (split; [eassumption |]).
    cbn [a_data a_color a_alpha a_lw].
    split; [congruence |].
    split; [| exact Hfull].
    split; [exact Hpts |]. split; [now apply Z.leb_le |].
    repeat split; reflexivity.
Qed.

End TrailFrames.

Lemma trail_window_witness :
  exists out c,
    Rev133304Draw.update rows 400 (Rev133304Draw.initial_figure rows)
    = Rev133304Draw.Done out /\
    Rev133304Draw.circles_3d out !! 6%nat = Some c /\
    Rev133304Draw.a_alpha c
    = lerp 0.20 0.70 (truediv (6 - 6) (Z.max 1 (13 - 6))) /\
    forall c', Rev133304Draw.circles_3d out !! 5%nat = Some c' ->
      Rev133304Draw.a_data c' = None.
Proof.
  assert (Hn : (1 <= Rev133304Draw.n rows)%Z) by (vm_compute; discriminate).
  assert (Hin : (0 <= 400 < Rev133304Draw.total_frames rows)%Z)
    by (split; [lia | reflexivity]).
  assert (Hcs : Z.of_nat (length (Rev133304Draw.circles_3d
                                    (Rev133304Draw.initial_figure rows)))
                = Rev133304Draw.n rows) by reflexivity.
  assert (Hgs : Z.of_nat (length (Rev133304Draw.glows_3d
                                    (Rev133304Draw.initial_figure rows)))
                = Rev133304Draw.n rows) by reflexivity.
  destruct (trail_window rows Hn 400 (Rev133304Draw.initial_figure rows)
              Hin Hcs Hgs)
    as (out & Hout & _ & _ & _ & _ & _ & _ & Hshown & _ & Hhidden & _).
  destruct (Hshown 6%Z) as (rj & vj & c & g & _ & _ & Hc & _ & _ & _ & _ & _
                            & Halpha & _);
    [vm_compute; split; [discriminate | reflexivity] |].
  exists out, c. split; [exact Hout |]. split; [exact Hc |].
  split; [exact Halpha |].
  intros c' Hc'. apply (Hhidden 5%nat c'); [| exact Hc'].
  left. vm_compute. reflexivity.
Defined.

Lemma current_circle_grows_witness :
  exists out ri c,
    Rev133304Draw.update rows 395 (Rev133304Draw.initial_figure rows)
    = Rev133304Draw.Done out /\
    Rev133304Draw.circles_3d out !! 13%nat = Some c /\
    Rev133304Draw.a_data c = Some (ri, 71%Z, inject_Z 13 * 0.15).
Proof.
  assert (Hn : (1 <= Rev133304Draw.n rows)%Z) by (vm_compute; discriminate).
  assert (Hin : (0 <= 395 < Rev133304Draw.total_frames rows)%Z)
    by (split; [lia | reflexivity]).
  assert (Hcs : Z.of_nat (length (Rev133304Draw.circles_3d
                                    (Rev133304Draw.initial_figure rows)))
                = Rev133304Draw.n rows) by reflexivity.
  assert (Hgs : Z.of_nat (length (Rev133304Draw.glows_3d
                                    (Rev133304Draw.initial_figure rows)))
                = Rev133304Draw.n rows) by reflexivity.
  destruct (current_circle_grows rows Hn 395 (Rev133304Draw.initial_figure rows)
              Hin Hcs Hgs) as (out & ri & vi & c & g & Hout & _ & _ & Hc & _ & _
                               & Hdrawn & _).
  destruct Hdrawn as (_ & _ & Hdata & _); [vm_compute; discriminate |].
  exists out, ri, c. split; [exact Hout |]. split; [exact Hc |].
  rewrite Hdata. reflexivity.
Defined.

Section TextsAndRotation.

Import Rev133304Draw.

Variable data : list (string * Q).
Hypothesis Hn : (1 <= n data)%Z.

Local Notation "'period'" :=
  (Rev133304.FRAMES_PER_CIRCLE + Rev133304.HOLD_FRAMES)%Z.

(** X17. The slow rotation of revision 133304: on every frame of the
    animation (0 <= frame < total_frames) the camera stays at elevation
    25 and its azimuth is -60 + 30 * frame / total_frames, so it starts
    at -60 and stays below -30.  The quotient frame / total_frames is
    the first thing [update] can fail on: with an empty dataset
    total_frames is 0 and [update] raises ZeroDivisionError for every
    frame, and a frame number whose quotient is too large for a float
    raises OverflowError. *)
Theorem rotation_of_camera (frame : Z) (fig : figure)
    (Hin : (0 <= frame < total_frames data)%Z)
    (Hcs : Z.of_nat (length (circles_3d fig)) = n data)
    (Hgs : Z.of_nat (length (glows_3d fig)) = n data) :
  exists out,
    update data frame fig = Done out /\
    view out = (25, -60 + truediv frame (total_frames data) * 30) /\
    (frame = 0%Z -> snd (view out) == -60) /\
    -60 <= snd (view out) /\ snd (view out) < -30 /\
    total_frames [] = 0%Z /\
    (forall frame' fig', update [] frame' fig' = Failed ZeroDivisionError) /\
    (forall frame' fig',
       float_overflow * inject_Z (total_frames data) <= inject_Z frame' ->
       update data frame' fig' = Failed OverflowError).
Proof.
  destruct (update_trail_explicit data Hn frame fig Hin Hcs Hgs)
    as (cs & gs & ri & vi & li & _ & _ & _ & _ & _ & _ & _ & _ & _ & Eout).
  eexists. split; [exact Eout |]. cbn [view snd].
  split; [reflexivity |].
  split; [intros E; rewrite E, truediv_zero; reflexivity |].
  destruct (truediv_unit frame (total_frames data) Hin) as [H0 H1].
  split; [lra |]. split; [lra |]. split; [reflexivity |].
  split; [intros frame' fig'; reflexivity |].
  intros frame' fig' Hbig. unfold update. cbv zeta.
  apply checked_truediv_overflow; [lia | exact Hbig].
Qed.

(** X18. The texts of revision 133304 after a frame of the animation
    (0 <= frame < total_frames): the value text shows the value of the current row in the row's colour, the status
    text the status label of that value in the label's colour and the
    date text the row's label.  Their opacities are only set during the
    first ten frames of an item, where they ramp up from 0 to 0.9 of
    their nominal values (0.95, 0.9, 0.9); on the later frames of the
    item they are left as they were. *)
Theorem texts_of_current_row (frame : Z) (fig : figure)
    (Hin : (0 <= frame < total_frames data)%Z)
    (Hcs : Z.of_nat (length (circles_3d fig)) = n data)
    (Hgs : Z.of_nat (length (glows_3d fig)) = n data) :
  let i := Z.to_nat (Rev133304.i (Rev133304.update_item data frame)) in
  let k := (frame mod period)%Z in
  exists out vi li,
    update data frame fig = Done out /\
    vals data !! i = Some vi /\ labels data !! i = Some li /\
    t_text (value_text out) = Percent 2 vi /\
    t_color (value_text out) = RGB (pct_color vi) /\
    t_text (status_text out) = Literal (fst (get_status vi)) /\
    t_color (status_text out) = Hex (snd (get_status vi)) /\
    t_text (date_text out) = Literal li /\
    t_color (date_text out) = t_color (date_text fig) /\
    ((k < 10)%Z ->
       t_alpha (value_text out) = truediv k 10 * 0.95 /\
       t_alpha (status_text out) = truediv k 10 * 0.9 /\
       t_alpha (date_text out) = truediv k 10 * 0.9 /\
       0 <= truediv k 10 /\ truediv k 10 <= 0.9) /\
    ((10 <= k)%Z ->
       t_alpha (value_text out) = t_alpha (value_text fig) /\
       t_alpha (status_text out) = t_alpha (status_text fig) /\
       t_alpha (date_text out) = t_alpha (date_text fig)).
Proof.
  intros i k.
  destruct (update_trail_explicit data Hn frame fig Hin Hcs Hgs)
    as (cs & gs & ri & vi & li & _ & Hv & Hl & _ & _ & _ & _ & _ & _ & Eout).
  eexists _, vi, li. split; [exact Eout |].
  cbn [value_text status_text date_text Rev133304.update_item
       Rev133304.item_frame].
  fold k.
  assert (Hk : (0 <= k < period)%Z) by (apply Z.mod_pos_bound; reflexivity).
  split; [exact Hv |]. split; [exact Hl |].
  destruct (Z.ltb_spec k 10) as [Hlt | Hge]; cbn.
  - repeat (split; [reflexivity |]). split; [| lia].
    intros _. repeat (split; [reflexivity |]).
    unfold truediv. split.
    + apply Qle_shift_div_l; [reflexivity |]. rewrite Qmult_0_l.
      apply inject_Z_nonneg. lia.
    + apply Qle_shift_div_r; [reflexivity |].
      assert (H9 : inject_Z k <= inject_Z 9) by (rewrite <- Zle_Qle; lia).
      assert (E9 : inject_Z 9 == 0.9 * inject_Z 10) by reflexivity.
      now rewrite <- E9.
  - repeat (split; [reflexivity |]). split; [lia |].
    intros _. repeat split.
Qed.

End TextsAndRotation.

Lemma rotation_of_camera_witness :
  exists out,
    Rev133304Draw.update rows 420 (Rev133304Draw.initial_figure rows)
    = Rev133304Draw.Done out /\
    Rev133304Draw.view out = (25, -60 + truediv 420 840 * 30) /\
    Rev133304Draw.update rows (10 ^ 400) (Rev133304Draw.initial_figure rows)
    = Rev133304Draw.Failed Rev133304Draw.OverflowError.
Proof.
  assert (Hn : (1 <= Rev133304Draw.n rows)%Z) by (vm_compute; discriminate).
  assert (Hin : (0 <= 420 < Rev133304Draw.total_frames rows)%Z)
    by (split; [lia | reflexivity]).
  assert (Hcs : Z.of_nat (length (Rev133304Draw.circles_3d
                                    (Rev133304Draw.initial_figure rows)))
                = Rev133304Draw.n rows) by reflexivity.
  assert (Hgs : Z.of_nat (length (Rev133304Draw.glows_3d
                                    (Rev133304Draw.initial_figure rows)))
                = Rev133304Draw.n rows) by reflexivity.
  destruct (rotation_of_camera rows Hn 420 (Rev133304Draw.initial_figure rows)
              Hin Hcs Hgs) as (out & Hout & Hview & _ & _ & _ & _ & _ & Hover).
  exists out. split; [exact Hout |]. split; [exact Hview |].
  apply Hover. vm_compute. discriminate.
Defined.

Lemma texts_of_current_row_witness :
  exists out,
    Rev133304Draw.update rows 65 (Rev133304Draw.initial_figure rows)
    = Rev133304Draw.Done out /\
    t_text (Rev133304Draw.status_text out) = Literal "WARNING".
Proof.
  assert (Hn : (1 <= Rev133304Draw.n rows)%Z) by (vm_compute; discriminate).
  assert (Hin : (0 <= 65 < Rev133304Draw.total_frames rows)%Z)
    by (split; [lia | reflexivity]).
  assert (Hcs : Z.of_nat (length (Rev133304Draw.circles_3d
                                    (Rev133304Draw.initial_figure rows)))
                = Rev133304Draw.n rows) by reflexivity.
  assert (Hgs : Z.of_nat (length (Rev133304Draw.glows_3d
                                    (Rev133304Draw.initial_figure rows)))
                = Rev133304Draw.n rows) by reflexivity.
  destruct (texts_of_current_row rows Hn 65 (Rev133304Draw.initial_figure rows)
              Hin Hcs Hgs)
    as (out & vi & li & Hout & Hv & _ & _ & _ & Hstatus & _).
  exists out. split; [exact Hout |]. rewrite Hstatus.
  vm_compute in Hv. injection Hv as <-. reflexivity.
Defined.

(** ** Revision 073806 in detail *)

Section Frames073806.

Import Rev133304Draw Rev073806.

Variable data : list (string * Q).

Local Notation "'P1'" := (Rev073806.PHASE1_FRAMES data).
Local Notation "'P2'" := Rev073806.PHASE2_FRAMES.
Local Notation "'P3'" := Rev073806.PHASE3_FRAMES.
Local Notation "'rows_n'" := (Rev073806.n data).

Lemma length_r_073806 : Z.of_nat (length (Rev073806.r data)) = rows_n.
Proof. unfold Rev073806.r, Rev073806.n. now rewrite length_map. Qed.

Lemma length_labels_073806 :
  Z.of_nat (length (Rev073806.labels data)) = rows_n.
Proof.
  unfold Rev073806.labels, Rev073806.n, Rev073806.vals.
  now rewrite !length_map.
Qed.

Lemma n_nonneg_073806 : (0 <= rows_n)%Z.
Proof. unfold Rev073806.n. lia. Qed.

Lemma circles_073806 (z alpha lw : Z -> Q) (k : Z) :
  (k <= rows_n)%Z ->
  exists cs,
    for_each (fun i => Rev073806.full_circle data (z i) (alpha i) (lw i) i)
      (range k) = Ok cs /\
    length cs = Z.to_nat k /\
    forall j line, cs !! j = Some line ->
      Rev073806.r data !! j = Some (ln_radius line) /\
      pct_color <$> Rev073806.vals data !! j = Some (ln_color line) /\
      ln_turn line = 1 /\ ln_points line = 200%Z /\
      ln_z line = z (Z.of_nat j) /\ ln_alpha line = alpha (Z.of_nat j) /\
      ln_lw line = lw (Z.of_nat j).
Proof.
  intros Hk.
  destruct (for_each_succeeds
              (fun i => Rev073806.full_circle data (z i) (alpha i) (lw i) i)
              (range k)) as [cs Ecs].
  { intros j x Hj. apply range_lookup in Hj as [_ Hx].
    unfold Rev073806.full_circle.
    destruct (getitem_in_range (Rev073806.r data) x) as (ri & -> & _);
      [rewrite length_r_073806; lia |].
    destruct (getitem_in_range (Rev073806.vals data) x) as (vi & -> & _);
      [fold rows_n; lia |].
    simpl. now eexists. }
  exists cs. split; [exact Ecs |].
  apply for_each_lookup in Ecs as [Hlen Hget]. split.
  - rewrite Hlen. unfold range. now rewrite length_map, length_seq.
  - intros j line Hj. destruct (Hget j line Hj) as (x & Hx & Hbody).
    apply range_lookup in Hx as [-> Hx].
    unfold Rev073806.full_circle in Hbody.
    destruct (getitem (Rev073806.r data) (Z.of_nat j)) as [ri |] eqn:Er;
      simpl in Hbody; [| discriminate].
    destruct (getitem (Rev073806.vals data) (Z.of_nat j)) as [vi |] eqn:Ev;
      simpl in Hbody; [| discriminate].
    injection Hbody as <-. simpl.
    apply getitem_ok_lookup in Er; [| lia].
    apply getitem_ok_lookup in Ev; [| lia].
    rewrite Nat2Z.id in Er, Ev. rewrite Er, Ev.
    repeat split; reflexivity.
Qed.

Lemma side_labels_073806 (step : Z) (z_spacing alpha : Q) :
  (0 < step)%Z ->
  exists ls,
    Rev073806.side_labels data step z_spacing alpha = Ok ls /\
    length ls = Z.to_nat ((rows_n + step - 1) / step) /\
    forall j lb, ls !! j = Some lb ->
      Rev073806.labels data !! (j * Z.to_nat step)%nat = Some (lb_text lb) /\
      lb_pos lb = (1.0, 0, inject_Z (Z.of_nat j * step) * z_spacing) /\
      lb_alpha lb = alpha.
Proof.
  intros Hstep. unfold Rev073806.side_labels.
  match goal with
  | |- context [for_each ?f ?l] =>
      destruct (for_each_succeeds f l) as [ls Els]
  end.
  { intros j x Hj. apply (range_step_lookup _ _ _ _ Hstep) in Hj.
    destruct (getitem_in_range (Rev073806.labels data) x) as (li & -> & _);
      [rewrite length_labels_073806; exact Hj |].
    simpl. now eexists. }
  exists ls. split; [exact Els |].
  apply for_each_lookup in Els as [Hlen Hget]. split.
  - now rewrite Hlen, range_step_length.
  - intros j lb Hj. destruct (Hget j lb Hj) as (x & Hx & Hbody).
    pose proof (range_step_lookup _ _ _ _ Hstep Hx) as Hrange.
    apply range_step_lookup_value in Hx. subst x.
    destruct (getitem (Rev073806.labels data) (Z.of_nat j * step)) as [li |] eqn:El;
      simpl in Hbody; [| discriminate].
    injection Hbody as <-. simpl.
    apply getitem_ok_lookup in El; [| lia].
    replace (Z.to_nat (Z.of_nat j * step)) with (j * Z.to_nat step)%nat in El
      by lia.
    auto.
Qed.

(** the circle of phase 1, as the code computes it *)
Lemma spiral_index (frame : Z) :
  (0 <= frame < P1)%Z ->
  let raw :=
    int_of (binary64 (binary64 (truediv frame P1) * binary64 (inject_Z rows_n))) in
  (0 <= (if (raw >=? rows_n)%Z then rows_n - 1 else raw) < rows_n)%Z.
Proof.
  intros Hin raw.
  assert (Hn : (1 <= rows_n)%Z).
  { pose proof n_nonneg_073806. unfold Rev073806.PHASE1_FRAMES in Hin. lia. }
  assert (Hraw : (0 <= raw)%Z).
  { apply int_of_nonneg, binary64_nonneg. apply Qmult_le_0_compat.
    - apply binary64_nonneg.
      destruct (truediv_unit frame P1 Hin) as [H0 _]. exact H0.
    - apply binary64_nonneg, inject_Z_nonneg. lia. }
  destruct (Z.geb_spec raw rows_n); lia.
Qed.

(** X19. A frame of phase 1 of revision 073806 draws the circles of
    rows 0 .. idx, flat and complete, each with the radius and colour of
    its row: the newest (row idx) with opacity 0.8 and width 2.5, the
    earlier ones with opacity 0.4 and width 1.5.  The row idx is
    int(frame / PHASE1_FRAMES * n), quotient and product rounded as
    floats, replaced by n - 1 when it reaches n.  On every such frame
    the value, date and status texts are rewritten for row idx (value
    and status in their colours), with the opacity they had before, and
    the camera looks from the top.  No division by zero can occur. *)
Theorem flat_spiral_073806 (frame : Z) (fig : Rev073806.figure)
    (Hin : (0 <= frame < P1)%Z) :
  let raw :=
    int_of (binary64 (binary64 (truediv frame P1) * binary64 (inject_Z rows_n))) in
  let idx := Z.to_nat (if (raw >=? rows_n)%Z then rows_n - 1 else raw) in
  exists out vi li,
    Rev073806.update data frame fig = Done out /\
    (idx < length data)%nat /\
    Rev073806.vals data !! idx = Some vi /\
    Rev073806.labels data !! idx = Some li /\
    length (Rev073806.lines out) = S idx /\
    (forall j line, Rev073806.lines out !! j = Some line ->
       Rev073806.r data !! j = Some (ln_radius line) /\
       pct_color <$> Rev073806.vals data !! j = Some (ln_color line) /\
       ln_turn line = 1 /\ ln_points line = 200%Z /\ ln_z line = 0 /\
       (j = idx -> ln_alpha line = 0.8 /\ ln_lw line = 2.5) /\
       (j <> idx -> ln_alpha line = 0.4 /\ ln_lw line = 1.5)) /\
    Rev073806.date_labels_3d out = [] /\
    Rev073806.main_text out
    = {| t_text := Percent 2 vi; t_color := RGB (pct_color vi);
         t_alpha := t_alpha (Rev073806.main_text fig) |} /\
    Rev073806.status_text out
    = {| t_text := Literal (fst (get_status vi));
         t_color := Hex (snd (get_status vi));
         t_alpha := t_alpha (Rev073806.status_text fig) |} /\
    Rev073806.date_text out
    = {| t_text := Literal li;
         t_color := t_color (Rev073806.date_text fig);
         t_alpha := t_alpha (Rev073806.date_text fig) |} /\
    Rev073806.view out = (90, 0).
Proof.
  intros raw idx.
  set (item_idx := if (raw >=? rows_n)%Z then (rows_n - 1)%Z else raw) in *.
  assert (Hidx : (0 <= item_idx < rows_n)%Z) by exact (spiral_index frame Hin).
  assert (Hnlen : rows_n = Z.of_nat (length data)).
  { unfold Rev073806.n, Rev073806.vals. now rewrite length_map. }
  destruct (circles_073806 (fun _ => 0)
              (fun i => if (i =? item_idx)%Z then 0.8 else 0.4)
              (fun i => if (i =? item_idx)%Z then 2.5 else 1.5)
              (item_idx + 1)) as (cs & Ecs & Hlen & Hcs); [lia |].
  destruct (getitem_in_range (Rev073806.vals data) item_idx) as (vi & Ev & Hv);
    [fold rows_n; lia |].
  destruct (getitem_in_range (Rev073806.labels data) item_idx) as (li & El & Hl);
    [rewrite length_labels_073806; lia |].
  assert (Eout :
    Rev073806.update data frame fig
    = Done {| Rev073806.lines := cs;
              Rev073806.date_labels_3d := [];
              Rev073806.main_text :=
                set_color (RGB (pct_color vi))
                  (set_text (Percent 2 vi) (Rev073806.main_text fig));
              Rev073806.status_text :=
                set_color (Hex (snd (get_status vi)))
                  (set_text (Literal (fst (get_status vi)))
                     (Rev073806.status_text fig));
              Rev073806.date_text :=
                set_text (Literal li) (Rev073806.date_text fig);
              Rev073806.view := (90, 0) |}).
  { unfold Rev073806.update.
    destruct (Z.ltb_spec frame P1); [| lia].
    rewrite checked_truediv_unit by exact Hin.
    cbv zeta. fold raw. fold item_idx. rewrite Ecs. cbn [lift rbind].
    destruct (Z.ltb_spec item_idx rows_n); [| lia].
    rewrite Ev. cbn [rbind]. rewrite El. reflexivity. }
  eexists _, vi, li. split; [exact Eout |].
  cbn [Rev073806.lines Rev073806.date_labels_3d Rev073806.main_text
       Rev073806.status_text Rev073806.date_text Rev073806.view].
  split; [unfold idx; lia |]. split; [exact Hv |]. split; [exact Hl |].
  split; [rewrite Hlen; unfold idx; lia |].
  split; [| repeat split].
  intros j line Hj. destruct (Hcs j line Hj) as (H1 & H2 & H3 & H4 & H5 & H6 & H7).
  repeat (split; [assumption |]).
  assert (Hjlt : (j < length cs)%nat) by (apply lookup_lt_is_Some; eauto).
  split.
  - intros ->. unfold idx in H6, H7. rewrite Z2Nat.id in H6, H7 by lia.
    rewrite Z.eqb_refl in H6, H7. auto.
  - intros Hne. destruct (Z.eqb_spec (Z.of_nat j) item_idx) as [E | _].
    + exfalso. apply Hne. unfold idx. lia.
    + auto.
Qed.

(** the views of phases 2 and 3 *)
Lemma transition_progress_073806 (frame : Z) :
  (P1 <= frame < P1 + P2)%Z ->
  0 <= ease_in_out (truediv (frame - P1) P2) /\
  ease_in_out (truediv (frame - P1) P2) <= 1.
Proof.
  intros Hin.
  destruct (truediv_unit (frame - P1) P2) as [H0 H1]; [lia |].
  apply ease_in_out_unit; lra.
Qed.

Lemma tilt_progress_073806 (frame : Z) :
  (P1 + P2 <= frame < P1 + P2 + P3)%Z ->
  0 <= ease_in_out (truediv (frame - P1 - P2) P3) /\
  ease_in_out (truediv (frame - P1 - P2) P3) <= 1.
Proof.
  intros Hin.
  destruct (truediv_unit (frame - P1 - P2) P3) as [H0 H1]; [lia |].
  apply ease_in_out_unit; lra.
Qed.

(** the artists after a frame from phase 2 on *)
Lemma update_later_073806 (frame : Z) (fig : Rev073806.figure) :
  (P1 <= frame)%Z ->
  exists cs ls3 ls2,
    length cs = length data /\
    Rev073806.side_labels data 3 0.08
      ((ease_in_out (truediv (frame - P1 - P2) P3) - 0.5) * 2) = Ok ls3 /\
    Rev073806.side_labels data 2 0.08 0.9 = Ok ls2 /\
    Rev073806.update data frame fig
    = Done
        (if (frame <? P1 + P2)%Z then
           let t := ease_in_out (truediv (frame - P1) P2) in
           {| Rev073806.lines := cs;
              Rev073806.date_labels_3d := [];
              Rev073806.main_text :=
                set_alpha (0.95 * (1 - t)) (Rev073806.main_text fig);
              Rev073806.status_text :=
                set_alpha (0.9 * (1 - t)) (Rev073806.status_text fig);
              Rev073806.date_text :=
                set_alpha (0.9 * (1 - t)) (Rev073806.date_text fig);
              Rev073806.view := (90 - 40 * t, 0) |}
         else if (frame <? P1 + P2 + P3)%Z then
           let t := ease_in_out (truediv (frame - P1 - P2) P3) in
           {| Rev073806.lines := cs;
              Rev073806.date_labels_3d := if Qgtb t 0.5 then ls3 else [];
              Rev073806.main_text := set_alpha 0 (Rev073806.main_text fig);
              Rev073806.status_text := set_alpha 0 (Rev073806.status_text fig);
              Rev073806.date_text := set_alpha 0 (Rev073806.date_text fig);
              Rev073806.view := (50 - 50 * t, 0 + 0 * t) |}
         else
           {| Rev073806.lines := cs;
              Rev073806.date_labels_3d := ls2;
              Rev073806.main_text := set_alpha 0 (Rev073806.main_text fig);
              Rev073806.status_text := set_alpha 0 (Rev073806.status_text fig);
              Rev073806.date_text := set_alpha 0 (Rev073806.date_text fig);
              Rev073806.view := (0, 0) |}).
Proof.
  intros Hin.
  assert (HP2 : (0 < P2)%Z) by reflexivity.
  assert (HP3 : (0 < P3)%Z) by reflexivity.
  assert (Hnlen : Z.to_nat rows_n = length data).
  { unfold Rev073806.n, Rev073806.vals. rewrite length_map. lia. }
  destruct (side_labels_073806 3 0.08
              ((ease_in_out (truediv (frame - P1 - P2) P3) - 0.5) * 2))
    as (ls3 & Els3 & _); [lia |].
  destruct (side_labels_073806 2 0.08 0.9) as (ls2 & Els2 & _); [lia |].
  unfold Rev073806.update.
  destruct (Z.ltb_spec frame P1); [lia |].
  destruct (Z.ltb_spec frame (P1 + P2)).
  - destruct (circles_073806
                (fun i => inject_Z i
                          * (0.08 * ease_in_out (truediv (frame - P1) P2)))
                (fun _ => 0.7) (fun _ => 2.0) rows_n)
      as (cs & Ecs & Hlen & _); [lia |].
    exists cs, ls3, ls2. split; [now rewrite Hlen |].
    split; [exact Els3 |]. split; [exact Els2 |].
    cbv zeta. rewrite Ecs. reflexivity.
  - destruct (circles_073806 (fun i => inject_Z i * 0.08)
                (fun _ => 0.8) (fun _ => 2.0) rows_n)
      as (cs & Ecs & Hlen & _); [lia |].
    exists cs, ls3, ls2. split; [now rewrite Hlen |].
    split; [exact Els3 |]. split; [exact Els2 |].
    destruct (Z.ltb_spec frame (P1 + P2 + P3)); cbv zeta; rewrite Ecs;
      cbn [lift rbind].
    + destruct (Qgtb _ 0.5); [rewrite Els3 |]; reflexivity.
    + rewrite Els2. reflexivity.
Qed.

End Frames073806.

Lemma flat_spiral_073806_witness :
  exists out,
    Rev073806.update (take 22 rows) 525 Rev073806.initial_figure
    = Rev133304Draw.Done out /\
    length (Rev073806.lines out) = 15%nat /\
    t_text (Rev073806.date_text out) = Literal "1404/09/17" /\
    Rev073806.view out = (90, 0).
Proof.
  assert (Hin : (0 <= 525 < Rev073806.PHASE1_FRAMES (take 22 rows))%Z)
    by (split; [lia | reflexivity]).
  destruct (flat_spiral_073806 (take 22 rows) 525 Rev073806.initial_figure Hin)
    as (out & vi & li & Hout & _ & _ & Hl & Hlen & _ & _ & _ & _ & Hdate & Hview).
  vm_compute in Hl. injection Hl as <-.
  exists out. split; [exact Hout |]. split; [exact Hlen |].
  split; [rewrite Hdate; reflexivity | exact Hview].
Defined.

Section Later073806.

Import Rev133304Draw Rev073806.

Variable data : list (string * Q).

Local Notation "'P1'" := (Rev073806.PHASE1_FRAMES data).
Local Notation "'P2'" := Rev073806.PHASE2_FRAMES.
Local Notation "'P3'" := Rev073806.PHASE3_FRAMES.
Local Notation "'rows_n'" := (Rev073806.n data).

Lemma flat_view_073806 (frame : Z) (fig : Rev073806.figure) :
  (0 <= frame < P1)%Z ->
  exists out,
    Rev073806.update data frame fig = Done out /\
    Rev073806.view out = (90, 0).
Proof.
  intros Hin.
  pose proof (spiral_index data frame Hin) as Hidx. cbv zeta in Hidx.
  unfold Rev073806.update.
  destruct (Z.ltb_spec frame P1); [| lia].
  rewrite checked_truediv_unit by exact Hin.
  cbv zeta.
  set (item_idx := if (_ >=? rows_n)%Z then (rows_n - 1)%Z else _) in *.
  destruct (circles_073806 data (fun _ => 0)
              (fun i => if (i =? item_idx)%Z then 0.8 else 0.4)
              (fun i => if (i =? item_idx)%Z then 2.5 else 1.5)
              (item_idx + 1)) as (cs & Ecs & _); [lia |].
  rewrite Ecs. cbn [lift rbind].
  destruct (Z.ltb_spec item_idx rows_n); [| lia].
  destruct (getitem_in_range (Rev073806.vals data) item_idx) as (vi & -> & _);
    [fold rows_n; lia |].
  destruct (getitem_in_range (Rev073806.labels data) item_idx) as (li & -> & _);
    [rewrite length_labels_073806; lia |].
  eexists. split; reflexivity.
Qed.

(** X20. Revision 073806 returns for every frame 0, 1, 2, ... and only
    tilts its camera: the azimuth is 0 throughout, the elevation is 90
    in phase 1 and at the first frame of phase 2, falls from 90 to 50
    during phase 2, is 50 at the first frame of phase 3, falls from 50
    to 0 during phase 3 and is 0 in the hold phase and for every later
    frame. *)
Theorem camera_tilts_073806 (frame : Z) (fig : Rev073806.figure)
    (Hlo : (0 <= frame)%Z) :
  exists out elev azim,
    Rev073806.update data frame fig = Done out /\
    Rev073806.view out = (elev, azim) /\
    azim == 0 /\
    ((frame <= P1)%Z -> elev == 90) /\
    ((P1 <= frame < P1 + P2)%Z -> 50 <= elev /\ elev <= 90) /\
    (frame = (P1 + P2)%Z -> elev == 50) /\
    ((P1 + P2 <= frame < P1 + P2 + P3)%Z -> 0 <= elev /\ elev <= 50) /\
    ((P1 + P2 + P3 <= frame)%Z -> elev == 0).
Proof.
  assert (HP2 : (0 < P2)%Z) by reflexivity.
  assert (HP3 : (0 < P3)%Z) by reflexivity.
  destruct (Z.lt_ge_cases frame P1) as [H1 | H1].
  - destruct (flat_view_073806 frame fig (conj Hlo H1)) as (out & Eout & Hview).
    exists out, 90, 0. split; [exact Eout |]. split; [exact Hview |].
    split; [reflexivity |]. split; [reflexivity |].
    repeat split; intros; lia.
  - destruct (update_later_073806 data frame fig H1)
      as (cs & ls3 & ls2 & _ & _ & _ & Eout).
    destruct (Z.ltb_spec frame (P1 + P2)) as [H2 | H2];
      [| destruct (Z.ltb_spec frame (P1 + P2 + P3)) as [H3 | H3]];
      cbv zeta in Eout.
    + destruct (transition_progress_073806 data frame (conj H1 H2)) as [Ht0 Ht1].
      eexists _, _, _. split; [exact Eout |].
      cbn [Rev073806.view]. split; [reflexivity |]. split; [reflexivity |].
      split; [| split; [intros _; split; lra | repeat split; intros; lia]].
      intros Hle. assert (frame = P1) as -> by lia.
      rewrite Z.sub_diag. reflexivity.
    + destruct (tilt_progress_073806 data frame (conj H2 H3)) as [Ht0 Ht1].
      eexists _, _, _. split; [exact Eout |].
      cbn [Rev073806.view]. split; [reflexivity |]. split; [ring |].
      split; [intros; lia |]. split; [intros; lia |].
      split; [| split; [intros _; split; lra | intros; lia]].
      intros ->. replace (P1 + P2 - P1 - P2)%Z with 0%Z by lia. reflexivity.
    + eexists _, _, _. split; [exact Eout |].
      cbn [Rev073806.view]. split; [reflexivity |]. split; [reflexivity |].
      split; [intros; lia |]. split; [intros; lia |].
      split; [intros; lia |]. split; [intros; lia |]. reflexivity.
Qed.

Lemma stride3_alpha_bounds (t : Q) :
  0.5 < t -> t <= 1 -> 0 < (t - 0.5) * 2 /\ (t - 0.5) * 2 <= 1.
Proof. intros H0 H1. split; lra. Qed.

(** X21. The date labels of revision 073806.  Phase 3 shows none while
    the eased progress t is at most 0.5 and then labels every third row
    (ceil(n/3) labels, the j-th with the text of row 3j at height
    3j * 0.08, opacity 2 (t - 0.5) in (0, 1]); the hold phase labels
    every second row instead (ceil(n/2) labels, row 2j at height
    2j * 0.08, opacity 0.9).  Phase 2 shows no labels. *)
Theorem label_stride_073806 (frame : Z) (fig : Rev073806.figure)
    (Hin : (P1 <= frame)%Z) :
  let t := ease_in_out (truediv (frame - P1 - P2) P3) in
  exists out,
    Rev073806.update data frame fig = Done out /\
    length (Rev073806.lines out) = length data /\
    ((frame < P1 + P2)%Z -> Rev073806.date_labels_3d out = []) /\
    ((P1 + P2 <= frame < P1 + P2 + P3)%Z -> t <= 0.5 ->
       Rev073806.date_labels_3d out = []) /\
    ((P1 + P2 <= frame < P1 + P2 + P3)%Z -> 0.5 < t ->
       length (Rev073806.date_labels_3d out) = Z.to_nat ((rows_n + 2) / 3) /\
       forall j lb, Rev073806.date_labels_3d out !! j = Some lb ->
         Rev073806.labels data !! (j * 3)%nat = Some (lb_text lb) /\
         lb_pos lb = (1.0, 0, inject_Z (Z.of_nat j * 3) * 0.08) /\
         lb_alpha lb = (t - 0.5) * 2 /\
         0 < lb_alpha lb /\ lb_alpha lb <= 1) /\
    ((P1 + P2 + P3 <= frame)%Z ->
       length (Rev073806.date_labels_3d out) = Z.to_nat ((rows_n + 1) / 2) /\
       forall j lb, Rev073806.date_labels_3d out !! j = Some lb ->
         Rev073806.labels data !! (j * 2)%nat = Some (lb_text lb) /\
         lb_pos lb = (1.0, 0, inject_Z (Z.of_nat j * 2) * 0.08) /\
         lb_alpha lb = 0.9).
Proof.
  intros t.
  assert (HP2 : (0 < P2)%Z) by reflexivity.
  assert (HP3 : (0 < P3)%Z) by reflexivity.
  destruct (update_later_073806 data frame fig Hin)
    as (cs & ls3 & ls2 & Hlen & Els3 & Els2 & Eout).
  fold t in Els3, Eout.
  destruct (side_labels_073806 data 3 0.08 ((t - 0.5) * 2))
    as (ls3' & Els3' & Hlen3 & Hls3); [lia |].
  destruct (side_labels_073806 data 2 0.08 0.9)
    as (ls2' & Els2' & Hlen2 & Hls2); [lia |].
  assert (ls3' = ls3) as -> by congruence.
  assert (ls2' = ls2) as -> by congruence.
  destruct (Z.ltb_spec frame (P1 + P2)) as [H2 | H2];
    [| destruct (Z.ltb_spec frame (P1 + P2 + P3)) as [H3 | H3]];
    cbv zeta in Eout; fold t in Eout;
    (eexists; split; [exact Eout |]);
    cbn [Rev073806.lines Rev073806.date_labels_3d];
    (split; [exact Hlen |]).
  - split; [reflexivity |]. repeat split; intros; lia.
  - split; [intros; lia |].
    destruct (tilt_progress_073806 data frame (conj H2 H3)) as [Ht0 Ht1].
    fold t in Ht0, Ht1.
    destruct (Qgtb_cases t 0.5) as [[-> Ht] | [-> Ht]].
    + split; [intros _ Hle; lra |]. split; [| intros; lia].
      intros _ _. split.
      * rewrite Hlen3. f_equal. f_equal. lia.
      * intros j lb Hj. destruct (Hls3 j lb Hj) as (Ha & Hb & Hc).
        rewrite Hc. pose proof (stride3_alpha_bounds t Ht Ht1) as [? ?].
        repeat (split; [first [assumption | reflexivity] |]). assumption.
    + split; [reflexivity |]. split; [intros _ Hgt; lra | intros; lia].
  - split; [intros; lia |]. split; [intros; lia |]. split; [intros; lia |].
    intros _. split.
    + rewrite Hlen2. f_equal. f_equal. lia.
    + intros j lb Hj. destruct (Hls2 j lb Hj) as (Ha & Hb & Hc). auto.
Qed.

End Later073806.

Lemma camera_tilts_073806_witness :
  exists out elev azim,
    Rev073806.update rows 980 Rev073806.initial_figure = Rev133304Draw.Done out /\
    Rev073806.view out = (elev, azim) /\ elev == 90.
Proof.
  assert (Hlo : (0 <= 980)%Z) by lia.
  destruct (camera_tilts_073806 rows 980 Rev073806.initial_figure Hlo)
    as (out & elev & azim & Hout & Hview & _ & Hflat & _).
  exists out, elev, azim. split; [exact Hout |]. split; [exact Hview |].
  apply Hflat. vm_compute. discriminate.
Defined.

Lemma label_stride_073806_witness :
  exists out,
    Rev073806.update rows 1200 Rev073806.initial_figure = Rev133304Draw.Done out /\
    length (Rev073806.date_labels_3d out) = 14%nat.
Proof.
  assert (Hin : (Rev073806.PHASE1_FRAMES rows <= 1200)%Z)
    by (vm_compute; discriminate).
  destruct (label_stride_073806 rows 1200 Rev073806.initial_figure Hin)
    as (out & Hout & _ & _ & _ & _ & Hhold).
  exists out. split; [exact Hout |].
  apply Hhold. vm_compute. discriminate.
Defined.

(** ** Start-up and [init] *)

(** X22. The last revision stops at start-up with
    SystemExit("rows is empty") exactly when the dataset is empty and
    otherwise starts from the initial artists; from then on (in fact for
    any dataset and any state of the artists) [update] returns for every
    frame 0, 1, 2, ..., also past total_frames: no index is ever out of
    range. *)
Theorem start_guard_then_no_failure (data : list (string * Q)) :
  (data = [] ->
     Rev081346.startup data = Raise (SystemExit "rows is empty")) /\
  (data <> [] -> Rev081346.startup data = Ok Rev081346.initial_figure) /\
  (forall frame fig, (0 <= frame)%Z ->
     exists out, Rev081346.update data frame fig = Ok out).
Proof.
  destruct (startup_guard data) as [Hempty Hfull].
  split; [exact Hempty |]. split; [exact Hfull |].
  intros frame fig Hlo. exact (update_succeeds data frame fig Hlo).
Qed.



